(** * Hours, cost and reporting computations of the rygrove time-tracking site

    A shallow embedding of the derived-value code of the React front end
    (time-entry form, admin table, activity dashboard, invoice page and
    estimate worksheet) together with the properties its specification
    states about it.

    Conventions of the embedding.
    - A JavaScript [number] is an IEEE-754 binary64 value: [float] with the
      primitive operations of the kernel.  Integer-valued intermediate
      results (minutes) are kept in [Z] and converted where the source
      divides.
    - A time of day (["HH:MM"], echoed by the database as ["HH:MM:00"]) is a
      record of hour and minute; the time inputs of the forms have minute
      resolution.
    - A calendar date (["yyyy-MM-dd"]) is its day ordinal (days since
      1970-01-01); [parseISO], [format 'yyyy-MM-dd'] and the lexicographic
      order on such strings become the identity and the order of [Z].
    - A [Map] or [Set] is the list of its entries in insertion order
      ([Dict]).  A plain object used as a dictionary is the list of its own
      properties in insertion order together with what it inherits from
      [Object.prototype] ([Obj]): a read goes through the prototype chain,
      and [Object.keys] and [Object.entries] list array-index keys first. *)

From Stdlib Require Import ZArith Floats String Ascii List Bool Lia DecimalString.
From stdpp Require Import gmap strings list sorting.

Open Scope Z_scope.

(** ** Part I: the embedding *)

(** *** ECMAScript numbers *)

Module JS.

(** The float nearest to an integer (round to nearest, ties to even). *)
Definition of_Z (z : Z) : float :=
  SF2Prim (binary_normalize prec emax z 0 false).

(** The float nearest to [p / q], for [0 <= p] and [0 < q]: the value of a
    decimal literal. *)
Definition nearest (p q : Z) : float :=
  if p =? 0 then 0%float else
  let t := Z.log2 p - Z.log2 q in
  let below := if 0 <=? t then p <? q * 2 ^ t else p * 2 ^ (- t) <? q in
  let e1 := if below then t - 53 else t - 52 in
  let e := Z.max e1 (-1074) in
  let num := if 0 <=? e then p else p * 2 ^ (- e) in
  let den := if 0 <=? e then q * 2 ^ e else q in
  let m := num / den in
  let r := num mod den in
  let m' := if (den <? 2 * r) || ((den =? 2 * r) && Z.odd m) then m + 1 else m in
  SF2Prim (binary_normalize prec emax m' e false).

(** Truthiness of a number: everything but [0], [-0] and [NaN]. *)
Definition truthy (x : float) : bool :=
  negb (PrimFloat.eqb x 0 || PrimFloat.is_nan x).

(** [x || d] on numbers. *)
Definition or_else (x d : float) : float := if truthy x then x else d.

Definition digits (n : Z) : string :=
  NilZero.string_of_uint (N.to_uint (Z.to_N n)).

Fixpoint zeros (k : nat) : string :=
  match k with
  | O => EmptyString
  | S k' => String "0" (zeros k')
  end.

Fixpoint take (k : nat) (s : string) : string :=
  match k, s with
  | S k', String c s' => String c (take k' s')
  | _, _ => EmptyString
  end.

Fixpoint drop (k : nat) (s : string) : string :=
  match k, s with
  | S k', String _ s' => drop k' s'
  | _, _ => s
  end.

(** [Number::toString(x)] in radix 10: the shortest digit string [s] (of [k]
    digits) and exponent [n] with [s * 10^(n-k)] converting back to [x], the
    one closest to [x] among them, laid out as ECMAScript prescribes. *)

(** [10^n <= num/den] *)
Definition pow10_le (n num den : Z) : bool :=
  if 0 <=? n then 10 ^ n * den <=? num else den <=? num * 10 ^ (- n).

Fixpoint search_exp10 (fuel : nat) (n num den : Z) : Z :=
  match fuel with
  | O => n
  | S fuel' => if pow10_le n num den then search_exp10 fuel' (n + 1) num den else n
  end.

(** The [n] with [10^(n-1) <= num/den < 10^n]. *)
Definition exp10 (num den : Z) : Z :=
  let a := ((Z.log2 num - Z.log2 den) * 30103) / 100000 in
  search_exp10 8 (a - 2) num den.

(** Candidates [(s, n)] with [k] digits around [num/den]. *)
Definition candidates (x : float) (num den : Z) (k n : Z) : list (Z * Z) :=
  let s_lo := if 0 <=? n - k then num / (den * 10 ^ (n - k))
              else (num * 10 ^ (k - n)) / den in
  List.filter
    (fun c : Z * Z =>
       let s := fst c in
       (10 ^ (k - 1) <=? s) && (s <? 10 ^ k) &&
       PrimFloat.eqb
         (if 0 <=? n - k then nearest (s * 10 ^ (n - k)) 1
          else nearest s (10 ^ (k - n))) x)
    ((s_lo, n) :: (s_lo + 1, n) :: nil).

(** [|s * 10^(n-k) - num/den|], scaled by a common positive factor when both
    candidates have the same [n]; compared across [n] through the fraction. *)
Definition distance (num den k : Z) (c : Z * Z) : Z * Z :=
  let '(s, n) := c in
  if 0 <=? n - k then (Z.abs (s * 10 ^ (n - k) * den - num), den)
  else (Z.abs (s * den - num * 10 ^ (k - n)), den * 10 ^ (k - n)).

Definition closer (num den k : Z) (c1 c2 : Z * Z) : Z * Z :=
  let '(a1, b1) := distance num den k c1 in
  let '(a2, b2) := distance num den k c2 in
  if a2 * b1 <? a1 * b2 then c2
  else if (a2 * b1 =? a1 * b2) && Z.even (fst c2) then c2
  else c1.

Fixpoint shortest (fuel : nat) (x : float) (num den k n0 : Z) : Z * Z * Z :=
  match fuel with
  | O => (0, k, n0)
  | S fuel' =>
      match candidates x num den k n0 ++ candidates x num den k (n0 + 1) with
      | c :: cs =>
          let '(s, n) := fold_left (closer num den k) cs c in (s, k, n)
      | nil => shortest fuel' x num den (k + 1) n0
      end
  end.

Definition exponent_part (e : Z) : string :=
  "e" +:+ (if 0 <=? e then "+" else "-") +:+ digits (Z.abs e).

Definition layout (s k n : Z) : string :=
  let d := digits s in
  if (k <=? n) && (n <=? 21) then d +:+ zeros (Z.to_nat (n - k))
  else if (0 <? n) && (n <=? 21) then
    take (Z.to_nat n) d +:+ "." +:+ drop (Z.to_nat n) d
  else if (-6 <? n) && (n <=? 0) then "0." +:+ zeros (Z.to_nat (- n)) +:+ d
  else if k =? 1 then d +:+ exponent_part (n - 1)
  else take 1 d +:+ "." +:+ drop 1 d +:+ exponent_part (n - 1).

Definition Number_toString (x : float) : string :=
  match Prim2SF x with
  | S754_nan => "NaN"
  | S754_zero _ => "0"
  | S754_infinity false => "Infinity"
  | S754_infinity true => "-Infinity"
  | S754_finite sgn m e =>
      let num := if 0 <=? e then Zpos m * 2 ^ e else Zpos m in
      let den := if 0 <=? e then 1 else 2 ^ (- e) in
      let '(s, k, n) := shortest 17 (abs x) num den 1 (exp10 num den) in
      if sgn then "-" +:+ layout s k n else layout s k n
  end.

(** The sign, the digits [s] and the exponent [e] of the shortest decimal
    [s * 10^e] that [Number::toString] prints for a finite [x]. *)
Definition shortest_decimal (x : float) : option (bool * Z * Z) :=
  match Prim2SF x with
  | S754_zero sgn => Some (sgn, 0, 0)
  | S754_finite sgn m e =>
      let num := if 0 <=? e then Zpos m * 2 ^ e else Zpos m in
      let den := if 0 <=? e then 1 else 2 ^ (- e) in
      let '(s, k, n) := shortest 17 (abs x) num den 1 (exp10 num den) in
      Some (sgn, s, n - k)
  | _ => None
  end.

(** [Number.prototype.toFixed(fd)]: the integer [n] with [n / 10^fd] nearest
    to the exact value of [|x|] (the larger one on a tie), printed with [fd]
    fraction digits. *)
Definition toFixed (fd : nat) (x : float) : string :=
  match Prim2SF x with
  | S754_nan => "NaN"
  | S754_infinity false => "Infinity"
  | S754_infinity true => "-Infinity"
  | S754_zero _ =>
      if Nat.eqb fd 0 then "0" else "0." +:+ zeros fd
  | S754_finite s m e =>
      if (0 <=? e) && (10 ^ 21 <=? Zpos m * 2 ^ e) then Number_toString x
      else
        let scaled := Zpos m * 10 ^ Z.of_nat fd in
        let n := if 0 <=? e then scaled * 2 ^ e
                 else (2 * scaled + 2 ^ (- e)) / 2 ^ (- e + 1) in
        let d := digits n in
        let k := String.length d in
        let d' := if Nat.leb k fd then zeros (fd + 1 - k)%nat +:+ d else d in
        let k' := String.length d' in
        let body := if Nat.eqb fd 0 then d'
                    else take (k' - fd)%nat d' +:+ "." +:+ drop (k' - fd)%nat d' in
        if s then "-" +:+ body else body
  end.

Fixpoint split_at (c : ascii) (s : string) : option (string * string) :=
  match s with
  | EmptyString => None
  | String a s' =>
      if Ascii.eqb a c then Some (EmptyString, s')
      else match split_at c s' with
           | Some (l, r) => Some (String a l, r)
           | None => None
           end
  end.

Definition uint_value (s : string) : option Z :=
  match NilEmpty.uint_of_string s with
  | Some u => Some (Z.of_N (N.of_uint u))
  | None => None
  end.

Definition int_value (s : string) : option Z :=
  match s with
  | String "-" s' =>
      if (String.length s' =? 0)%nat then None
      else match uint_value s' with Some v => Some (- v) | None => None end
  | String "+" s' =>
      if (String.length s' =? 0)%nat then None else uint_value s'
  | _ => if (String.length s =? 0)%nat then None else uint_value s
  end.

(** The magnitude denoted by an unsigned decimal literal
    [digits [. digits] [e [+-] digits]] (one side of the point may be
    empty). *)
Definition decimal_magnitude (s : string) : option float :=
  let '(mant, ex) := match split_at "e" s with
                     | Some (l, r) => (l, int_value r)
                     | None => (s, Some 0)
                     end in
  let '(ip, fp) := match split_at "." mant with
                   | Some (l, r) => (l, r)
                   | None => (mant, EmptyString)
                   end in
  if (String.length ip + String.length fp =? 0)%nat then None else
  match uint_value ip, uint_value fp, ex with
  | Some i, Some f, Some x =>
      let q := 10 ^ Z.of_nat (String.length fp) in
      if 0 <=? x then Some (nearest ((i * q + f) * 10 ^ x) q)
      else Some (nearest (i * q + f) (q * 10 ^ (- x)))
  | _, _, _ => None
  end.

(** [Number(s)] on the strings [toFixed] and [toString] produce: an optional
    sign followed by a decimal literal or [Infinity]; every other string
    used here ([NaN]) converts to [NaN]. *)
Definition Number (s : string) : float :=
  let '(neg, body) := match s with
                      | String "-" s' => (true, s')
                      | String "+" s' => (false, s')
                      | _ => (false, s)
                      end in
  let mag := if String.eqb body "Infinity" then Some infinity
             else decimal_magnitude body in
  match mag with
  | Some v => if neg then (- v)%float else v
  | None => nan
  end.

(** The remainder [x % y]: exact, with the sign of the dividend. *)
Definition rem (x y : float) : float :=
  match Prim2SF x, Prim2SF y with
  | S754_nan, _ | _, S754_nan | S754_infinity _, _ | _, S754_zero _ => nan
  | S754_zero _, _ | _, S754_infinity _ => x
  | S754_finite sx mx ex, S754_finite _ my ey =>
      let e := Z.min ex ey in
      let r := (Zpos mx * 2 ^ (ex - e)) mod (Zpos my * 2 ^ (ey - e)) in
      let v := SF2Prim (binary_normalize prec emax r e false) in
      if sx then (- v)%float else v
  end.

(** A stable sort by a comparator, as [Array.prototype.sort(cmp)] for a
    consistent [cmp]: [x] stays before [y] unless [cmp x y > 0]. *)
Section Sort.
Context {A : Type} (before : A -> A -> bool).

Fixpoint insert_sorted (x : A) (l : list A) : list A :=
  match l with
  | [] => [x]
  | y :: l' => if before x y then x :: l else y :: insert_sorted x l'
  end.

Definition sort (l : list A) : list A := foldr insert_sorted [] l.

End Sort.

(** The default [sort()] and [includes] on strings (code-unit order). *)
Definition sort_strings (l : list string) : list string := sort String.leb l.

Definition includes (x : string) (l : list string) : bool :=
  existsb (String.eqb x) l.

(** [Array.from(new Set(l))]: first occurrences, in order. *)
Fixpoint uniq_from (seen l : list string) : list string :=
  match l with
  | [] => []
  | x :: l' =>
      if includes x seen then uniq_from seen l'
      else x :: uniq_from (x :: seen) l'
  end.

Definition uniq (l : list string) : list string := uniq_from [] l.

End JS.

(** *** Insertion-ordered dictionaries ([Map] and [Set]) *)

Module Dict.

Section Dict.
Context {V : Type}.

Fixpoint get (k : string) (d : list (string * V)) : option V :=
  match d with
  | [] => None
  | (k', v) :: d' => if String.eqb k k' then Some v else get k d'
  end.

(** [d.set(k, v)] / [d[k] = v]: in place for a present key, appended
    otherwise. *)
Fixpoint set (k : string) (v : V) (d : list (string * V)) : list (string * V) :=
  match d with
  | [] => [(k, v)]
  | (k', v') :: d' =>
      if String.eqb k k' then (k, v) :: d' else (k', v') :: set k v d'
  end.

Definition has (k : string) (d : list (string * V)) : bool :=
  match get k d with Some _ => true | None => false end.

Definition keys (d : list (string * V)) : list string := map fst d.

End Dict.

End Dict.

(** *** Plain objects used as dictionaries *)

Module Obj.

(** The property names of [Object.prototype]: every object literal
    inherits them. *)
Definition prototype_keys : list string :=
  ["constructor"; "__defineGetter__"; "__defineSetter__"; "hasOwnProperty";
   "__lookupGetter__"; "__lookupSetter__"; "isPrototypeOf";
   "propertyIsEnumerable"; "toString"; "valueOf"; "__proto__";
   "toLocaleString"].

Definition inherited (k : string) : bool := JS.includes k prototype_keys.

(** The text an inherited property converts to when it is an operand of
    [+]: [__proto__] reads [Object.prototype] itself, every other name a
    built-in function ([constructor] is the function [Object]), whose text
    is the one V8 gives. *)
Definition inherited_text (k : string) : string :=
  if String.eqb k "__proto__" then "[object Object]"
  else "function " +:+ (if String.eqb k "constructor" then "Object" else k) +:+
       "() { [native code] }".

(** What [o[k]] reads. *)
Inductive Read (V : Type) :=
| Own (v : V)
| Inherited
| Undefined.
Arguments Own {V} v.
Arguments Inherited {V}.
Arguments Undefined {V}.

Section Obj.
Context {V : Type}.

Definition get (k : string) (o : list (string * V)) : Read V :=
  match Dict.get k o with
  | Some v => Own v
  | None => if inherited k then Inherited else Undefined
  end.

(** [o[k] = v] for a primitive [v]: an own property is written or made,
    except under [__proto__], whose setter ignores a primitive. *)
Definition set (k : string) (v : V) (o : list (string * V)) : list (string * V) :=
  if String.eqb k "__proto__" then o else Dict.set k v o.

(** An array index: the canonical decimal text of an integer from [0] to
    [2^32 - 2]. *)
Definition array_index (k : string) : option Z :=
  match JS.uint_value k with
  | Some n =>
      if String.eqb (JS.digits n) k && (n <=? 4294967294) then Some n else None
  | None => None
  end.

Definition is_index (kv : string * V) : bool :=
  match array_index (fst kv) with Some _ => true | None => false end.

Definition index_le (a b : string * V) : bool :=
  match array_index (fst a), array_index (fst b) with
  | Some i, Some j => i <=? j
  | _, _ => true
  end.

(** [Object.entries(o)]: the array-index keys in ascending order, then the
    other keys in the order they were made. *)
Definition entries (o : list (string * V)) : list (string * V) :=
  JS.sort index_le (List.filter is_index o) ++
  List.filter (fun kv => negb (is_index kv)) o.

End Obj.

End Obj.

(** *** Calendar dates *)

Module Calendar.

(** Year, month and day of a day ordinal (proleptic Gregorian calendar). *)
Definition civil (days : Z) : Z * Z * Z :=
  let z := days + 719468 in
  let era := z / 146097 in
  let doe := z - era * 146097 in
  let yoe := (doe - doe / 1460 + doe / 36524 - doe / 146096) / 365 in
  let doy := doe - (365 * yoe + yoe / 4 - yoe / 100) in
  let mp := (5 * doy + 2) / 153 in
  let d := doy - (153 * mp + 2) / 5 + 1 in
  let m := if mp <? 10 then mp + 3 else mp - 9 in
  let y := yoe + era * 400 + (if m <=? 2 then 1 else 0) in
  (y, m, d).

Definition pad (width : nat) (n : Z) : string :=
  let d := JS.digits n in
  JS.zeros (width - String.length d) +:+ d.

Definition month_abbr (m : Z) : string :=
  nth (Z.to_nat (m - 1))
    ["Jan"; "Feb"; "Mar"; "Apr"; "May"; "Jun";
     "Jul"; "Aug"; "Sep"; "Oct"; "Nov"; "Dec"] "".

(** [format(d, 'MM/dd/yyyy')] *)
Definition format_MMddyyyy (days : Z) : string :=
  let '(y, m, d) := civil days in
  pad 2 m +:+ "/" +:+ pad 2 d +:+ "/" +:+ pad 4 y.

(** [format(d, 'yyyy-MM-dd')] *)
Definition format_iso (days : Z) : string :=
  let '(y, m, d) := civil days in
  pad 4 y +:+ "-" +:+ pad 2 m +:+ "-" +:+ pad 2 d.

(** [format(d, 'MMM d')] *)
Definition format_MMMd (days : Z) : string :=
  let '(y, m, d) := civil days in
  month_abbr m +:+ " " +:+ JS.digits d.

(** [format(d, 'MMM d, yyyy')] *)
Definition format_MMMdyyyy (days : Z) : string :=
  let '(y, m, d) := civil days in
  month_abbr m +:+ " " +:+ JS.digits d +:+ ", " +:+ pad 4 y.

(** [eachDayOfInterval({start, end})] for [start <= end]. *)
Definition eachDayOfInterval (start end_ : Z) : list Z :=
  seqZ start (end_ - start + 1).

End Calendar.

(** *** Times of day, lunch breaks *)

Module Clock.

(** A time string ["HH:MM"]. *)
Record TimeOfDay := { hour : Z; minute : Z }.

Definition wf_time (t : TimeOfDay) : Prop :=
  0 <= hour t < 24 /\ 0 <= minute t < 60.

Definition minutes_of (t : TimeOfDay) : Z := 60 * hour t + minute t.

(** [differenceInMinutes(parseISO(`2000-01-01T${e}`), parseISO(`2000-01-01T${s}`))]:
    both instants lie on whole minutes of the same day. *)
Definition differenceInMinutes (e s : TimeOfDay) : Z :=
  minutes_of e - minutes_of s.

(** A lunch break string ["HH:MM"], read by
    [lunchBreak.split(':').map(Number)]. *)
Record LunchBreak := { lb_hours : Z; lb_mins : Z }.

Definition wf_lunch (l : LunchBreak) : Prop :=
  0 <= lb_hours l < 24 /\ 0 <= lb_mins l < 60.

(** [hours * 60 + mins] *)
Definition lunch_minutes (l : LunchBreak) : Z := lb_hours l * 60 + lb_mins l.

(** The text of a stored [time] or [interval] value, as the database
    returns it. *)
Definition show_time (t : TimeOfDay) : string :=
  JS.zeros (2 - String.length (JS.digits (hour t))) +:+ JS.digits (hour t) +:+ ":" +:+
  JS.zeros (2 - String.length (JS.digits (minute t))) +:+ JS.digits (minute t) +:+ ":00".

Definition show_lunch (l : LunchBreak) : string :=
  JS.zeros (2 - String.length (JS.digits (lb_hours l))) +:+ JS.digits (lb_hours l) +:+ ":" +:+
  JS.zeros (2 - String.length (JS.digits (lb_mins l))) +:+ JS.digits (lb_mins l) +:+ ":00".

Definition t0800 : TimeOfDay := {| hour := 8; minute := 0 |}.
Definition t0900 : TimeOfDay := {| hour := 9; minute := 0 |}.
Definition t1630 : TimeOfDay := {| hour := 16; minute := 30 |}.
Definition t1700 : TimeOfDay := {| hour := 17; minute := 0 |}.
Definition lunch0030 : LunchBreak := {| lb_hours := 0; lb_mins := 30 |}.
Definition lunch0045 : LunchBreak := {| lb_hours := 0; lb_mins := 45 |}.
Definition lunch0100 : LunchBreak := {| lb_hours := 1; lb_mins := 0 |}.

End Clock.

(** *** Rows of [time_entries] as the reporting pages read them *)

Module Row.

(** The [TimeEntry] interface of the activity, invoice and admin pages
    (the admin page selects no expenses; the activity page no retailer).
    [lunch_break] is [None] for [null] (and for the empty string, which is
    falsy as well). *)
Record Expense := {
  amount : float;
  description : string;
  receipt_url : option string;
  retailer_name : option string
}.

Record TimeEntry := {
  id : string;
  date : Z;
  start_time : Clock.TimeOfDay;
  end_time : Clock.TimeOfDay;
  location : string;
  lunch_break : option Clock.LunchBreak;
  notes : option string;
  user_id : string;
  full_name : string;
  is_full_day : bool;
  expenses : list Expense
}.

Definition wf_entry (e : TimeEntry) : Prop :=
  Clock.wf_time (start_time e) /\ Clock.wf_time (end_time e) /\
  match lunch_break e with
  | Some l => Clock.wf_lunch l
  | None => True
  end.

End Row.

(** *** The time-entry form (TimeEntriesPage.tsx) *)

Module EntryForm.

Record Expense := {
  amount : float;
  description : string;
  receipt_url : option string;
  receipt_image_url : option string;
  retailer_id : option nat;
  retailer_name : string
}.

Record TimeEntry := {
  id : string;
  date : Z;
  is_full_day : bool;
  start_time : Clock.TimeOfDay;
  end_time : Clock.TimeOfDay;
  location : string;
  has_lunch_break : bool;
  lunch_break : option Clock.LunchBreak;
  notes : option string;
  user_id : string;
  full_name : string;
  expenses : list Expense
}.

Definition wf_entry (e : TimeEntry) : Prop :=
  Clock.wf_time (start_time e) /\ Clock.wf_time (end_time e) /\
  match lunch_break e with
  | Some l => Clock.wf_lunch l
  | None => True
  end.

(** [entry.has_lunch_break && entry.lunch_break] as a condition. *)
Definition recorded_lunch (e : TimeEntry) : option Clock.LunchBreak :=
  if has_lunch_break e then lunch_break e else None.

(** [minutes] at the end of [calculateEntryHours] for a partial day. *)
Definition worked_minutes (e : TimeEntry) : Z :=
  let minutes := Clock.differenceInMinutes (end_time e) (start_time e) in
  match recorded_lunch e with
  | Some l => minutes - Clock.lunch_minutes l
  | None => minutes
  end.

Definition calculateEntryHours (entry : TimeEntry) : float :=
  if is_full_day entry then
    match recorded_lunch entry with
    | Some _ => 7.5%float
    | None => 8%float
    end
  else
    JS.Number (JS.toFixed 2 (JS.of_Z (worked_minutes entry) / 60)%float).

(** **** Form state

    [createDefaultEntry()] reads the clock and the profile; the handlers
    take its result as [default]. *)

(** [entries.filter((_, index) => index !== entryIndex)], or one default
    entry when a single entry is left. *)
Definition removeEntry (default : TimeEntry) (entries : list TimeEntry)
    (entryIndex : nat) : list TimeEntry :=
  if (length entries =? 1)%nat then [default] else delete entryIndex entries.

Definition addSameDayEntry (default : TimeEntry) (entries : list TimeEntry)
    : list TimeEntry :=
  entries ++ [default].

Definition with_expenses (entry : TimeEntry) (xs : list Expense) : TimeEntry :=
  {| id := id entry; date := date entry; is_full_day := is_full_day entry;
     start_time := start_time entry; end_time := end_time entry;
     location := location entry; has_lunch_break := has_lunch_break entry;
     lunch_break := lunch_break entry; notes := notes entry;
     user_id := user_id entry; full_name := full_name entry;
     expenses := xs |}.

(** [newEntries[entryIndex].expenses.push(createDefaultExpense())]; [None]
    when there is no such entry (a [TypeError]). *)
Definition addExpense (defaultExpense : Expense) (entries : list TimeEntry)
    (entryIndex : nat) : option (list TimeEntry) :=
  match entries !! entryIndex with
  | Some entry =>
      Some (<[entryIndex := with_expenses entry (expenses entry ++ [defaultExpense])]> entries)
  | None => None
  end.

(** [newEntries[entryIndex].expenses.splice(expenseIndex, 1)] *)
Definition removeExpense (entries : list TimeEntry) (entryIndex expenseIndex : nat)
    : option (list TimeEntry) :=
  match entries !! entryIndex with
  | Some entry =>
      Some (<[entryIndex := with_expenses entry (delete expenseIndex (expenses entry))]> entries)
  | None => None
  end.

(** [clearForm]: the form is reset when the prompt is confirmed. *)
Definition clearForm (confirmed : bool) (default : TimeEntry)
    (entries : list TimeEntry) : list TimeEntry :=
  if confirmed then [default] else entries.

(** The handlers that replace the list of entries, each with the default
    entry or expense it creates when it runs. *)
Inductive FormEvent :=
| AddSameDayEntry (default : TimeEntry)
| ClearForm (confirmed : bool) (default : TimeEntry)
| RemoveEntry (default : TimeEntry) (entryIndex : nat)
| AddExpense (defaultExpense : Expense) (entryIndex : nat)
| RemoveExpense (entryIndex expenseIndex : nat).

(** One handler call; a handler that throws leaves the state as it was. *)
Definition handle (entries : list TimeEntry) (ev : FormEvent) : list TimeEntry :=
  match ev with
  | AddSameDayEntry default => addSameDayEntry default entries
  | ClearForm confirmed default => clearForm confirmed default entries
  | RemoveEntry default entryIndex => removeEntry default entries entryIndex
  | AddExpense defaultExpense entryIndex =>
      match addExpense defaultExpense entries entryIndex with
      | Some newEntries => newEntries
      | None => entries
      end
  | RemoveExpense entryIndex expenseIndex =>
      match removeExpense entries entryIndex expenseIndex with
      | Some newEntries => newEntries
      | None => entries
      end
  end.

(** **** handleSubmit

    The persistence and storage collaborators are a state: the rows of the
    three tables and the uploaded receipt paths.  Every remote call takes
    the next call number; [succeeds n] tells whether the call numbered [n]
    succeeds, a failed call leaving the state as it was and returning an
    error.  The user interface is the list of what the user was shown. *)

Record TimeEntryRow := {
  r_id : nat;
  r_date : Z;
  r_is_full_day : bool;
  r_start_time : Clock.TimeOfDay;
  r_end_time : Clock.TimeOfDay;
  r_location : string;
  r_lunch_break : option Clock.LunchBreak;
  r_notes : option string;
  r_user_id : string;
  r_full_name : option string
}.

Record ExpenseRow := {
  x_time_entry_id : nat;
  x_user_id : string;
  x_amount : float;
  x_description : string;
  x_retailer_id : option nat;
  x_receipt_url : option string;
  x_receipt_image_url : option string
}.

Record RetailerRow := { rt_id : nat; rt_name : string }.

Record Backend := {
  time_entries : list TimeEntryRow;
  expense_rows : list ExpenseRow;
  retailers : list RetailerRow;
  receipts : list string
}.

(** What the user is shown: the confirmation prompt with one
    [(name, date, hours)] line per long entry, an alert, the submit button
    being disabled or enabled, the form being reset to one default entry. *)
Inductive UiEvent :=
| Confirm (over : list (string * Z * float))
| Alert (message : string)
| SetIsSubmitting (b : bool)
| ResetForm.

(** The requests sent to the backend: the rows inserted, the receipt
    uploaded and the retailer looked up. *)
Inductive Request :=
| InsertTimeEntry
| UploadReceipt
| SelectRetailer
| InsertRetailer
| InsertExpense.

(** [requests] lists the requests sent so far, each with its call
    number. *)
Record World := {
  backend : Backend;
  calls : nat;
  requests : list (nat * Request);
  ui : list UiEvent
}.

Inductive Outcome (A : Type) :=
| Done (a : A)
| Thrown.
Arguments Done {A} a.
Arguments Thrown {A}.

Definition Action (A : Type) : Type := World -> Outcome A * World.

Definition ret {A} (a : A) : Action A := fun w => (Done a, w).

Definition bind {A B} (m : Action A) (k : A -> Action B) : Action B :=
  fun w => match m w with
           | (Done a, w') => k a w'
           | (Thrown, w') => (Thrown, w')
           end.

Definition throw {A} : Action A := fun w => (Thrown, w).

Notation "'do' x <- m ; k" := (bind m (fun x => k))
  (at level 10, x name, m at level 100, k at level 200).
Notation "'do' '_' <- m ; k" := (bind m (fun _ => k))
  (at level 10, m at level 100, k at level 200).

Definition emit (e : UiEvent) (w : World) : World :=
  {| backend := backend w; calls := calls w; requests := requests w;
     ui := ui w ++ [e] |}.

Definition startsWith (prefix s : string) : bool := String.prefix prefix s.

Section Submit.

Variable succeeds : nat -> bool.
Variable isAdmin : bool.
Variable userId : string.
(** [currentUserProfile?.full_name] *)
Variable profileName : option string.
(** [crypto.randomUUID()] during the call numbered [n], the extension
    [blob.type.split('/')[1]] of a blob URL, and [getPublicUrl]. *)
Variable randomUUID : nat -> string.
Variable blobExtension : string -> string.
Variable publicUrl : string -> string.

(** A remote call: [None] stands for a result carrying an error. *)
Definition remote {A} (request : Request) (effect : nat -> Backend -> A * Backend)
    : Action (option A) :=
  fun w =>
    let n := calls w in
    let sent := requests w ++ [(n, request)] in
    if succeeds n then
      let '(a, b) := effect n (backend w) in
      (Done (Some a), {| backend := b; calls := S n; requests := sent; ui := ui w |})
    else (Done None, {| backend := backend w; calls := S n; requests := sent;
                        ui := ui w |}).

Definition owner (entry : TimeEntry) : string :=
  if isAdmin then user_id entry else userId.

Definition insert_time_entry (entry : TimeEntry) : Action (option nat) :=
  remote InsertTimeEntry (fun n b =>
    (n, {| time_entries := time_entries b ++
             [{| r_id := n;
                 r_date := date entry;
                 r_is_full_day := is_full_day entry;
                 r_start_time := if is_full_day entry then Clock.t0800 else start_time entry;
                 r_end_time := if is_full_day entry then Clock.t1630 else end_time entry;
                 r_location := location entry;
                 r_lunch_break := if has_lunch_break entry then lunch_break entry else None;
                 r_notes := notes entry;
                 r_user_id := owner entry;
                 r_full_name := if isAdmin then Some (full_name entry) else profileName |}];
           expense_rows := expense_rows b;
           retailers := retailers b;
           receipts := receipts b |})).

(** The fetch and upload of a receipt held as a blob URL; the new URL on
    success. *)
Definition upload_receipt (entry : TimeEntry) (url : string) : Action (option string) :=
  remote UploadReceipt (fun n b =>
    let filePath := owner entry +:+ "/" +:+ randomUUID n +:+ "." +:+ blobExtension url in
    (publicUrl filePath,
     {| time_entries := time_entries b; expense_rows := expense_rows b;
        retailers := retailers b; receipts := receipts b ++ [filePath] |})).

Definition select_retailer (name : string) : Action (option (list nat)) :=
  remote SelectRetailer (fun _ b =>
    (map rt_id (firstn 1 (List.filter (fun r => String.eqb (rt_name r) name) (retailers b))),
     b)).

Definition insert_retailer (name : string) : Action (option nat) :=
  remote InsertRetailer (fun n b =>
    (n, {| time_entries := time_entries b; expense_rows := expense_rows b;
           retailers := retailers b ++ [{| rt_id := n; rt_name := name |}];
           receipts := receipts b |})).

Definition insert_expense (row : ExpenseRow) : Action (option unit) :=
  remote InsertExpense (fun _ b =>
    (tt, {| time_entries := time_entries b;
            expense_rows := expense_rows b ++ [row];
            retailers := retailers b; receipts := receipts b |})).

(** The receipt step: a failed upload is logged and the URLs kept. *)
Definition receipt_urls (entry : TimeEntry) (expense : Expense)
    : Action (option string * option string) :=
  match receipt_url expense with
  | Some url =>
      if startsWith "blob:" url then
        do uploaded <- upload_receipt entry url;
        match uploaded with
        | Some u => ret (Some u, Some u)
        | None => ret (receipt_url expense, receipt_image_url expense)
        end
      else ret (receipt_url expense, receipt_image_url expense)
  | None => ret (receipt_url expense, receipt_image_url expense)
  end.

(** The retailer step: the id on the expense, the id found by name, or the
    id of a retailer created on the spot. *)
Definition retailer_for (expense : Expense) : Action (option nat) :=
  match retailer_id expense with
  | Some rid => ret (Some rid)
  | None =>
      if (String.length (retailer_name expense) =? 0)%nat then ret None
      else
        do existingRetailers <- select_retailer (retailer_name expense);
        match existingRetailers with
        | Some (rid :: _) => ret (Some rid)
        | _ =>
            do newRetailer <- insert_retailer (retailer_name expense);
            match newRetailer with
            | Some rid => ret (Some rid)
            | None => throw
            end
        end
  end.

Definition submit_expense (entry : TimeEntry) (timeEntryId : nat)
    (expense : Expense) : Action unit :=
  do urls <- receipt_urls entry expense;
  do retailerId <- retailer_for expense;
  do inserted <- insert_expense
    {| x_time_entry_id := timeEntryId;
       x_user_id := owner entry;
       x_amount := amount expense;
       x_description := description expense;
       x_retailer_id := retailerId;
       x_receipt_url := fst urls;
       x_receipt_image_url := snd urls |};
  match inserted with
  | Some _ => ret tt
  | None => throw
  end.

Fixpoint submit_expenses (entry : TimeEntry) (timeEntryId : nat)
    (expenses : list Expense) : Action unit :=
  match expenses with
  | [] => ret tt
  | expense :: rest =>
      do _ <- submit_expense entry timeEntryId expense;
      submit_expenses entry timeEntryId rest
  end.

Definition submit_entry (entry : TimeEntry) : Action unit :=
  do timeEntry <- insert_time_entry entry;
  match timeEntry with
  | Some timeEntryId => submit_expenses entry timeEntryId (expenses entry)
  | None => throw
  end.

(** [for (const entry of entries)] *)
Fixpoint submit_entries (entries : list TimeEntry) : Action unit :=
  match entries with
  | [] => ret tt
  | entry :: rest =>
      do _ <- submit_entry entry;
      submit_entries rest
  end.

Definition entriesOver8Hours (entries : list TimeEntry) : list TimeEntry :=
  List.filter (fun entry => PrimFloat.ltb 8 (calculateEntryHours entry)) entries.

Definition entryList (entries : list TimeEntry) : list (string * Z * float) :=
  map (fun entry =>
         (if isAdmin then full_name entry else "this employee",
          date entry, calculateEntryHours entry))
      (entriesOver8Hours entries).

(** [answer] is what [window.confirm] returns if it is called. *)
Definition handleSubmit (answer : bool) (entries : list TimeEntry) (w : World) : World :=
  let asked := negb (length (entriesOver8Hours entries) =? 0)%nat in
  let w := if asked then emit (Confirm (entryList entries)) w else w in
  if asked && negb answer then w
  else
    let w := emit (SetIsSubmitting true) w in
    let w := match submit_entries entries w with
             | (Done _, w') =>
                 emit (Alert "Time entries and expenses submitted successfully!")
                      (emit ResetForm w')
             | (Thrown, w') =>
                 emit (Alert "Failed to submit entries. Please try again.") w'
             end in
    emit (SetIsSubmitting false) w.

End Submit.

End EntryForm.

(** *** CSV serialization shared by the export routines *)

Module Csv.

Definition dquote : ascii := "034"%char.
Definition comma : ascii := ","%char.
Definition newline : ascii := "010"%char.

(** The [replace] of the cell mapper: every double-quote character is
    doubled. *)
Fixpoint escape (s : string) : string :=
  match s with
  | EmptyString => EmptyString
  | String c s' =>
      if Ascii.eqb c dquote then String dquote (String dquote (escape s'))
      else String c (escape s')
  end.

(** The template of the cell mapper: the escaped text between two
    double-quote characters. *)
Definition quote (s : string) : string :=
  String dquote (escape s +:+ String dquote EmptyString).

(** A cell of a row: the admin export mixes strings and numbers. *)
Inductive Cell :=
| Str (s : string)
| Num (x : float).

(** The cell mapper: a string cell is quoted, any other cell is passed on
    and converted by [join]. *)
Definition serialize (c : Cell) : string :=
  match c with
  | Str s => quote s
  | Num x => JS.Number_toString x
  end.

Definition join (sep : string) (l : list string) : string := String.concat sep l.

Definition line (row : list Cell) : string := join "," (map serialize row).

(** [[headers.join(','), ...rows.map(...)].join('\n')] of the activity and
    admin exports. *)
Definition document (headers : list string) (rows : list (list Cell)) : string :=
  join (String newline EmptyString) (join "," headers :: map line rows).

(** [rows.map(...).join('\n')] of the invoice export. *)
Definition document_rows (rows : list (list Cell)) : string :=
  join (String newline EmptyString) (map line rows).

(** A reader of comma-separated text with RFC 4180 quoting: records end at
    a line feed, fields at a comma; a field that opens with a quote runs to
    its closing quote, a doubled quote inside standing for one quote. *)
Inductive State :=
| FieldStart
| Unquoted
| Quoted
| QuoteSeen.

Record Reader := {
  state : State;
  field : string;
  fields : list string;
  records : list (list string)
}.

Definition push (f : string) (c : ascii) : string := f +:+ String c EmptyString.

Definition end_field (r : Reader) : Reader :=
  {| state := FieldStart; field := EmptyString;
     fields := fields r ++ [field r]; records := records r |}.

Definition end_record (r : Reader) : Reader :=
  {| state := FieldStart; field := EmptyString; fields := [];
     records := records r ++ [fields r ++ [field r]] |}.

Definition keep (st : State) (c : ascii) (r : Reader) : Reader :=
  {| state := st; field := push (field r) c;
     fields := fields r; records := records r |}.

Definition enter (st : State) (r : Reader) : Reader :=
  {| state := st; field := field r; fields := fields r; records := records r |}.

Definition step (r : Reader) (c : ascii) : option Reader :=
  match state r with
  | FieldStart =>
      if Ascii.eqb c dquote then Some (enter Quoted r)
      else if Ascii.eqb c comma then Some (end_field r)
      else if Ascii.eqb c newline then Some (end_record r)
      else Some (keep Unquoted c r)
  | Unquoted =>
      if Ascii.eqb c dquote then None
      else if Ascii.eqb c comma then Some (end_field r)
      else if Ascii.eqb c newline then Some (end_record r)
      else Some (keep Unquoted c r)
  | Quoted =>
      if Ascii.eqb c dquote then Some (enter QuoteSeen r)
      else Some (keep Quoted c r)
  | QuoteSeen =>
      if Ascii.eqb c dquote then Some (keep Quoted c r)
      else if Ascii.eqb c comma then Some (end_field r)
      else if Ascii.eqb c newline then Some (end_record r)
      else None
  end.

Fixpoint run (r : Reader) (s : string) : option Reader :=
  match s with
  | EmptyString => Some r
  | String c s' =>
      match step r c with
      | Some r' => run r' s'
      | None => None
      end
  end.

Definition start : Reader :=
  {| state := FieldStart; field := EmptyString; fields := []; records := [] |}.

(** The records of a text whose last record has no line break. *)
Definition read (s : string) : option (list (list string)) :=
  match run start s with
  | Some r =>
      match state r with
      | Quoted => None
      | _ => Some (records r ++ [fields r ++ [field r]])
      end
  | None => None
  end.

(** The record a reader is in the middle of. *)
Definition record_of (r : Reader) : list string := fields r ++ [field r].

(** A reader at the end of a field that may end a record. *)
Definition complete (r : Reader) : Prop := state r = QuoteSeen \/ state r = Unquoted.

(** Concatenation of strings. *)
Definition flat (l : list string) : string := foldr String.append EmptyString l.

(** The text a reader should recover from a cell. *)
Definition text (c : Cell) : string :=
  match c with
  | Str s => s
  | Num x => JS.Number_toString x
  end.

(** A text without quote, comma or line feed. *)
Fixpoint plain (s : string) : bool :=
  match s with
  | EmptyString => true
  | String c s' =>
      negb (Ascii.eqb c dquote || Ascii.eqb c comma || Ascii.eqb c newline) && plain s'
  end.

End Csv.

(** *** The admin table (AdminPage) *)

Module Admin.

Definition worked_minutes (e : Row.TimeEntry) : Z :=
  let minutes := Clock.differenceInMinutes (Row.end_time e) (Row.start_time e) in
  match Row.lunch_break e with
  | Some l => minutes - Clock.lunch_minutes l
  | None => minutes
  end.

Definition calculateTotalHours (entry : Row.TimeEntry) : float :=
  if Row.is_full_day entry then
    match Row.lunch_break entry with
    | Some _ => 7.5%float
    | None => 8%float
    end
  else
    JS.Number (JS.toFixed 2 (JS.of_Z (worked_minutes entry) / 60)%float).

(** **** exportToCSV *)

Definition headers : list string :=
  ["Date"; "Employee"; "Location"; "Start Time"; "End Time"; "Lunch Break";
   "Hours"; "Full Day"; "Notes"; "User ID"; "Entry ID"].

(** A row of the export: ten strings and the number
    [calculateTotalHours(entry)]. *)
Definition export_row (entry : Row.TimeEntry) : list Csv.Cell :=
  [ Csv.Str (Calendar.format_MMddyyyy (Row.date entry));
    Csv.Str (Row.full_name entry);
    Csv.Str (Row.location entry);
    Csv.Str (if Row.is_full_day entry then "09:00"
             else Clock.show_time (Row.start_time entry));
    Csv.Str (if Row.is_full_day entry then "17:00"
             else Clock.show_time (Row.end_time entry));
    Csv.Str (match Row.lunch_break entry with
             | Some l => Clock.show_lunch l
             | None => ""
             end);
    Csv.Num (calculateTotalHours entry);
    Csv.Str (if Row.is_full_day entry then "Yes" else "No");
    Csv.Str (match Row.notes entry with Some n => n | None => "" end);
    Csv.Str (Row.user_id entry);
    Csv.Str (Row.id entry) ].

(** [csvContent] of [exportToCSV]: every entry fetched, whatever the
    search box holds. *)
Definition exportToCSV (timeEntries : list Row.TimeEntry) : string :=
  Csv.document headers (map export_row timeEntries).

End Admin.

(** *** The activity dashboard (ViewActivityPage) *)

Module Activity.

Definition distinctColors : list string :=
  ["hsl(15, 75%, 55%)"; "hsl(45, 85%, 50%)"; "hsl(120, 60%, 45%)";
   "hsl(200, 75%, 50%)"; "hsl(280, 60%, 55%)"; "hsl(340, 75%, 55%)";
   "hsl(30, 80%, 50%)"; "hsl(180, 60%, 45%)"; "hsl(260, 70%, 60%)";
   "hsl(90, 55%, 45%)"; "hsl(320, 70%, 55%)"; "hsl(160, 60%, 45%)";
   "hsl(210, 80%, 60%)"; "hsl(350, 80%, 50%)"; "hsl(60, 70%, 50%)";
   "hsl(140, 65%, 45%)"; "hsl(190, 70%, 50%)"; "hsl(300, 65%, 55%)";
   "hsl(20, 75%, 55%)"; "hsl(240, 60%, 60%)"; "hsl(8, 80%, 58%)";
   "hsl(38, 78%, 52%)"; "hsl(75, 65%, 48%)"; "hsl(105, 70%, 42%)";
   "hsl(135, 55%, 50%)"; "hsl(165, 65%, 45%)"; "hsl(195, 75%, 55%)";
   "hsl(220, 70%, 58%)"; "hsl(250, 65%, 58%)"; "hsl(270, 68%, 60%)";
   "hsl(290, 72%, 58%)"; "hsl(310, 75%, 60%)"; "hsl(330, 78%, 58%)";
   "hsl(355, 85%, 55%)"; "hsl(25, 82%, 54%)"; "hsl(50, 80%, 52%)";
   "hsl(68, 75%, 48%)"; "hsl(95, 60%, 45%)"; "hsl(125, 58%, 48%)";
   "hsl(150, 62%, 46%)"; "hsl(170, 68%, 48%)"; "hsl(185, 72%, 52%)";
   "hsl(205, 78%, 58%)"; "hsl(230, 65%, 60%)"; "hsl(255, 70%, 62%)";
   "hsl(275, 68%, 58%)"; "hsl(295, 72%, 60%)"; "hsl(315, 76%, 58%)";
   "hsl(335, 80%, 56%)"; "hsl(5, 82%, 56%)"].

(** [0.618033988749895] *)
Definition goldenRatio : float := 0x1.3c6ef372fe951p-1%float.

Definition generateUniqueColor (index : nat) : string :=
  match nth_error distinctColors index with
  | Some c => c
  | None =>
      let i := Z.of_nat index - Z.of_nat (length distinctColors) in
      let hue := JS.rem (JS.of_Z i * goldenRatio * 360)%float 360%float in
      let saturation := 65 + (i mod 5) * 5 in
      let lightness := 45 + ((i * 11) mod 4) * 5 in
      "hsl(" +:+ JS.Number_toString hue +:+ ", " +:+
      JS.Number_toString (JS.of_Z saturation) +:+ "%, " +:+
      JS.Number_toString (JS.of_Z lightness) +:+ "%)"
  end.

Fixpoint colorMapper_from (index : nat) (users : list string)
    (colorMap : list (string * string)) : list (string * string) :=
  match users with
  | [] => colorMap
  | user :: users' =>
      colorMapper_from (S index) users'
        (Dict.set user (generateUniqueColor index) colorMap)
  end.

Definition createColorMapper (users : list string) : list (string * string) :=
  colorMapper_from 0 users [].

Definition calculateDuration (start end_ : Clock.TimeOfDay)
    (lunchBreak : option Clock.LunchBreak) : float :=
  let minutes := Clock.differenceInMinutes end_ start in
  let minutes := match lunchBreak with
                 | Some l => minutes - Clock.lunch_minutes l
                 | None => minutes
                 end in
  (JS.of_Z minutes / 60)%float.

(** [calculateDuration(entry.start_time, entry.end_time, entry.lunch_break)],
    the call of the charts, the summary and the groups. *)
Definition entry_hours (entry : Row.TimeEntry) : float :=
  calculateDuration (Row.start_time entry) (Row.end_time entry)
    (Row.lunch_break entry).

(** **** chartData *)

Record UserDay := { hours : float; locations : list string }.

Record Dataset := {
  label : string;
  data : list float;
  backgroundColor : string;
  locationData : list (list string)
}.

Record ChartData := { labels : list Z; datasets : list Dataset }.

(** The first [forEach]: an empty object for every day of the range. *)
Definition empty_days (dateRange : list Z) : gmap Z (gmap string UserDay) :=
  foldl (fun data date => <[date := ∅]> data) ∅ dateRange.

(** The body of [entries.forEach].  [data[entryDate]] is an object
    literal: the gmap holds its own properties, and a name of
    [Object.prototype] is read there.  For such a name the guard finds a
    truthy value and makes no cell, [+=] writes [hours] on the inherited
    object itself, and reading [locations.includes] of it throws a
    [TypeError], which the [catch] of the loop body logs. *)
Definition add_entry (data : gmap Z (gmap string UserDay))
    (entry : Row.TimeEntry) : gmap Z (gmap string UserDay) :=
  let entryDate := Row.date entry in
  let hours_ := entry_hours entry in
  let day := match data !! entryDate with
             | Some day => day
             | None => ∅
             end in
  match day !! Row.full_name entry with
  | Some cell =>
      let cell' := {| hours := (hours cell + hours_)%float;
                      locations := if JS.includes (Row.location entry) (locations cell)
                                   then locations cell
                                   else locations cell ++ [Row.location entry] |} in
      <[entryDate := <[Row.full_name entry := cell']> day]> data
  | None =>
      if Obj.inherited (Row.full_name entry) then <[entryDate := day]> data
      else
        let cell' := {| hours := (0 + hours_)%float;
                        locations := [Row.location entry] |} in
        <[entryDate := <[Row.full_name entry := cell']> day]> data
  end.

Definition day_table (entries : list Row.TimeEntry) (dateRange : list Z)
    : gmap Z (gmap string UserDay) :=
  foldl add_entry (empty_days dateRange) entries.

(** [Object.keys(data).sort()] *)
Definition sorted_keys (data : gmap Z (gmap string UserDay)) : list Z :=
  merge_sort Z.le (map fst (map_to_list data)).

(** [data[date][user]?.hours || 0]: an own cell gives its hours; a name
    of [Object.prototype] reads the inherited object, whose [hours] is
    [undefined] or the [NaN] left by [+=]; any other name is [undefined]. *)
Definition hours_at (data : gmap Z (gmap string UserDay)) (user : string)
    (date : Z) : float :=
  match data !! date with
  | Some day =>
      match day !! user with
      | Some cell => JS.or_else (hours cell) 0
      | None => if Obj.inherited user then JS.or_else nan 0 else 0%float
      end
  | None => 0%float
  end.

(** [data[date][user]?.locations || []] *)
Definition locations_at (data : gmap Z (gmap string UserDay)) (user : string)
    (date : Z) : list string :=
  match data !! date with
  | Some day =>
      match day !! user with
      | Some cell => locations cell
      | None => []
      end
  | None => []
  end.

Definition uniqueUsers (entries : list Row.TimeEntry) : list string :=
  JS.sort_strings (JS.uniq (map Row.full_name entries)).

(** [startDate] and [endDate] are [None] when the text of the date input is
    empty, not of the form [dddd-dd-dd] or not a date. *)
Definition chartData (entries : list Row.TimeEntry)
    (startDate endDate : option Z) : option ChartData :=
  match entries, startDate, endDate with
  | [], _, _ => None
  | _, None, _ => None
  | _, _, None => None
  | _, Some startDateParsed, Some endDateParsed =>
      if endDateParsed <? startDateParsed then None
      else
        let dateRange := Calendar.eachDayOfInterval startDateParsed endDateParsed in
        match dateRange with
        | [] => None
        | _ =>
            let data := day_table entries dateRange in
            let users := uniqueUsers entries in
            let colorMap := createColorMapper users in
            Some {| labels := sorted_keys data;
                    datasets :=
                      map (fun user =>
                             {| label := user;
                                data := map (hours_at data user) (sorted_keys data);
                                backgroundColor :=
                                  match Dict.get user colorMap with
                                  | Some c => if (String.length c =? 0)%nat
                                              then generateUniqueColor 0 else c
                                  | None => generateUniqueColor 0
                                  end;
                                locationData :=
                                  map (locations_at data user) (sorted_keys data) |})
                          users |}
        end
  end.

(** **** summary *)

Record ActivitySummary := {
  totalHours : float;
  totalExpenses : float;
  uniqueLocations : list string
}.

(** [entry.expenses?.reduce((sum, exp) => sum + exp.amount, 0) || 0] *)
Definition entry_expenses (entry : Row.TimeEntry) : float :=
  JS.or_else
    (foldl (fun sum exp => (sum + Row.amount exp)%float) 0%float (Row.expenses entry))
    0.

(** [set.add(x)] on an insertion-ordered set. *)
Definition set_add (x : string) (s : list string) : list string :=
  if JS.includes x s then s else s ++ [x].

Definition summary (entries : list Row.TimeEntry) : ActivitySummary :=
  foldl (fun acc entry =>
           {| totalHours := (totalHours acc + entry_hours entry)%float;
              totalExpenses := (totalExpenses acc + entry_expenses entry)%float;
              uniqueLocations := set_add (Row.location entry) (uniqueLocations acc) |})
        {| totalHours := 0; totalExpenses := 0; uniqueLocations := [] |}
        entries.

(** **** groupedEntries *)

Record LocationGroup := {
  lg_entries : list Row.TimeEntry;
  lg_totalHours : float;
  lg_totalExpenses : float;
  lg_dateRange : string
}.

Record PersonGroup := {
  pg_locations : list (string * LocationGroup);
  pg_totalHours : float;
  pg_totalExpenses : float;
  pg_dateRange : string
}.

(** The body of the first [entries.forEach]. *)
Definition add_to_groups (groups : list (string * PersonGroup))
    (entry : Row.TimeEntry) : list (string * PersonGroup) :=
  let personGroup :=
    match Dict.get (Row.full_name entry) groups with
    | Some g => g
    | None => {| pg_locations := []; pg_totalHours := 0;
                 pg_totalExpenses := 0; pg_dateRange := "" |}
    end in
  let locationGroup :=
    match Dict.get (Row.location entry) (pg_locations personGroup) with
    | Some g => g
    | None => {| lg_entries := []; lg_totalHours := 0;
                 lg_totalExpenses := 0; lg_dateRange := "" |}
    end in
  let hours_ := entry_hours entry in
  let expenses := entry_expenses entry in
  let locationGroup' :=
    {| lg_entries := lg_entries locationGroup ++ [entry];
       lg_totalHours := (lg_totalHours locationGroup + hours_)%float;
       lg_totalExpenses := (lg_totalExpenses locationGroup + expenses)%float;
       lg_dateRange := lg_dateRange locationGroup |} in
  Dict.set (Row.full_name entry)
    {| pg_locations := Dict.set (Row.location entry) locationGroup'
                         (pg_locations personGroup);
       pg_totalHours := (pg_totalHours personGroup + hours_)%float;
       pg_totalExpenses := (pg_totalExpenses personGroup + expenses)%float;
       pg_dateRange := pg_dateRange personGroup |}
    groups.

(** The range text of a list of dates sorted ascending; [old] when there is
    none. *)
Definition date_range (old : string) (dates : list Z) : string :=
  match dates with
  | [] => old
  | first :: _ =>
      let lastDate := Calendar.format_MMMdyyyy (List.last dates first) in
      if (length dates =? 1)%nat then lastDate
      else Calendar.format_MMMd first +:+ " - " +:+ lastDate
  end.

(** [b.date.localeCompare(a.date)] on dates of one format: newest first. *)
Definition newer_first (a b : Row.TimeEntry) : bool := Row.date b <=? Row.date a.

Definition finish_location (g : LocationGroup) : LocationGroup :=
  let sorted := JS.sort newer_first (lg_entries g) in
  {| lg_entries := sorted;
     lg_totalHours := lg_totalHours g;
     lg_totalExpenses := lg_totalExpenses g;
     lg_dateRange := date_range (lg_dateRange g)
                       (JS.sort Z.leb (map Row.date sorted)) |}.

Definition finish_person (g : PersonGroup) : PersonGroup :=
  let locs := map (fun kv : string * LocationGroup => (fst kv, finish_location (snd kv)))
                  (pg_locations g) in
  let allEntries := concat (map (fun kv : string * LocationGroup => lg_entries (snd kv)) locs) in
  {| pg_locations := locs;
     pg_totalHours := pg_totalHours g;
     pg_totalExpenses := pg_totalExpenses g;
     pg_dateRange := date_range (pg_dateRange g)
                       (JS.sort Z.leb (map Row.date allEntries)) |}.

Section Grouping.

(** [String.prototype.localeCompare] of the browser's locale. *)
Variable localeCompare : string -> string -> Z.

Definition by_name {V : Type} (a b : string * V) : bool :=
  localeCompare (fst a) (fst b) <=? 0.

Definition groupedEntries (entries : list Row.TimeEntry)
    : list (string * PersonGroup) :=
  let groups := foldl add_to_groups [] entries in
  let groups := map (fun kv : string * PersonGroup => (fst kv, finish_person (snd kv)))
                    groups in
  JS.sort by_name groups.

(** The rendering's [Array.from(personGroup.locations.entries()).sort(...)]. *)
Definition locationEntries (personGroup : PersonGroup)
    : list (string * LocationGroup) :=
  JS.sort by_name (pg_locations personGroup).

(** The rendering's [totalEntries]. *)
Definition totalEntries (personGroup : PersonGroup) : Z :=
  foldl (fun sum kv => sum + Z.of_nat (length (lg_entries (snd kv)))) 0
        (pg_locations personGroup).

End Grouping.

(** **** Expanded groups *)

(** [newSet.has(key) ? newSet.delete(key) : newSet.add(key)] on a copy. *)
Definition toggle (key : string) (prev : list string) : list string :=
  if JS.includes key prev
  then List.filter (fun k => negb (String.eqb k key)) prev
  else prev ++ [key].

Definition togglePersonExpanded (personName : string) (prev : list string)
    : list string :=
  toggle personName prev.

Definition toggleLocationExpanded (personName location : string)
    (prev : list string) : list string :=
  toggle (personName +:+ ":" +:+ location) prev.

(** **** exportToCSV *)

Definition headers : list string :=
  ["Date"; "Employee"; "Location"; "Start Time"; "End Time"; "Lunch Break";
   "Hours"; "Full Day"; "Notes"; "Expense Amount"; "Expense Description";
   "Receipt URL"].

Definition or_empty (o : option string) : string :=
  match o with Some s => s | None => "" end.

Definition baseRow (entry : Row.TimeEntry) : list string :=
  [ Calendar.format_MMddyyyy (Row.date entry);
    Row.full_name entry;
    Row.location entry;
    if Row.is_full_day entry then "09:00" else Clock.show_time (Row.start_time entry);
    if Row.is_full_day entry then "17:00" else Clock.show_time (Row.end_time entry);
    match Row.lunch_break entry with Some l => Clock.show_lunch l | None => "" end;
    JS.Number_toString
      (calculateDuration
         (if Row.is_full_day entry then Clock.t0900 else Row.start_time entry)
         (if Row.is_full_day entry then Clock.t1700 else Row.end_time entry)
         (Row.lunch_break entry));
    if Row.is_full_day entry then "Yes" else "No";
    or_empty (Row.notes entry) ].

Definition entry_rows (entry : Row.TimeEntry) : list (list string) :=
  match Row.expenses entry with
  | [] => [baseRow entry ++ [""; ""; ""]]
  | expenses =>
      map (fun expense =>
             baseRow entry ++
             [ JS.Number_toString (Row.amount expense);
               Row.description expense;
               or_empty (Row.receipt_url expense) ])
          expenses
  end.

Definition export_rows (entries : list Row.TimeEntry) : list (list string) :=
  concat (map entry_rows entries).

(** [csvContent] of [exportToCSV]. *)
Definition exportToCSV (entries : list Row.TimeEntry) : string :=
  Csv.document headers (map (map Csv.Str) (export_rows entries)).

End Activity.

(** *** The invoice page (CreateInvoicePage.tsx) *)

Module Invoice.

Record StandaloneExpense := {
  se_id : string;
  se_date : Z;
  se_amount : float;
  se_description : string;
  se_location : string;
  se_receipt_url : option string;
  se_retailer_name : option string
}.

(** What a property of [employeeHours] holds: the object is typed as a
    dictionary of numbers, and [+=] on a property read from
    [Object.prototype] leaves a string. *)
Inductive Value :=
| Num (x : float)
| Text (s : string).

Definition truthy (v : Value) : bool :=
  match v with
  | Num x => JS.truthy x
  | Text s => negb (String.length s =? 0)%nat
  end.

(** [employeeHours] holds the own properties of the object in the order
    they were made; [Obj.get] reads it and [Obj.entries] enumerates it. *)
Record LocationSummary := {
  totalHours : float;
  totalExpenses : float;
  employeeHours : list (string * Value);
  entries : list Row.TimeEntry;
  standaloneExpenses : list StandaloneExpense
}.

(** [hours] of the reducer: the span between the (sentinel or stored)
    times, less the lunch break, over sixty. *)
Definition entry_hours (entry : Row.TimeEntry) : float :=
  let startTime := if Row.is_full_day entry then Clock.t0900 else Row.start_time entry in
  let endTime := if Row.is_full_day entry then Clock.t1700 else Row.end_time entry in
  let minutes := Clock.differenceInMinutes endTime startTime in
  let minutes := match Row.lunch_break entry with
                 | Some l => minutes - Clock.lunch_minutes l
                 | None => minutes
                 end in
  (JS.of_Z minutes / 60)%float.

(** [if (!acc.employeeHours[name]) acc.employeeHours[name] = 0;
     acc.employeeHours[name] += hours]: the guard reads through the
    prototype chain, so a name of [Object.prototype] is not reset, and the
    sum of what is read there and a number is a string. *)
Definition add_employee_hours (employeeHours : list (string * Value))
    (name : string) (hours : float) : list (string * Value) :=
  let guarded :=
    match Obj.get name employeeHours with
    | Obj.Own v => if truthy v then employeeHours
                   else Obj.set name (Num 0) employeeHours
    | Obj.Inherited => employeeHours
    | Obj.Undefined => Obj.set name (Num 0) employeeHours
    end in
  let sum :=
    match Obj.get name guarded with
    | Obj.Own (Num h) => Num (h + hours)
    | Obj.Own (Text s) => Text (s +:+ JS.Number_toString hours)
    | Obj.Inherited => Text (Obj.inherited_text name +:+ JS.Number_toString hours)
    | Obj.Undefined => Num nan
    end in
  Obj.set name sum guarded.

Definition add_entry (acc : LocationSummary) (entry : Row.TimeEntry)
    : LocationSummary :=
  let hours := entry_hours entry in
  {| employeeHours := add_employee_hours (employeeHours acc) (Row.full_name entry) hours;
     totalHours := (totalHours acc + hours)%float;
     totalExpenses :=
       (totalExpenses acc +
        foldl (fun sum exp => sum + Row.amount exp) 0 (Row.expenses entry))%float;
     entries := entries acc ++ [entry];
     standaloneExpenses := standaloneExpenses acc |}.

Definition locationSummary (timeEntries : list Row.TimeEntry)
    (standalone : list StandaloneExpense) : LocationSummary :=
  let summary :=
    foldl add_entry
      {| totalHours := 0; totalExpenses := 0; employeeHours := [];
         entries := []; standaloneExpenses := [] |}
      timeEntries in
  {| totalHours := totalHours summary;
     totalExpenses :=
       (totalExpenses summary +
        foldl (fun sum exp => sum + se_amount exp) 0 standalone)%float;
     employeeHours := employeeHours summary;
     entries := entries summary;
     standaloneExpenses := standalone |}.

(** **** generateExcel *)

Definition headers : list string :=
  ["Date"; "Employee"; "Start Time"; "End Time"; "Lunch Break"; "Hours";
   "Notes"; "Expense Amount"; "Expense Description"; "Retailer"; "Receipt URL"].

Definition or_empty (o : option string) : string :=
  match o with Some s => s | None => "" end.

(** [hours.toFixed(2)] on a property of [employeeHours]; [None] is the
    [TypeError] of a value that has no [toFixed]. *)
Definition toFixed2 (v : Value) : option string :=
  match v with
  | Num h => Some (JS.toFixed 2 h)
  | Text _ => None
  end.

(** [locationSummary.employeeHours[entry.full_name].toFixed(2)] *)
Definition hours_cell (summary : LocationSummary) (entry : Row.TimeEntry)
    : option string :=
  match Obj.get (Row.full_name entry) (employeeHours summary) with
  | Obj.Own v => toFixed2 v
  | Obj.Inherited => None
  | Obj.Undefined => None
  end.

Definition baseRow (summary : LocationSummary) (entry : Row.TimeEntry)
    : option (list string) :=
  match hours_cell summary entry with
  | Some hours =>
      Some [ Calendar.format_MMddyyyy (Row.date entry);
             Row.full_name entry;
             if Row.is_full_day entry then "09:00"
             else Clock.show_time (Row.start_time entry);
             if Row.is_full_day entry then "17:00"
             else Clock.show_time (Row.end_time entry);
             match Row.lunch_break entry with
             | Some l => Clock.show_lunch l
             | None => ""
             end;
             hours;
             or_empty (Row.notes entry) ]
  | None => None
  end.

Definition detail_rows (summary : LocationSummary) (entry : Row.TimeEntry)
    : option (list (list string)) :=
  match baseRow summary entry with
  | Some base =>
      Some match Row.expenses entry with
           | [] => [base ++ [""; ""; ""; ""]]
           | expenses =>
               map (fun expense =>
                      base ++
                      [ JS.toFixed 2 (Row.amount expense);
                        Row.description expense;
                        or_empty (Row.retailer_name expense);
                        or_empty (Row.receipt_url expense) ])
                   expenses
           end
  | None => None
  end.

Definition standalone_rows (summary : LocationSummary) : list (list string) :=
  match standaloneExpenses summary with
  | [] => []
  | expenses =>
      [ [""];
        ["Additional Expenses (from Expense Worksheet):"];
        ["Date"; "Expense Amount"; "Expense Description"; "Retailer"; "Receipt URL"] ]
      ++ map (fun expense =>
                [ Calendar.format_MMddyyyy (se_date expense);
                  JS.toFixed 2 (se_amount expense);
                  se_description expense;
                  or_empty (se_retailer_name expense);
                  or_empty (se_receipt_url expense) ])
             expenses
  end.

(** The rows of the breakdown: [Object.entries(employeeHours)] in its
    order of enumeration. *)
Definition breakdown_rows (summary : LocationSummary) : option (list (list string)) :=
  mapM (fun kv : string * Value =>
          match toFixed2 (snd kv) with
          | Some hours => Some [fst kv; hours]
          | None => None
          end)
       (Obj.entries (employeeHours summary)).

(** [rows] when [generateExcel] reaches [csvContent]; [None] when a
    [TypeError] ends it before, and nothing is downloaded. *)
Definition rows (selectedLocation : string) (startDate endDate : Z)
    (summary : LocationSummary) : option (list (list string)) :=
  match breakdown_rows summary, mapM (detail_rows summary) (entries summary) with
  | Some breakdown, Some details =>
      Some ([ ["Location Summary:"; selectedLocation];
              ["Period:"; Calendar.format_MMddyyyy startDate +:+ " - " +:+
                          Calendar.format_MMddyyyy endDate];
              [""];
              ["Total Hours:"; JS.toFixed 2 (totalHours summary)];
              ["Total Expenses:"; "$" +:+ JS.toFixed 2 (totalExpenses summary)];
              [""];
              ["Employee Hours Breakdown:"] ]
            ++ breakdown
            ++ [ [""]; ["Detailed Time Entries:"]; headers ]
            ++ concat details
            ++ standalone_rows summary)
  | _, _ => None
  end.

(** [csvContent] of [generateExcel]. *)
Definition generateExcel (selectedLocation : string) (startDate endDate : Z)
    (timeEntries : list Row.TimeEntry) (standalone : list StandaloneExpense)
    : option string :=
  match rows selectedLocation startDate endDate
             (locationSummary timeEntries standalone) with
  | Some rows => Some (Csv.document_rows (map (map Csv.Str) rows))
  | None => None
  end.

End Invoice.

(** *** The estimate worksheet (EstimateWorksheetPage) *)

Module Worksheet.

(** A row of the worksheet; [id] is the integer its id string denotes. *)
Record WorksheetRow := { id : Z; item : string; cost : float }.

Definition subtotal (rows : list WorksheetRow) : float :=
  foldl (fun sum row => (sum + cost row)%float) 0%float rows.

Definition overheadAmount (rows : list WorksheetRow) (overheadPercentage : float) : float :=
  (subtotal rows * overheadPercentage / 100)%float.

Definition total (rows : list WorksheetRow) (overheadPercentage : float) : float :=
  (subtotal rows + overheadAmount rows overheadPercentage)%float.

(** The payload [estimateData] written by [saveEstimate] and
    [confirmSaveAs]. *)
Record EstimateData := {
  ed_user_id : string;
  ed_job_name : string;
  ed_items : list WorksheetRow;
  ed_overhead_percentage : float;
  ed_subtotal : float;
  ed_overhead_amount : float;
  ed_total : float
}.

Definition estimateData (user_id jobName : string) (rows : list WorksheetRow)
    (overheadPercentage : float) : EstimateData :=
  {| ed_user_id := user_id;
     ed_job_name := jobName;
     ed_items := rows;
     ed_overhead_percentage := overheadPercentage;
     ed_subtotal := subtotal rows;
     ed_overhead_amount := overheadAmount rows overheadPercentage;
     ed_total := total rows overheadPercentage |}.

(** **** Display and persistence of the money values *)

(** The hundredths nearest to [s * 10^e], halves away from zero. *)
Definition hundredths (s e : Z) : Z :=
  if 0 <=? e + 2 then s * 10 ^ (e + 2)
  else (2 * s + 10 ^ (- (e + 2))) / (2 * 10 ^ (- (e + 2))).

(** Digits in groups of three, counted from the right. *)
Fixpoint group_from (n : nat) (d : string) : string :=
  match d with
  | EmptyString => EmptyString
  | String c d' =>
      let rest := group_from (pred n) d' in
      if negb (pred n =? 0)%nat && (pred n mod 3 =? 0)%nat
      then String c ("," +:+ rest) else String c rest
  end.

Definition group3 (d : string) : string := group_from (String.length d) d.

Definition two_digits (n : Z) : string :=
  JS.zeros (2 - String.length (JS.digits n)) +:+ JS.digits n.

(** The infinity sign (U+221E) in UTF-8. *)
Definition infinity_sign : string :=
  String "226"%char (String "136"%char (String "158"%char EmptyString)).

(** [new Intl.NumberFormat('en-US', { style: 'currency', currency: 'USD',
    minimumFractionDigits: 2 }).format(value)]: the shortest decimal of the
    number rounded to two fraction digits, halves away from zero, with the
    integer digits in groups of three. *)
Definition formatCurrency (value : float) : string :=
  match JS.shortest_decimal value with
  | Some (sgn, s, e) =>
      let c := hundredths s e in
      (if sgn then "-$" else "$") +:+ group3 (JS.digits (c / 100)) +:+ "." +:+
      two_digits (c mod 100)
  | None =>
      if PrimFloat.is_nan value then "$NaN"
      else if PrimFloat.ltb value 0 then "-$" +:+ infinity_sign
      else "$" +:+ infinity_sign
  end.

(** What a [decimal(12,2)] column ([subtotal], [overhead_amount] and
    [total] of [estimate_worksheets]) keeps of a number of the payload, in
    hundredths: the decimal text of the number rounded to two fraction
    digits, halves away from zero; [None] when the row is refused ([NaN]
    and the infinities travel as [null], and twelve digits is the most the
    column holds). *)
Definition decimal_12_2 (x : float) : option Z :=
  match JS.shortest_decimal x with
  | Some (sgn, s, e) =>
      let c := hundredths s e in
      if c <? 10 ^ 12 then Some (if sgn then - c else c) else None
  | None => None
  end.

(** The three money columns of the row that [saveEstimate] writes. *)
Definition saved_totals (estimate : EstimateData) : option (Z * Z * Z) :=
  match decimal_12_2 (ed_subtotal estimate),
        decimal_12_2 (ed_overhead_amount estimate),
        decimal_12_2 (ed_total estimate) with
  | Some a, Some b, Some c => Some (a, b, c)
  | _, _, _ => None
  end.

(** **** Rows *)

(** [Math.max(...rows.map(r => parseInt(r.id)), 0) + 1] *)
Definition nextRowId (rows : list WorksheetRow) : Z :=
  foldr Z.max 0 (map id rows) + 1.

Definition addRow (rows : list WorksheetRow) : list WorksheetRow :=
  rows ++ [{| id := nextRowId rows; item := ""; cost := 0 |}].

Definition deleteRow (rows : list WorksheetRow) (rid : Z) : list WorksheetRow :=
  if (1 <? length rows)%nat
  then List.filter (fun row => negb (id row =? rid)) rows
  else rows.

Definition handleItemChange (rows : list WorksheetRow) (rid : Z) (value : string)
    : list WorksheetRow :=
  map (fun row => if id row =? rid
                  then {| id := id row; item := value; cost := cost row |}
                  else row) rows.

Definition is_digit (c : ascii) : bool :=
  (48 <=? nat_of_ascii c)%nat && (nat_of_ascii c <=? 57)%nat.

Fixpoint keep_chars (p : ascii -> bool) (s : string) : string :=
  match s with
  | EmptyString => EmptyString
  | String c s' => if p c then String c (keep_chars p s') else keep_chars p s'
  end.

(** The longest prefix of digits, and what follows it. *)
Fixpoint span_digits (s : string) : string * string :=
  match s with
  | String c s' =>
      if is_digit c then let '(d, r) := span_digits s' in (String c d, r)
      else (EmptyString, s)
  | EmptyString => (EmptyString, EmptyString)
  end.

(** [parseFloat] on a text of digits and points: the longest prefix that
    is a decimal literal. *)
Definition parseFloat_plain (s : string) : float :=
  let '(ip, rest) := span_digits s in
  let fp := match rest with
            | String "." rest' => fst (span_digits rest')
            | _ => EmptyString
            end in
  match JS.decimal_magnitude (ip +:+ "." +:+ fp) with
  | Some v => v
  | None => nan
  end.

(** [value.replace(/[^0-9.]/g, '')], [parseFloat], and [0] for [NaN]. *)
Definition parseCurrencyInput (value : string) : float :=
  let cleaned := keep_chars (fun c => is_digit c || Ascii.eqb c ".") value in
  let parsed := parseFloat_plain cleaned in
  if PrimFloat.is_nan parsed then 0%float else parsed.

(** [handleCostBlur]: the pending text of the row (['0'] when there is none
    or it is empty) becomes its cost and is forgotten. *)
Definition handleCostBlur (rows : list WorksheetRow) (costInputs : gmap Z string)
    (rid : Z) : list WorksheetRow * gmap Z string :=
  let value := match costInputs !! rid with
               | Some v => if (String.length v =? 0)%nat then "0" else v
               | None => "0"
               end in
  let numericValue := parseCurrencyInput value in
  (map (fun row => if id row =? rid
                   then {| id := id row; item := item row; cost := numericValue |}
                   else row) rows,
   delete rid costInputs).

(** **** Saved estimates *)

Record SavedEstimate := {
  se_id : string;
  se_job_name : string;
  se_updated_at : Z;
  se_total : float;
  se_user_id : string
}.

Fixpoint rev_string (acc s : string) : string :=
  match s with
  | EmptyString => acc
  | String c s' => rev_string (String c acc) s'
  end.

(** [job_name.replace(/ v\d+$/, '')]: a final [ v] followed by digits is
    cut off. *)
Definition baseJobName (job_name : string) : string :=
  let '(ds, rest) := span_digits (rev_string EmptyString job_name) in
  match ds, rest with
  | String _ _, String "v" (String " " base) => rev_string EmptyString base
  | _, _ => job_name
  end.

(** The comparator of the version sort: newest update first. *)
Definition newer_update (a b : SavedEstimate) : bool :=
  se_updated_at b <=? se_updated_at a.

Definition add_estimate (grouped : list (string * list SavedEstimate))
    (estimate : SavedEstimate) : list (string * list SavedEstimate) :=
  let base := baseJobName (se_job_name estimate) in
  let group := match Dict.get base grouped with
               | Some g => g
               | None => []
               end in
  Dict.set base (group ++ [estimate]) grouped.

Definition getGroupedEstimates (savedEstimates : list SavedEstimate)
    : list (string * list SavedEstimate) :=
  map (fun kv : string * list SavedEstimate => (fst kv, JS.sort newer_update (snd kv)))
      (foldl add_estimate [] savedEstimates).

(** [toggleJobExpansion] *)
Definition toggleJobExpansion (jobName : string) (expandedJobs : list string)
    : list string :=
  if JS.includes jobName expandedJobs
  then List.filter (fun k => negb (String.eqb k jobName)) expandedJobs
  else expandedJobs ++ [jobName].

End Worksheet.

(** *** The duration rule in the words of the specification *)

Module Spec.

(** [p / q] rounded to the nearest integer, halves away from zero. *)
Definition round_half_away (p q : Z) : Z :=
  Z.sgn p * ((2 * Z.abs p + q) / (2 * q)).

(** [minutes / 60] rounded to two decimal places: the number written with
    the hundredths [round (100 * minutes / 60)]. *)
Definition round2_hours (minutes : Z) : float :=
  (JS.of_Z (round_half_away (100 * minutes) 60) / 100)%float.

(** (endTime - startTime in minutes - lunchBreakMinutes) *)
Definition net_minutes (startTime endTime : Clock.TimeOfDay)
    (lunch : option Clock.LunchBreak) : Z :=
  (Clock.minutes_of endTime - Clock.minutes_of startTime)
  - match lunch with
    | Some l => Clock.lunch_minutes l
    | None => 0
    end.

Definition partial_day_hours (startTime endTime : Clock.TimeOfDay)
    (lunch : option Clock.LunchBreak) : float :=
  round2_hours (net_minutes startTime endTime lunch).

End Spec.

(** The sum of a list of numbers, taken from the left. *)
Module Sum.

Fixpoint starting (acc : float) (xs : list float) : float :=
  match xs with
  | [] => acc
  | x :: xs' => starting (acc + x)%float xs'
  end.

Definition all (xs : list float) : float := starting 0%float xs.

(** The same sum as [if (!total) total = 0; total += x] takes it: a running
    total that is falsy ([0] or [NaN]) counts as [0]. *)
Fixpoint restarting (acc : float) (xs : list float) : float :=
  match xs with
  | [] => acc
  | x :: xs' => restarting (JS.or_else acc 0 + x)%float xs'
  end.

End Sum.

(** *** Report totals in the words of the specification *)

Module Report.

(** The entries of one employee name on one day. *)
Definition matching (user : string) (day : Z) (entries : list Row.TimeEntry)
    : list Row.TimeEntry :=
  List.filter (fun e => (Row.date e =? day) && String.eqb (Row.full_name e) user) entries.

(** The hours of a day/employee pair: the sum over its entries. *)
Definition day_user_hours (entries : list Row.TimeEntry) (user : string) (day : Z) : float :=
  Sum.all (map Activity.entry_hours (matching user day entries)).

(** The entries of one employee name. *)
Definition of_name (name : string) (entries : list Row.TimeEntry) : list Row.TimeEntry :=
  List.filter (fun e => String.eqb (Row.full_name e) name) entries.

(** The entries of one employee name at one location. *)
Definition at_location (name location : string) (entries : list Row.TimeEntry)
    : list Row.TimeEntry :=
  List.filter (fun e => String.eqb (Row.full_name e) name &&
                        String.eqb (Row.location e) location) entries.

(** The location group of one employee name and location, if any. *)
Definition location_group (groups : list (string * Activity.PersonGroup))
    (name location : string) : option Activity.LocationGroup :=
  match Dict.get name groups with
  | Some g => Dict.get location (Activity.pg_locations g)
  | None => None
  end.

(** The cell of a day/employee pair in the table of [chartData]. *)
Definition cell (data : gmap Z (gmap string Activity.UserDay)) (day : Z) (user : string)
    : option Activity.UserDay :=
  match data !! day with
  | Some d => d !! user
  | None => None
  end.

End Report.

(** *** Tables over a block of integers *)

(** [f] and [g] agree on the [2 ^ depth] integers from [lo] on. *)
Fixpoint agree_block (f g : Z -> float) (depth : nat) (lo : Z) : Prop :=
  match depth with
  | O => f lo = g lo
  | S d => agree_block f g d lo /\ agree_block f g d (lo + 2 ^ Z.of_nat d)
  end.

(** [Number((minutes / 60).toFixed(2))] *)
Definition toFixed2_hours (minutes : Z) : float :=
  JS.Number (JS.toFixed 2 (JS.of_Z minutes / 60)%float).

(** *** Relations between worlds of a submission *)

Module Submission.

(** Tables only grow at their end. *)
Definition backend_le (b b' : EntryForm.Backend) : Prop :=
  EntryForm.time_entries b `prefix_of` EntryForm.time_entries b' /\
  EntryForm.expense_rows b `prefix_of` EntryForm.expense_rows b' /\
  EntryForm.retailers b `prefix_of` EntryForm.retailers b' /\
  EntryForm.receipts b `prefix_of` EntryForm.receipts b'.

(** [w'] is reached from [w] by remote calls only. *)
Definition follows (w w' : EntryForm.World) : Prop :=
  EntryForm.ui w' = EntryForm.ui w /\
  (EntryForm.calls w <= EntryForm.calls w')%nat /\
  backend_le (EntryForm.backend w) (EntryForm.backend w').

(** The two tables of the claim are as they were. *)
Definition keeps_rows (w w' : EntryForm.World) : Prop :=
  EntryForm.time_entries (EntryForm.backend w') = EntryForm.time_entries (EntryForm.backend w) /\
  EntryForm.expense_rows (EntryForm.backend w') = EntryForm.expense_rows (EntryForm.backend w).

(** The last remote call before [w'] was issued after [w] and failed. *)
Definition failed_last (succeeds : nat -> bool) (w w' : EntryForm.World) : Prop :=
  (EntryForm.calls w < EntryForm.calls w')%nat /\
  succeeds (pred (EntryForm.calls w')) = false.

(** The events shown since [w]. *)
Definition shown (w w' : EntryForm.World) : list EntryForm.UiEvent :=
  drop (length (EntryForm.ui w)) (EntryForm.ui w').

Definition is_confirm (e : EntryForm.UiEvent) : bool :=
  match e with EntryForm.Confirm _ => true | _ => false end.

(** Whether [handleSubmit] asks for confirmation. *)
Definition asked (entries : list EntryForm.TimeEntry) : bool :=
  negb (length (EntryForm.entriesOver8Hours entries) =? 0)%nat.

(** The requests sent since [w]. *)
Definition sent (w w' : EntryForm.World) : list (nat * EntryForm.Request) :=
  drop (length (EntryForm.requests w)) (EntryForm.requests w').

(** The three inserts, as against the lookup and the upload. *)
Definition is_insert (r : EntryForm.Request) : bool :=
  match r with
  | EntryForm.InsertTimeEntry | EntryForm.InsertRetailer | EntryForm.InsertExpense => true
  | EntryForm.UploadReceipt | EntryForm.SelectRetailer => false
  end.

Definition same_request (a b : EntryForm.Request) : bool :=
  match a, b with
  | EntryForm.InsertTimeEntry, EntryForm.InsertTimeEntry
  | EntryForm.UploadReceipt, EntryForm.UploadReceipt
  | EntryForm.SelectRetailer, EntryForm.SelectRetailer
  | EntryForm.InsertRetailer, EntryForm.InsertRetailer
  | EntryForm.InsertExpense, EntryForm.InsertExpense => true
  | _, _ => false
  end.

(** An insert that failed. *)
Definition failed_insert (succeeds : nat -> bool) (r : nat * EntryForm.Request) : bool :=
  is_insert (snd r) && negb (succeeds (fst r)).

(** How many requests of one kind succeeded. *)
Definition succeeded (succeeds : nat -> bool) (kind : EntryForm.Request)
    (l : list (nat * EntryForm.Request)) : nat :=
  length (List.filter (fun r => same_request (snd r) kind && succeeds (fst r)) l).

(** No insert among [l] failed. *)
Definition clean (succeeds : nat -> bool) (l : list (nat * EntryForm.Request)) : Prop :=
  Forall (fun r => failed_insert succeeds r = false) l.

(** [w'] is reached from [w] by requests that are all accounted for: no
    insert failed before the last request, the last one is a failed insert
    exactly when [failed], and each table has grown by one row for every
    insert into it that succeeded. *)
Definition run (succeeds : nat -> bool) (w : EntryForm.World) (failed : bool)
    (w' : EntryForm.World) : Prop :=
  EntryForm.ui w' = EntryForm.ui w /\
  exists new trows xrows rrows,
    EntryForm.requests w' = EntryForm.requests w ++ new /\
    (if failed
     then exists l r, new = l ++ [r] /\ clean succeeds l /\
                      failed_insert succeeds r = true
     else clean succeeds new) /\
    EntryForm.time_entries (EntryForm.backend w') =
      EntryForm.time_entries (EntryForm.backend w) ++ trows /\
    length trows = succeeded succeeds EntryForm.InsertTimeEntry new /\
    EntryForm.expense_rows (EntryForm.backend w') =
      EntryForm.expense_rows (EntryForm.backend w) ++ xrows /\
    length xrows = succeeded succeeds EntryForm.InsertExpense new /\
    EntryForm.retailers (EntryForm.backend w') =
      EntryForm.retailers (EntryForm.backend w) ++ rrows /\
    length rrows = succeeded succeeds EntryForm.InsertRetailer new.

Definition thrown {A} (o : EntryForm.Outcome A) : bool :=
  match o with
  | EntryForm.Thrown => true
  | EntryForm.Done _ => false
  end.

Definition failure_message : string := "Failed to submit entries. Please try again.".
Definition success_message : string := "Time entries and expenses submitted successfully!".

Definition expense_count (entries : list EntryForm.TimeEntry) : nat :=
  foldr (fun e n => (length (EntryForm.expenses e) + n)%nat) 0%nat entries.

(** [row] holds what [handleSubmit] stores for the form entry [e]. *)
Definition stored_as (isAdmin : bool) (userId : string) (profileName : option string)
    (e : EntryForm.TimeEntry) (row : EntryForm.TimeEntryRow) : Prop :=
  EntryForm.r_date row = EntryForm.date e /\
  EntryForm.r_location row = EntryForm.location e /\
  EntryForm.r_notes row = EntryForm.notes e /\
  EntryForm.r_is_full_day row = EntryForm.is_full_day e /\
  (if EntryForm.is_full_day e
   then EntryForm.r_start_time row = Clock.t0800 /\ EntryForm.r_end_time row = Clock.t1630
   else EntryForm.r_start_time row = EntryForm.start_time e /\
        EntryForm.r_end_time row = EntryForm.end_time e) /\
  EntryForm.r_lunch_break row = EntryForm.recorded_lunch e /\
  EntryForm.r_user_id row = (if isAdmin then EntryForm.user_id e else userId) /\
  EntryForm.r_full_name row =
    (if isAdmin then Some (EntryForm.full_name e) else profileName).

(** [x] holds what [handleSubmit] stores for an expense of the form entry
    [e] whose row is [row]. *)
Definition expense_of (isAdmin : bool) (userId : string)
    (e : EntryForm.TimeEntry) (row : EntryForm.TimeEntryRow)
    (x : EntryForm.ExpenseRow) : Prop :=
  EntryForm.x_time_entry_id x = EntryForm.r_id row /\
  EntryForm.x_user_id x = (if isAdmin then EntryForm.user_id e else userId) /\
  exists expense, expense ∈ EntryForm.expenses e /\
    EntryForm.x_amount x = EntryForm.amount expense /\
    EntryForm.x_description x = EntryForm.description expense.

End Submission.

(** *** Sample data *)

Module Sample.

Definition time (h m : Z) : Clock.TimeOfDay := {| Clock.hour := h; Clock.minute := m |}.

(** An entry of the form. *)
Definition form_entry (full : bool) (s e : Clock.TimeOfDay) (has : bool)
    (l : option Clock.LunchBreak) : EntryForm.TimeEntry :=
  {| EntryForm.id := "e1"; EntryForm.date := 19723;
     EntryForm.is_full_day := full;
     EntryForm.start_time := s; EntryForm.end_time := e;
     EntryForm.location := "Barn"; EntryForm.has_lunch_break := has;
     EntryForm.lunch_break := l; EntryForm.notes := None;
     EntryForm.user_id := "u1"; EntryForm.full_name := "Ann";
     EntryForm.expenses := [] |}.

(** A stored row. *)
Definition row (name uid : string) (day : Z) (full : bool)
    (s e : Clock.TimeOfDay) (l : option Clock.LunchBreak) : Row.TimeEntry :=
  {| Row.id := "r1"; Row.date := day;
     Row.start_time := s; Row.end_time := e; Row.location := "Barn";
     Row.lunch_break := l; Row.notes := None;
     Row.user_id := uid; Row.full_name := name;
     Row.is_full_day := full; Row.expenses := [] |}.

(** Start 09:00, end 17:30, lunch 00:30. *)
Definition form_0900_1730 : EntryForm.TimeEntry :=
  form_entry false (time 9 0) (time 17 30) true (Some Clock.lunch0030).

Definition row_0900_1730 : Row.TimeEntry :=
  row "Ann" "u1" 19723 false (time 9 0) (time 17 30) (Some Clock.lunch0030).

(** Start 17:00, end 09:00: the end lies before the start. *)
Definition form_1700_0900 : EntryForm.TimeEntry :=
  form_entry false (time 17 0) (time 9 0) false None.

Definition row_1700_0900 : Row.TimeEntry :=
  row "Ann" "u1" 19723 false (time 17 0) (time 9 0) None.

(** Full-day rows as the form stores them (08:00 to 16:30). *)
Definition full_day_no_lunch : Row.TimeEntry :=
  row "Ann" "u1" 19723 true Clock.t0800 Clock.t1630 None.

Definition full_day_lunch30 : Row.TimeEntry :=
  row "Ann" "u1" 19723 true Clock.t0800 Clock.t1630 (Some Clock.lunch0030).

Definition full_day_lunch45 : Row.TimeEntry :=
  row "Ann" "u1" 19723 true Clock.t0800 Clock.t1630 (Some Clock.lunch0045).

(** Entries on the first and the third day of a three-day range. *)
Definition day1_day3 : list Row.TimeEntry :=
  [ row "Ann" "u1" 19723 false (time 8 0) (time 12 0) None;
    row "Bob" "u2" 19725 false (time 9 0) (time 17 30) (Some Clock.lunch0030);
    row "Ann" "u1" 19725 false (time 13 0) (time 16 0) None ].

(** Two accounts sharing the display name Ann, four and three hours. *)
Definition two_anns : list Row.TimeEntry :=
  [ row "Ann" "u1" 19723 false (time 8 0) (time 12 0) None;
    row "Ann" "u7" 19724 false (time 13 0) (time 16 0) None ].

(** Two accounts whose display name is the word constructor, four and
    three hours. *)
Definition two_constructors : list Row.TimeEntry :=
  [ row "constructor" "u1" 19723 false (time 8 0) (time 12 0) None;
    row "constructor" "u7" 19724 false (time 13 0) (time 16 0) None ].

(** A form entry with one expense whose retailer is typed by name. *)
Definition expense_acme : EntryForm.Expense :=
  {| EntryForm.amount := 12.5; EntryForm.description := "Nails";
     EntryForm.receipt_url := None; EntryForm.receipt_image_url := None;
     EntryForm.retailer_id := None; EntryForm.retailer_name := "Acme" |}.

Definition form_with_expense : EntryForm.TimeEntry :=
  {| EntryForm.id := "e2"; EntryForm.date := 19724;
     EntryForm.is_full_day := true;
     EntryForm.start_time := Clock.t0800; EntryForm.end_time := Clock.t1630;
     EntryForm.location := "Barn"; EntryForm.has_lunch_break := true;
     EntryForm.lunch_break := Some Clock.lunch0030; EntryForm.notes := None;
     EntryForm.user_id := "u1"; EntryForm.full_name := "Ann";
     EntryForm.expenses := [expense_acme] |}.

(** Start 08:00, end 17:00, no lunch break: nine hours. *)
Definition form_0800_1700 : EntryForm.TimeEntry :=
  form_entry false (time 8 0) (time 17 0) false None.

(** The description [Paint, 2Q brush QdeluxeQ] and its serialization
    [QPaint, 2QQ brush QQdeluxeQQQ], where [Q] is the double-quote
    character. *)
Definition Q : string := String Csv.dquote EmptyString.

Definition paint : string :=
  "Paint, 2" +:+ Q +:+ " brush " +:+ Q +:+ "deluxe" +:+ Q.

Definition paint_serialized : string :=
  Q +:+ "Paint, 2" +:+ Q +:+ Q +:+ " brush " +:+ Q +:+ Q +:+ "deluxe" +:+ Q +:+ Q +:+ Q.

Definition activity_header_line : string :=
  "Date,Employee,Location,Start Time,End Time,Lunch Break,Hours,Full Day,Notes,Expense Amount,Expense Description,Receipt URL".

Definition admin_header_line : string :=
  "Date,Employee,Location,Start Time,End Time,Lunch Break,Hours,Full Day,Notes,User ID,Entry ID".

(** Worksheet rows costing 10.00 and 20.50. *)
Definition worksheet_rows : list Worksheet.WorksheetRow :=
  [ {| Worksheet.id := 1; Worksheet.item := "Lumber"; Worksheet.cost := 10 |};
    {| Worksheet.id := 2; Worksheet.item := "Paint"; Worksheet.cost := 20.5 |} ].

(** Worksheet rows costing 0.1 and 0.2, the numbers the cost inputs give
    for these texts. *)
Definition worksheet_tenths : list Worksheet.WorksheetRow :=
  [ {| Worksheet.id := 1; Worksheet.item := "Nails";
       Worksheet.cost := 0x1.999999999999ap-4 |};
    {| Worksheet.id := 2; Worksheet.item := "Screws";
       Worksheet.cost := 0x1.999999999999ap-3 |} ].

Definition world0 : EntryForm.World :=
  {| EntryForm.backend :=
       {| EntryForm.time_entries := []; EntryForm.expense_rows := [];
          EntryForm.retailers := []; EntryForm.receipts := [] |};
     EntryForm.calls := 0; EntryForm.requests := []; EntryForm.ui := [] |}.

(** [handleSubmit] of an employee, with a given plan of failures. *)
Definition submit (succeeds : nat -> bool) (answer : bool)
    (entries : list EntryForm.TimeEntry) : EntryForm.World :=
  EntryForm.handleSubmit succeeds false "u1" (Some "Ann")
    (fun n => JS.digits (Z.of_nat n)) (fun _ => "png") (fun path => path)
    answer entries world0.

Definition always (n : nat) : bool := true.
Definition all_but_second (n : nat) : bool := negb (Nat.eqb n 1).
Definition only_first (n : nat) : bool := Nat.eqb n 0.

End Sample.

(** ** Part II: properties *)

(** *** Numbers *)

Lemma agree_block_elim f g depth : forall lo m,
  agree_block f g depth lo -> lo <= m < lo + 2 ^ Z.of_nat depth -> f m = g m.
Proof.
  induction depth as [|d IH]; intros lo m H Hm.
  - simpl in *. assert (m = lo) as -> by lia. exact H.
  - destruct H as [H1 H2].
    rewrite Nat2Z.inj_succ, Z.pow_succ_r in Hm by lia.
    destruct (Z_lt_dec m (lo + 2 ^ Z.of_nat d)).
    + apply (IH lo); [exact H1|lia].
    + apply (IH (lo + 2 ^ Z.of_nat d)); [exact H2|lia].
Qed.

Lemma forallb_seqZ (P : Z -> bool) lo n m :
  forallb P (seqZ lo n) = true -> lo <= m < lo + n -> P m = true.
Proof.
  intros H Hm. rewrite forallb_forall in H. apply H.
  apply list_elem_of_In, elem_of_seqZ. lia.
Qed.

(** Rounding the quotient of the division by sixty through [toFixed] gives
    the hundredths of the exact quotient, for every minute count a day can
    produce. *)
Lemma toFixed2_hours_table :
  agree_block toFixed2_hours Spec.round2_hours 13 (-4096).
Proof. vm_compute. repeat split. Qed.

Lemma toFixed2_hours_round2 m :
  -4096 <= m < 4096 -> toFixed2_hours m = Spec.round2_hours m.
Proof.
  intros Hm. apply (agree_block_elim _ _ 13 (-4096)).
  - exact toFixed2_hours_table.
  - change (2 ^ Z.of_nat 13) with 8192. lia.
Qed.

Lemma negative_minutes_negative_hours m :
  -4096 <= m < 0 ->
  PrimFloat.ltb (JS.of_Z m / 60) 0 = true /\
  PrimFloat.ltb (toFixed2_hours m) 0 = true.
Proof.
  intros Hm.
  assert (H : forallb (fun m => PrimFloat.ltb (JS.of_Z m / 60) 0
                                && PrimFloat.ltb (toFixed2_hours m) 0)
                      (seqZ (-4096) 4096) = true) by (vm_compute; reflexivity).
  apply (forallb_seqZ _ _ _ m) in H; [|lia].
  apply andb_true_iff in H. exact H.
Qed.

(** *** Times of day *)

Lemma minutes_of_range t : Clock.wf_time t -> 0 <= Clock.minutes_of t < 1440.
Proof. unfold Clock.wf_time, Clock.minutes_of. lia. Qed.

Lemma lunch_minutes_range l : Clock.wf_lunch l -> 0 <= Clock.lunch_minutes l < 1440.
Proof. unfold Clock.wf_lunch, Clock.lunch_minutes. lia. Qed.

Lemma net_minutes_range s e l :
  Clock.wf_time s -> Clock.wf_time e ->
  match l with Some b => Clock.wf_lunch b | None => True end ->
  -2879 <= Spec.net_minutes s e l < 1440.
Proof.
  intros Hs He Hl. apply minutes_of_range in Hs, He.
  unfold Spec.net_minutes. destruct l as [b|].
  - apply lunch_minutes_range in Hl. lia.
  - lia.
Qed.

Lemma form_worked_minutes e :
  EntryForm.worked_minutes e =
  Spec.net_minutes (EntryForm.start_time e) (EntryForm.end_time e)
                   (EntryForm.recorded_lunch e).
Proof.
  unfold EntryForm.worked_minutes, Spec.net_minutes, Clock.differenceInMinutes.
  destruct (EntryForm.recorded_lunch e); lia.
Qed.

Lemma admin_worked_minutes e :
  Admin.worked_minutes e =
  Spec.net_minutes (Row.start_time e) (Row.end_time e) (Row.lunch_break e).
Proof.
  unfold Admin.worked_minutes, Spec.net_minutes, Clock.differenceInMinutes.
  destruct (Row.lunch_break e); lia.
Qed.

Lemma form_recorded_lunch_wf e :
  EntryForm.wf_entry e ->
  match EntryForm.recorded_lunch e with
  | Some b => Clock.wf_lunch b
  | None => True
  end.
Proof.
  intros (_ & _ & Hl). unfold EntryForm.recorded_lunch.
  destruct (EntryForm.has_lunch_break e); [exact Hl|exact I].
Qed.

(** *** Duration calculators *)

(** The form and the admin table apply the fixed rule to a full day. *)
Lemma form_full_day_rule e :
  EntryForm.is_full_day e = true ->
  EntryForm.calculateEntryHours e =
  match EntryForm.recorded_lunch e with Some _ => 7.5%float | None => 8%float end.
Proof. intros H. unfold EntryForm.calculateEntryHours. rewrite H. reflexivity. Qed.

Lemma admin_full_day_rule e :
  Row.is_full_day e = true ->
  Admin.calculateTotalHours e =
  match Row.lunch_break e with Some _ => 7.5%float | None => 8%float end.
Proof. intros H. unfold Admin.calculateTotalHours. rewrite H. reflexivity. Qed.

(** C1 (the code departs from the claim).  For a full-day entry the form
    and the admin table return 8 without and 7.5 with a lunch break; the
    activity dashboard computes from the stored times and returns 8.5 and 8
    for the rows the form stores (08:00 to 16:30), and the invoice summary
    computes from 09:00 to 17:00 and returns 7.25 under a 45-minute lunch
    break. *)
Theorem full_day_hours_by_view :
  Admin.calculateTotalHours Sample.full_day_no_lunch = 8%float /\
  Admin.calculateTotalHours Sample.full_day_lunch30 = 7.5%float /\
  Admin.calculateTotalHours Sample.full_day_lunch45 = 7.5%float /\
  Activity.entry_hours Sample.full_day_no_lunch = 8.5%float /\
  Activity.entry_hours Sample.full_day_lunch30 = 8%float /\
  Invoice.entry_hours Sample.full_day_no_lunch = 8%float /\
  Invoice.entry_hours Sample.full_day_lunch30 = 7.5%float /\
  Invoice.entry_hours Sample.full_day_lunch45 = 7.25%float.
Proof. vm_compute. repeat split. Qed.

(** C2.  For a partial-day entry with well-formed times, the calculator of
    the entry form and the one of the admin table return the net minutes
    (end minus start, less the lunch break when one is recorded) over
    sixty, rounded to two decimal places. *)
Theorem partial_day_hours_rounded (e : EntryForm.TimeEntry) (a : Row.TimeEntry) :
  EntryForm.wf_entry e -> EntryForm.is_full_day e = false ->
  Row.wf_entry a -> Row.is_full_day a = false ->
  EntryForm.calculateEntryHours e =
    Spec.partial_day_hours (EntryForm.start_time e) (EntryForm.end_time e)
                           (EntryForm.recorded_lunch e) /\
  Admin.calculateTotalHours a =
    Spec.partial_day_hours (Row.start_time a) (Row.end_time a) (Row.lunch_break a).
Proof.
  intros He Hpe Ha Hpa. split.
  - unfold EntryForm.calculateEntryHours. rewrite Hpe.
    rewrite form_worked_minutes. unfold Spec.partial_day_hours.
    apply toFixed2_hours_round2.
    pose proof (form_recorded_lunch_wf e He) as Hl.
    destruct He as (Hs & Hen & _).
    pose proof (net_minutes_range _ _ _ Hs Hen Hl). lia.
  - unfold Admin.calculateTotalHours. rewrite Hpa.
    rewrite admin_worked_minutes. unfold Spec.partial_day_hours.
    apply toFixed2_hours_round2.
    destruct Ha as (Hs & Hen & Hl).
    pose proof (net_minutes_range _ _ _ Hs Hen Hl). lia.
Qed.

Lemma partial_day_hours_rounded_witness :
  EntryForm.calculateEntryHours Sample.form_0900_1730 = 8%float /\
  Admin.calculateTotalHours Sample.row_0900_1730 = 8%float.
Proof.
  assert (Hf : EntryForm.wf_entry Sample.form_0900_1730)
    by (unfold EntryForm.wf_entry, Clock.wf_time, Clock.wf_lunch; simpl; lia).
  assert (Hr : Row.wf_entry Sample.row_0900_1730)
    by (unfold Row.wf_entry, Clock.wf_time, Clock.wf_lunch; simpl; lia).
  exact (partial_day_hours_rounded Sample.form_0900_1730 Sample.row_0900_1730
           Hf eq_refl Hr eq_refl).
Defined.

(** C8.  For a partial-day entry with well-formed times whose end lies
    before its start, each calculator returns a number (no error value):
    the net minutes are negative, the dashboard calculator returns them
    over sixty, the form and the admin table return that quotient rounded
    to two decimal places, and all three results are below zero. *)
Theorem end_before_start_negative (e : EntryForm.TimeEntry) (a : Row.TimeEntry) :
  EntryForm.wf_entry e -> EntryForm.is_full_day e = false ->
  Clock.minutes_of (EntryForm.end_time e) < Clock.minutes_of (EntryForm.start_time e) ->
  Row.wf_entry a -> Row.is_full_day a = false ->
  Clock.minutes_of (Row.end_time a) < Clock.minutes_of (Row.start_time a) ->
  (EntryForm.worked_minutes e < 0 /\
   EntryForm.calculateEntryHours e = Spec.round2_hours (EntryForm.worked_minutes e) /\
   PrimFloat.ltb (EntryForm.calculateEntryHours e) 0 = true) /\
  (Admin.worked_minutes a < 0 /\
   Admin.calculateTotalHours a = Spec.round2_hours (Admin.worked_minutes a) /\
   PrimFloat.ltb (Admin.calculateTotalHours a) 0 = true) /\
  (Activity.entry_hours a = (JS.of_Z (Admin.worked_minutes a) / 60)%float /\
   PrimFloat.ltb (Activity.entry_hours a) 0 = true).
Proof.
  intros He Hpe Hlt Ha Hpa Hlta.
  pose proof (form_recorded_lunch_wf e He) as Hl.
  destruct He as (Hs & Hen & _). destruct Ha as (Hsa & Hena & Hla).
  pose proof (net_minutes_range _ _ _ Hs Hen Hl) as Hr.
  pose proof (net_minutes_range _ _ _ Hsa Hena Hla) as Hra.
  rewrite <- form_worked_minutes in Hr. rewrite <- admin_worked_minutes in Hra.
  assert (Hneg : EntryForm.worked_minutes e < 0).
  { unfold EntryForm.worked_minutes, Clock.differenceInMinutes.
    destruct (EntryForm.recorded_lunch e) as [b|]; [|lia].
    apply lunch_minutes_range in Hl. lia. }
  assert (Hnega : Admin.worked_minutes a < 0).
  { unfold Admin.worked_minutes, Clock.differenceInMinutes.
    destruct (Row.lunch_break a) as [b|]; [|lia].
    apply lunch_minutes_range in Hla. lia. }
  assert (Hfe : EntryForm.calculateEntryHours e = toFixed2_hours (EntryForm.worked_minutes e)).
  { unfold EntryForm.calculateEntryHours. rewrite Hpe. reflexivity. }
  assert (Hfa : Admin.calculateTotalHours a = toFixed2_hours (Admin.worked_minutes a)).
  { unfold Admin.calculateTotalHours. rewrite Hpa. reflexivity. }
  assert (Hda : Activity.entry_hours a = (JS.of_Z (Admin.worked_minutes a) / 60)%float).
  { unfold Activity.entry_hours, Activity.calculateDuration, Admin.worked_minutes.
    destruct (Row.lunch_break a); reflexivity. }
  destruct (negative_minutes_negative_hours (EntryForm.worked_minutes e)) as [_ H2]; [lia|].
  destruct (negative_minutes_negative_hours (Admin.worked_minutes a)) as [H3 H4]; [lia|].
  repeat split; try assumption.
  - rewrite Hfe. apply toFixed2_hours_round2. lia.
  - rewrite Hfe. exact H2.
  - rewrite Hfa. apply toFixed2_hours_round2. lia.
  - rewrite Hfa. exact H4.
Qed.

Lemma end_before_start_negative_witness :
  EntryForm.calculateEntryHours Sample.form_1700_0900 = (-8)%float /\
  PrimFloat.ltb (Activity.entry_hours Sample.row_1700_0900) 0 = true.
Proof.
  assert (Hf : EntryForm.wf_entry Sample.form_1700_0900)
    by (unfold EntryForm.wf_entry, Clock.wf_time; simpl; lia).
  assert (Hr : Row.wf_entry Sample.row_1700_0900)
    by (unfold Row.wf_entry, Clock.wf_time; simpl; lia).
  assert (Hlt : Clock.minutes_of (EntryForm.end_time Sample.form_1700_0900)
                < Clock.minutes_of (EntryForm.start_time Sample.form_1700_0900))
    by (vm_compute; reflexivity).
  assert (Hlta : Clock.minutes_of (Row.end_time Sample.row_1700_0900)
                 < Clock.minutes_of (Row.start_time Sample.row_1700_0900))
    by (vm_compute; reflexivity).
  pose proof (end_before_start_negative Sample.form_1700_0900 Sample.row_1700_0900
                Hf eq_refl Hlt Hr eq_refl Hlta) as (( _ & H1 & _) & _ & (_ & H2)).
  split; [exact H1 | exact H2].
Defined.

(** *** Submission of the entry form *)

Section SubmitFacts.

Import EntryForm Submission.

Variable succeeds : nat -> bool.
Variable isAdmin : bool.
Variable userId : string.
Variable profileName : option string.
Variable randomUUID : nat -> string.
Variable blobExtension : string -> string.
Variable publicUrl : string -> string.

Local Abbreviation submit_expense :=
  (EntryForm.submit_expense succeeds isAdmin userId randomUUID blobExtension publicUrl).
Local Abbreviation submit_expenses :=
  (EntryForm.submit_expenses succeeds isAdmin userId randomUUID blobExtension publicUrl).
Local Abbreviation submit_entry :=
  (EntryForm.submit_entry succeeds isAdmin userId profileName randomUUID blobExtension publicUrl).
Local Abbreviation submit_entries :=
  (EntryForm.submit_entries succeeds isAdmin userId profileName randomUUID blobExtension publicUrl).
Local Abbreviation handleSubmit :=
  (EntryForm.handleSubmit succeeds isAdmin userId profileName randomUUID blobExtension publicUrl).

Lemma backend_le_refl b : backend_le b b.
Proof. repeat split; reflexivity. Qed.

Lemma backend_le_trans b1 b2 b3 :
  backend_le b1 b2 -> backend_le b2 b3 -> backend_le b1 b3.
Proof.
  intros (?&?&?&?) (?&?&?&?). repeat split; etrans; eassumption.
Qed.

Lemma follows_refl w : follows w w.
Proof. repeat split; try reflexivity. Qed.

Lemma follows_trans w1 w2 w3 : follows w1 w2 -> follows w2 w3 -> follows w1 w3.
Proof.
  intros (Hu1 & Hc1 & Hb1) (Hu2 & Hc2 & Hb2). split; [congruence|].
  split; [lia|]. eapply backend_le_trans; eassumption.
Qed.

(** What one remote call does. *)
Lemma remote_cases {A} request (effect : nat -> Backend -> A * Backend) w :
  (succeeds (calls w) = true /\
   remote succeeds request effect w =
     (Done (Some (fst (effect (calls w) (backend w)))),
      {| backend := snd (effect (calls w) (backend w));
         calls := S (calls w);
         requests := requests w ++ [(calls w, request)];
         ui := ui w |})) \/
  (succeeds (calls w) = false /\
   remote succeeds request effect w =
     (Done None, {| backend := backend w; calls := S (calls w);
                    requests := requests w ++ [(calls w, request)];
                    ui := ui w |})).
Proof.
  unfold remote. destruct (succeeds (calls w)) eqn:E.
  - left. split; [reflexivity|]. destruct (effect (calls w) (backend w)); reflexivity.
  - right. split; reflexivity.
Qed.

Ltac remote_step :=
  match goal with
  | |- context [remote succeeds ?req ?eff ?w] =>
      let Hs := fresh "Hs" in
      destruct (remote_cases req eff w) as [[Hs ->]|[Hs ->]]; cbn
  end.

Lemma receipt_urls_spec e x w :
  match receipt_urls succeeds isAdmin userId randomUUID blobExtension publicUrl e x w with
  | (Done _, w') => follows w w' /\ keeps_rows w w'
  | (Thrown, _) => False
  end.
Proof.
  unfold receipt_urls.
  destruct (receipt_url x) as [url|]; [destruct (startsWith "blob:" url)|];
    unfold bind, ret, upload_receipt; try remote_step;
    repeat split; cbn; try reflexivity; try lia; apply prefix_app_r; reflexivity.
Qed.

Lemma retailer_for_spec x w :
  match retailer_for succeeds x w with
  | (Done _, w') => follows w w' /\ keeps_rows w w'
  | (Thrown, w') => follows w w' /\ keeps_rows w w' /\ failed_last succeeds w w'
  end.
Proof.
  unfold retailer_for.
  destruct (retailer_id x) as [rid|].
  { cbn. split; [apply follows_refl|split; reflexivity]. }
  destruct (String.length (retailer_name x) =? 0)%nat.
  { cbn. split; [apply follows_refl|split; reflexivity]. }
  unfold bind, ret, throw, select_retailer, insert_retailer.
  remote_step.
  - destruct (firstn 1 _) as [|r l]; cbn.
    + remote_step.
      * repeat split; cbn; try reflexivity; try lia. apply prefix_app_r; reflexivity.
      * repeat split; cbn; try reflexivity; try lia. exact Hs0.
    + repeat split; cbn; try reflexivity; try lia.
  - remote_step.
    + repeat split; cbn; try reflexivity; try lia. apply prefix_app_r; reflexivity.
    + repeat split; cbn; try reflexivity; try lia. exact Hs0.
Qed.

Lemma keeps_rows_trans w1 w2 w3 :
  keeps_rows w1 w2 -> keeps_rows w2 w3 -> keeps_rows w1 w3.
Proof. intros [? ?] [? ?]. split; congruence. Qed.

Lemma failed_last_after w1 w2 w3 :
  follows w1 w2 -> failed_last succeeds w2 w3 -> failed_last succeeds w1 w3.
Proof. intros (_ & Hc & _) [Hlt Hf]. split; [lia|exact Hf]. Qed.

(** One expense: on success exactly one row is appended to [expenses],
    bound to the time entry; on failure no row is, and the last call issued
    is the one that failed. *)
Lemma submit_expense_spec e tid x w :
  match submit_expense e tid x w with
  | (Done _, w') =>
      follows w w' /\
      time_entries (backend w') = time_entries (backend w) /\
      exists row, expense_rows (backend w') = expense_rows (backend w) ++ [row] /\
                  x_time_entry_id row = tid
  | (Thrown, w') => follows w w' /\ keeps_rows w w' /\ failed_last succeeds w w'
  end.
Proof.
  unfold EntryForm.submit_expense, bind at 1.
  pose proof (receipt_urls_spec e x w) as H1.
  destruct (receipt_urls _ _ _ _ _ _ e x w) as [[urls|] w1]; [|contradiction].
  destruct H1 as [F1 K1]. unfold bind at 1.
  pose proof (retailer_for_spec x w1) as H2.
  destruct (retailer_for succeeds x w1) as [[rid|] w2].
  - destruct H2 as [F2 K2].
    pose proof (follows_trans _ _ _ F1 F2) as (Hu & Hc & Hb1 & Hb2 & Hb3 & Hb4).
    destruct (keeps_rows_trans _ _ _ K1 K2) as [Kt Ke].
    unfold bind, insert_expense, ret, throw. remote_step.
    + repeat split; cbn; try assumption; try lia.
      * apply prefix_app_r. exact Hb2.
      * eexists. rewrite Ke. split; reflexivity.
    + repeat split; cbn; try assumption; try lia.
  - destruct H2 as (F2 & K2 & L2).
    split; [eapply follows_trans; eassumption|].
    split; [eapply keeps_rows_trans; eassumption|].
    eapply failed_last_after; eassumption.
Qed.

(** The expenses of one entry: all rows on success, a strict prefix of them
    on failure. *)
Lemma submit_expenses_spec e tid xs : forall w,
  match submit_expenses e tid xs w with
  | (Done _, w') =>
      follows w w' /\
      time_entries (backend w') = time_entries (backend w) /\
      exists rows, expense_rows (backend w') = expense_rows (backend w) ++ rows /\
                   length rows = length xs /\
                   Forall (fun row => x_time_entry_id row = tid) rows
  | (Thrown, w') =>
      follows w w' /\
      time_entries (backend w') = time_entries (backend w) /\
      failed_last succeeds w w' /\
      exists rows, expense_rows (backend w') = expense_rows (backend w) ++ rows /\
                   (length rows < length xs)%nat
  end.
Proof.
  induction xs as [|x xs IH]; intros w.
  - cbn. split; [apply follows_refl|]. split; [reflexivity|].
    exists []. rewrite app_nil_r. repeat split; constructor.
  - cbn [EntryForm.submit_expenses]. unfold bind at 1.
    pose proof (submit_expense_spec e tid x w) as H1.
    destruct (submit_expense e tid x w) as [[[]|] w1].
    + destruct H1 as (F1 & T1 & row & E1 & I1).
      specialize (IH w1).
      destruct (submit_expenses e tid xs w1) as [[[]|] w2].
      * destruct IH as (F2 & T2 & rows & E2 & Len & All).
        split; [eapply follows_trans; eassumption|].
        split; [congruence|]. exists (row :: rows).
        split; [rewrite E2, E1, <- app_assoc; reflexivity|].
        split; [cbn; lia|]. constructor; assumption.
      * destruct IH as (F2 & T2 & L2 & rows & E2 & Len).
        split; [eapply follows_trans; eassumption|].
        split; [congruence|].
        split; [eapply failed_last_after; eassumption|].
        exists (row :: rows).
        split; [rewrite E2, E1, <- app_assoc; reflexivity|cbn; lia].
    + destruct H1 as (F1 & [T1 E1] & L1).
      split; [assumption|]. split; [assumption|]. split; [assumption|].
      exists []. rewrite app_nil_r. split; [assumption|cbn; lia].
Qed.

(** One entry: on success its row and one row per expense are appended; on
    failure either nothing of it was written (its own insert failed) or its
    row and a strict prefix of its expenses were. *)
Lemma submit_entry_spec e w :
  match submit_entry e w with
  | (Done _, w') =>
      follows w w' /\
      exists row rows,
        time_entries (backend w') = time_entries (backend w) ++ [row] /\
        r_date row = date e /\ r_location row = location e /\
        expense_rows (backend w') = expense_rows (backend w) ++ rows /\
        length rows = length (expenses e)
  | (Thrown, w') =>
      follows w w' /\ failed_last succeeds w w' /\
      (keeps_rows w w' \/
       exists row rows,
         time_entries (backend w') = time_entries (backend w) ++ [row] /\
         expense_rows (backend w') = expense_rows (backend w) ++ rows /\
         (length rows < length (expenses e))%nat)
  end.
Proof.
  unfold EntryForm.submit_entry, bind at 1, insert_time_entry.
  remote_step.
  - match goal with |- context [submit_expenses e ?t ?xs ?w0] =>
      pose proof (submit_expenses_spec e t xs w0) as H2;
      destruct (submit_expenses e t xs w0) as [[[]|] w2]
    end; cbn in H2.
    + destruct H2 as ((Hu & Hc & Hb1 & Hb2 & Hb3 & Hb4) & T2 & rows & E2 & Len & All).
      cbn in *. split.
      * repeat split; cbn; try eassumption; try lia.
        etrans; [|exact Hb1]. apply prefix_app_r. reflexivity.
      * eexists _, rows. split; [exact T2|]. repeat split; assumption.
    + destruct H2 as ((Hu & Hc & Hb1 & Hb2 & Hb3 & Hb4) & T2 & [Hlt Hf] & rows & E2 & Len).
      cbn in *. split; [|split].
      * repeat split; cbn; try eassumption; try lia.
        etrans; [|exact Hb1]. apply prefix_app_r. reflexivity.
      * split; [lia|exact Hf].
      * right. eexists _, rows. split; [exact T2|]. split; assumption.
  - cbn. split; [|split].
    + repeat split; cbn; try reflexivity; lia.
    + split; cbn; [lia|exact Hs].
    + left. split; reflexivity.
Qed.

(** The loop over the entries: every entry written on success; on failure
    the entries before the failing one were submitted in full and the
    failing one is where the loop ended. *)
Lemma submit_entries_spec entries : forall w,
  match submit_entries entries w with
  | (Done _, w') =>
      follows w w' /\
      exists trows xrows,
        time_entries (backend w') = time_entries (backend w) ++ trows /\
        map r_date trows = map date entries /\
        expense_rows (backend w') = expense_rows (backend w) ++ xrows /\
        length xrows = expense_count entries
  | (Thrown, w') =>
      follows w w' /\ failed_last succeeds w w' /\
      exists done e rest w1,
        entries = done ++ e :: rest /\
        submit_entries done w = (Done tt, w1) /\
        submit_entry e w1 = (Thrown, w')
  end.
Proof.
  induction entries as [|e entries IH]; intros w.
  - cbn. split; [apply follows_refl|]. exists [], [].
    rewrite !app_nil_r. repeat split.
  - cbn [EntryForm.submit_entries]. unfold bind at 1.
    pose proof (submit_entry_spec e w) as H1.
    destruct (submit_entry e w) as [[[]|] w1] eqn:E1.
    + destruct H1 as (F1 & row & rows & T1 & D1 & _ & X1 & Len1).
      specialize (IH w1).
      destruct (submit_entries entries w1) as [[[]|] w2] eqn:E2.
      * destruct IH as (F2 & trows & xrows & T2 & D2 & X2 & Len2).
        split; [eapply follows_trans; eassumption|].
        exists (row :: trows), (rows ++ xrows).
        split; [rewrite T2, T1, <- app_assoc; reflexivity|].
        split; [cbn; congruence|].
        split; [rewrite X2, X1, <- app_assoc; reflexivity|].
        rewrite length_app.
        change (expense_count (e :: entries))
          with (length (expenses e) + expense_count entries)%nat. lia.
      * destruct IH as (F2 & L2 & done & e' & rest & w3 & -> & Hd & He).
        split; [eapply follows_trans; eassumption|].
        split; [eapply failed_last_after; eassumption|].
        exists (e :: done), e', rest, w3. split; [reflexivity|].
        split; [|exact He].
        cbn [EntryForm.submit_entries]. unfold bind at 1. rewrite E1. exact Hd.
    + destruct H1 as (F1 & L1 & _).
      split; [assumption|]. split; [assumption|].
      exists [], e, entries, w. repeat split. exact E1.
Qed.

Lemma submit_entries_stops done e rest : forall w w1 w2,
  submit_entries done w = (Done tt, w1) ->
  submit_entry e w1 = (Thrown, w2) ->
  submit_entries (done ++ e :: rest) w = (Thrown, w2).
Proof.
  induction done as [|d done IH]; intros w w1 w2 Hd He.
  - cbn in Hd. injection Hd as <-. cbn. unfold bind. rewrite He. reflexivity.
  - cbn [app EntryForm.submit_entries] in *. unfold bind at 1 in Hd. unfold bind at 1.
    destruct (submit_entry d w) as [[[]|] w3]; [|discriminate].
    eapply IH; eassumption.
Qed.

Lemma asked_iff entries :
  asked entries = true <->
  exists e, e ∈ entries /\ PrimFloat.ltb 8 (calculateEntryHours e) = true.
Proof.
  unfold asked, entriesOver8Hours. split.
  - intros H. destruct (List.filter _ entries) as [|e l] eqn:E; [discriminate|].
    assert (Hin : In e (List.filter (fun entry => PrimFloat.ltb 8 (calculateEntryHours entry)) entries))
      by (rewrite E; left; reflexivity).
    apply filter_In in Hin as [Hin Hp]. exists e. split; [|exact Hp].
    apply list_elem_of_In. exact Hin.
  - intros (e & Hin & Hp).
    assert (Hf : In e (List.filter (fun entry => PrimFloat.ltb 8 (calculateEntryHours entry)) entries)).
    { apply filter_In. split; [apply list_elem_of_In; exact Hin|exact Hp]. }
    destruct (List.filter _ entries); [destruct Hf|reflexivity].
Qed.

(** What one call of [handleSubmit] shows, in order. *)
Lemma handleSubmit_shown answer entries w :
  shown w (handleSubmit answer entries w) =
  (if asked entries then [Confirm (entryList isAdmin entries)] else []) ++
  (if asked entries && negb answer then []
   else SetIsSubmitting true ::
        match fst (submit_entries entries
                     (emit (SetIsSubmitting true)
                        (if asked entries
                         then emit (Confirm (entryList isAdmin entries)) w else w))) with
        | Done _ => [ResetForm; Alert success_message]
        | Thrown => [Alert failure_message]
        end ++ [SetIsSubmitting false]).
Proof.
  unfold EntryForm.handleSubmit, shown. fold (asked entries).
  set (wp := if asked entries then emit (Confirm (entryList isAdmin entries)) w else w).
  assert (Hp : ui wp = ui w ++ (if asked entries then [Confirm (entryList isAdmin entries)] else [])).
  { unfold wp. destruct (asked entries); cbn; [reflexivity|rewrite app_nil_r; reflexivity]. }
  destruct (asked entries && negb answer) eqn:Ea.
  - rewrite Hp, drop_app_length, app_nil_r. reflexivity.
  - pose proof (submit_entries_spec entries (emit (SetIsSubmitting true) wp)) as H.
    destruct (submit_entries entries (emit (SetIsSubmitting true) wp)) as [[[]|] w1];
      cbn [fst].
    + destruct H as ((Hu & _) & _). cbn. rewrite Hu. cbn. rewrite Hp.
      rewrite <- !app_assoc. rewrite drop_app_length. reflexivity.
    + destruct H as ((Hu & _) & _). cbn. rewrite Hu. cbn. rewrite Hp.
      rewrite <- !app_assoc. rewrite drop_app_length. reflexivity.
Qed.

Lemma not_over_8_table :
  forallb (fun m => implb (PrimFloat.leb (toFixed2_hours m) 8)
                          (negb (PrimFloat.ltb 8 (toFixed2_hours m))))
          (seqZ (-4096) 8192) = true.
Proof. vm_compute. reflexivity. Qed.

Lemma at_most_8_not_over e :
  wf_entry e ->
  PrimFloat.leb (calculateEntryHours e) 8 = true ->
  PrimFloat.ltb 8 (calculateEntryHours e) = false.
Proof.
  intros He. unfold calculateEntryHours.
  destruct (is_full_day e).
  - destruct (recorded_lunch e); intros _; vm_compute; reflexivity.
  - fold (toFixed2_hours (worked_minutes e)). intros Hle.
    pose proof (form_recorded_lunch_wf e He) as Hl.
    destruct He as (Hs & Hen & _).
    pose proof (net_minutes_range _ _ _ Hs Hen Hl) as Hr.
    rewrite <- form_worked_minutes in Hr.
    pose proof (forallb_seqZ _ _ _ (worked_minutes e) not_over_8_table) as H.
    cbv beta in H. rewrite Hle in H. cbn in H.
    apply negb_true_iff. apply H. lia.
Qed.

(** C3.  The confirmation prompt is shown exactly when some entry of the
    batch has a computed duration above 8; a batch whose entries (with
    well-formed times) all have durations of at most 8 is submitted with no
    prompt; declining the prompt ends the call with no remote call issued
    and the tables as they were. *)
Theorem overage_confirmation answer entries w :
  (forall e, e ∈ entries -> wf_entry e) ->
  ((exists ev, ev ∈ shown w (handleSubmit answer entries w) /\ is_confirm ev = true) <->
   (exists e, e ∈ entries /\ PrimFloat.ltb 8 (calculateEntryHours e) = true)) /\
  ((forall e, e ∈ entries -> PrimFloat.leb (calculateEntryHours e) 8 = true) ->
   (forall ev, ev ∈ shown w (handleSubmit answer entries w) -> is_confirm ev = false) /\
   SetIsSubmitting true ∈ shown w (handleSubmit answer entries w) /\
   backend (handleSubmit answer entries w) =
     backend (snd (submit_entries entries (emit (SetIsSubmitting true) w)))) /\
  ((exists e, e ∈ entries /\ PrimFloat.ltb 8 (calculateEntryHours e) = true) ->
   answer = false ->
   backend (handleSubmit answer entries w) = backend w /\
   calls (handleSubmit answer entries w) = calls w /\
   shown w (handleSubmit answer entries w) = [Confirm (entryList isAdmin entries)]).
Proof.
  intros Hwf.
  assert (Hshape : forall l : list UiEvent,
            (forall ev, ev ∈ l -> is_confirm ev = false) ->
            (exists ev, ev ∈ (if asked entries then [Confirm (entryList isAdmin entries)] else []) ++ l
                        /\ is_confirm ev = true) <-> asked entries = true).
  { intros l Hl. split.
    - intros (ev & Hin & Hc). destruct (asked entries); [reflexivity|].
      cbn in Hin. rewrite (Hl ev Hin) in Hc. discriminate.
    - intros ->. eexists. split; [apply elem_of_app; left; apply list_elem_of_singleton; reflexivity|].
      reflexivity. }
  assert (Hrest : forall ev,
            ev ∈ (if asked entries && negb answer then []
                  else SetIsSubmitting true ::
                       match fst (submit_entries entries
                                    (emit (SetIsSubmitting true)
                                       (if asked entries
                                        then emit (Confirm (entryList isAdmin entries)) w else w))) with
                       | Done _ => [ResetForm; Alert success_message]
                       | Thrown => [Alert failure_message]
                       end ++ [SetIsSubmitting false]) ->
            is_confirm ev = false).
  { intros ev. destruct (asked entries && negb answer).
    - intros Hin. inversion Hin.
    - destruct (fst _) as [[]|]; cbn; intros Hin;
        repeat (apply elem_of_cons in Hin as [->|Hin]; [reflexivity|]); inversion Hin. }
  split; [|split].
  - rewrite handleSubmit_shown, <- asked_iff. apply Hshape. exact Hrest.
  - intros Hle.
    assert (Hno : asked entries = false).
    { destruct (asked entries) eqn:E; [|reflexivity].
      apply asked_iff in E as (e & Hin & Hgt).
      rewrite (at_most_8_not_over e (Hwf e Hin) (Hle e Hin)) in Hgt. discriminate. }
    rewrite handleSubmit_shown. rewrite Hno. cbn [andb app].
    split; [|split].
    + intros ev Hin. apply Hrest. rewrite Hno. exact Hin.
    + apply elem_of_cons. left. reflexivity.
    + unfold EntryForm.handleSubmit. fold (asked entries). rewrite Hno. cbn [andb].
      destruct (submit_entries entries (emit (SetIsSubmitting true) w)) as [[[]|] w1];
        reflexivity.
  - intros Hex ->. apply asked_iff in Hex.
    rewrite handleSubmit_shown. rewrite Hex. cbn [negb andb]. rewrite app_nil_r.
    unfold EntryForm.handleSubmit. fold (asked entries). rewrite Hex. cbn.
    repeat split.
Qed.

Local Abbreviation stored := (stored_as isAdmin userId profileName).
Local Abbreviation expense_for := (expense_of isAdmin userId).

(** The rows one expense leaves, whatever the outcome. *)
Lemma submit_expense_rows e tid x w o w' :
  submit_expense e tid x w = (o, w') ->
  time_entries (backend w') = time_entries (backend w) /\
  exists rows,
    expense_rows (backend w') = expense_rows (backend w) ++ rows /\
    (o = Done tt -> length rows = 1%nat) /\
    Forall (fun r => x_time_entry_id r = tid /\
                     x_user_id r = owner isAdmin userId e /\
                     x_amount r = amount x /\ x_description r = description x) rows.
Proof.
  unfold EntryForm.submit_expense, bind at 1.
  pose proof (receipt_urls_spec e x w) as H1.
  destruct (receipt_urls _ _ _ _ _ _ e x w) as [[urls|] w1]; [|contradiction].
  destruct H1 as [_ [Kt1 Ke1]]. unfold bind at 1.
  pose proof (retailer_for_spec x w1) as H2.
  destruct (retailer_for succeeds x w1) as [[rid|] w2].
  - destruct H2 as [_ [Kt2 Ke2]].
    unfold bind, insert_expense, ret, throw. remote_step; intros [= <- <-]; cbn.
    + split; [congruence|]. eexists [_]. split; [rewrite Ke2, Ke1; reflexivity|].
      split; [reflexivity|]. constructor; [|constructor]. cbn. repeat split.
    + split; [congruence|]. exists []. rewrite app_nil_r.
      split; [congruence|]. split; [discriminate|constructor].
  - destruct H2 as (_ & [Kt2 Ke2] & _). intros [= <- <-].
    split; [congruence|]. exists []. rewrite app_nil_r.
    split; [congruence|]. split; [discriminate|constructor].
Qed.

(** The rows the expenses of one entry leave. *)
Lemma submit_expenses_rows e tid xs : forall w o w',
  submit_expenses e tid xs w = (o, w') ->
  time_entries (backend w') = time_entries (backend w) /\
  exists rows,
    expense_rows (backend w') = expense_rows (backend w) ++ rows /\
    (o = Done tt -> length rows = length xs) /\
    Forall (fun r => x_time_entry_id r = tid /\
                     x_user_id r = owner isAdmin userId e /\
                     exists x, x ∈ xs /\
                       x_amount r = amount x /\ x_description r = description x) rows.
Proof.
  induction xs as [|x xs IH]; intros w o w'.
  - cbn. intros [= <- <-]. split; [reflexivity|]. exists []. rewrite app_nil_r.
    split; [reflexivity|]. split; [reflexivity|constructor].
  - cbn [EntryForm.submit_expenses]. unfold bind at 1.
    destruct (submit_expense e tid x w) as [o1 w1] eqn:E1.
    apply submit_expense_rows in E1 as (T1 & rows1 & X1 & L1 & A1).
    assert (A1' : Forall (fun r => x_time_entry_id r = tid /\
                     x_user_id r = owner isAdmin userId e /\
                     exists x0, x0 ∈ x :: xs /\
                       x_amount r = amount x0 /\ x_description r = description x0) rows1).
    { eapply Forall_impl; [exact A1|]. intros r (? & ? & ? & ?).
      repeat split; try assumption. exists x. split; [left|split; assumption]. }
    destruct o1 as [[]|].
    + intros E2. apply IH in E2 as (T2 & rows2 & X2 & L2 & A2).
      split; [congruence|]. exists (rows1 ++ rows2).
      split; [rewrite X2, X1, <- app_assoc; reflexivity|].
      split.
      * intros Ho. rewrite length_app, L1, L2 by (reflexivity || assumption). reflexivity.
      * apply Forall_app. split; [exact A1'|].
        eapply Forall_impl; [exact A2|]. intros r (? & ? & x0 & ? & ? & ?).
        repeat split; try assumption. exists x0. split; [right; assumption|split; assumption].
    + intros [= <- <-]. split; [exact T1|]. exists rows1.
      split; [exact X1|]. split; [discriminate|exact A1'].
Qed.

(** The rows one entry leaves: none when its own insert failed, else its
    row and rows of its expenses. *)
Lemma submit_entry_rows e w o w' :
  submit_entry e w = (o, w') ->
  (o = Thrown /\ keeps_rows w w') \/
  exists row rows,
    time_entries (backend w') = time_entries (backend w) ++ [row] /\
    stored e row /\
    expense_rows (backend w') = expense_rows (backend w) ++ rows /\
    (o = Done tt -> length rows = length (expenses e)) /\
    Forall (expense_for e row) rows.
Proof.
  unfold EntryForm.submit_entry, bind at 1, insert_time_entry.
  remote_step.
  - intros E. apply submit_expenses_rows in E as (T & rows & X & L & A). cbn in T, X.
    right. eexists _, rows. split; [exact T|]. split.
    { unfold stored_as, recorded_lunch, owner. cbn.
      destruct (is_full_day e); repeat split. }
    split; [exact X|]. split; [exact L|].
    eapply Forall_impl; [exact A|]. intros r (Hid & Hu & x & Hx & Ha & Hd).
    split; [exact Hid|]. split; [exact Hu|]. exists x. repeat split; assumption.
  - intros [= <- <-]. left. split; [reflexivity|]. split; reflexivity.
Qed.

(** The rows a batch leaves, whatever the outcome: the stored forms of the
    first entries of the batch, in order, and expense rows each bound to the
    row of its own entry. *)
Lemma submit_entries_rows entries : forall w o w',
  submit_entries entries w = (o, w') ->
  exists done trows xrows,
    done `prefix_of` entries /\
    (o = Done tt -> done = entries /\ length xrows = expense_count entries) /\
    time_entries (backend w') = time_entries (backend w) ++ trows /\
    expense_rows (backend w') = expense_rows (backend w) ++ xrows /\
    Forall2 stored done trows /\
    Forall (fun x => exists i e row,
                       done !! i = Some e /\ trows !! i = Some row /\
                       expense_for e row x) xrows.
Proof.
  induction entries as [|e entries IH]; intros w o w'.
  - cbn. intros [= <- <-]. exists [], [], []. rewrite !app_nil_r.
    split; [apply prefix_nil|]. repeat split; constructor.
  - cbn [EntryForm.submit_entries]. unfold bind at 1.
    destruct (submit_entry e w) as [o1 w1] eqn:E1.
    apply submit_entry_rows in E1 as [[-> [Kt Ke]]|(row & rows & T1 & S1 & X1 & L1 & A1)].
    + intros [= <- <-]. exists [], [], []. rewrite !app_nil_r.
      split; [apply prefix_nil|]. split; [discriminate|]. repeat split; try assumption; constructor.
    + assert (A1' : forall rest trest,
                Forall (fun x => exists i e0 row0,
                          (e :: rest) !! i = Some e0 /\ (row :: trest) !! i = Some row0 /\
                          expense_for e0 row0 x) rows).
      { intros rest trest. eapply Forall_impl; [exact A1|]. intros x Hx.
        exists 0%nat, e, row. split; [reflexivity|]. split; [reflexivity|exact Hx]. }
      destruct o1 as [[]|].
      * intros E2. apply IH in E2 as (done & trows & xrows & P & Hd & T2 & X2 & S2 & A2).
        exists (e :: done), (row :: trows), (rows ++ xrows).
        split; [apply prefix_cons; exact P|].
        split.
        { intros Ho. destruct (Hd Ho) as [-> Hl]. split; [reflexivity|].
          rewrite length_app, L1, Hl by reflexivity. reflexivity. }
        split; [rewrite T2, T1, <- app_assoc; reflexivity|].
        split; [rewrite X2, X1, <- app_assoc; reflexivity|].
        split; [constructor; assumption|].
        apply Forall_app. split; [apply A1'|].
        eapply Forall_impl; [exact A2|]. intros x (i & e0 & row0 & ? & ? & ?).
        exists (S i), e0, row0. split; [assumption|]. split; assumption.
      * intros [= <- <-]. exists [e], [row], rows.
        split; [apply prefix_cons, prefix_nil|].
        split; [discriminate|].
        split; [exact T1|]. split; [exact X1|].
        split; [constructor; [exact S1|constructor]|]. apply A1'.
Qed.

Lemma handleSubmit_backend answer entries w :
  backend (handleSubmit answer entries w) =
  if asked entries && negb answer then backend w
  else backend (snd (submit_entries entries
                       (emit (SetIsSubmitting true)
                          (if asked entries
                           then emit (Confirm (entryList isAdmin entries)) w else w)))).
Proof.
  unfold EntryForm.handleSubmit. fold (asked entries).
  destruct (asked entries && negb answer).
  - destruct (asked entries); reflexivity.
  - destruct (submit_entries entries _) as [[[]|] w1]; reflexivity.
Qed.

Lemma prompt_keeps_backend entries w :
  backend (emit (SetIsSubmitting true)
             (if asked entries
              then emit (Confirm (entryList isAdmin entries)) w else w)) = backend w.
Proof. destruct (asked entries); reflexivity. Qed.


(** **** The requests of a submission *)

Lemma succeeded_app kind l1 l2 :
  succeeded succeeds kind (l1 ++ l2) =
  (succeeded succeeds kind l1 + succeeded succeeds kind l2)%nat.
Proof. unfold succeeded. rewrite List.filter_app, length_app. reflexivity. Qed.

Lemma run_refl w : run succeeds w false w.
Proof.
  split; [reflexivity|]. exists [], [], [], []. rewrite !app_nil_r.
  repeat split; constructor.
Qed.

Lemma run_trans w1 w2 w3 failed :
  run succeeds w1 false w2 -> run succeeds w2 failed w3 -> run succeeds w1 failed w3.
Proof.
  intros (U1 & n1 & t1 & x1 & r1 & R1 & C1 & T1 & LT1 & X1 & LX1 & Q1 & LQ1)
         (U2 & n2 & t2 & x2 & r2 & R2 & C2 & T2 & LT2 & X2 & LX2 & Q2 & LQ2).
  split; [congruence|]. exists (n1 ++ n2), (t1 ++ t2), (x1 ++ x2), (r1 ++ r2).
  split; [rewrite R2, R1, <- app_assoc; reflexivity|]. split.
  { destruct failed.
    - destruct C2 as (l & r & -> & Cl & Fr). exists (n1 ++ l), r.
      split; [rewrite app_assoc; reflexivity|]. split; [apply Forall_app; split; assumption|exact Fr].
    - apply Forall_app. split; assumption. }
  rewrite !succeeded_app, !length_app, T2, T1, X2, X1, Q2, Q1, <- !app_assoc.
  repeat split; congruence.
Qed.

(** One request: the world after it, whether it succeeded or not. *)
Lemma run_one w b' request failed trows xrows rrows :
  failed_insert succeeds (calls w, request) = failed ->
  time_entries b' = time_entries (backend w) ++ trows ->
  length trows = succeeded succeeds InsertTimeEntry [(calls w, request)] ->
  expense_rows b' = expense_rows (backend w) ++ xrows ->
  length xrows = succeeded succeeds InsertExpense [(calls w, request)] ->
  retailers b' = retailers (backend w) ++ rrows ->
  length rrows = succeeded succeeds InsertRetailer [(calls w, request)] ->
  run succeeds w failed
      {| backend := b'; calls := S (calls w);
         requests := requests w ++ [(calls w, request)]; ui := ui w |}.
Proof.
  intros F T LT X LX Q LQ. split; [reflexivity|].
  exists [(calls w, request)], trows, xrows, rrows. cbn [requests backend].
  split; [reflexivity|]. split.
  { destruct failed.
    - exists [], (calls w, request). repeat split; [constructor|exact F].
    - constructor; [exact F|constructor]. }
  repeat split; assumption.
Qed.

Ltac run_one_step Hs :=
  unfold succeeded, failed_insert; cbn; try (cbn in Hs); rewrite ?Hs; cbn;
  rewrite ?app_nil_r; try reflexivity.

Lemma receipt_urls_run e x w o w' :
  receipt_urls succeeds isAdmin userId randomUUID blobExtension publicUrl e x w = (o, w') ->
  thrown o = false /\ run succeeds w false w'.
Proof.
  unfold receipt_urls.
  destruct (receipt_url x) as [url|]; [destruct (startsWith "blob:" url)|];
    unfold bind, ret, upload_receipt; try remote_step; intros [= <- <-];
    (split; [reflexivity|]); try apply run_refl.
  - apply (run_one w _ UploadReceipt false [] [] []); run_one_step Hs.
  - apply (run_one w _ UploadReceipt false [] [] []); run_one_step Hs.
Qed.

Lemma insert_retailer_run name w o w' :
  insert_retailer succeeds name w = (o, w') ->
  run succeeds w (match o with Done (Some _) => false | _ => true end) w'.
Proof.
  unfold insert_retailer. remote_step; intros [= <- <-].
  - eapply (run_one w _ InsertRetailer false [] [] [_]); run_one_step Hs.
  - apply (run_one w _ InsertRetailer true [] [] []); run_one_step Hs.
Qed.

Lemma retailer_for_run x w o w' :
  retailer_for succeeds x w = (o, w') -> run succeeds w (thrown o) w'.
Proof.
  unfold retailer_for.
  destruct (retailer_id x) as [rid|]; [intros [= <- <-]; apply run_refl|].
  destruct (String.length (retailer_name x) =? 0)%nat; [intros [= <- <-]; apply run_refl|].
  unfold bind, ret, throw, select_retailer.
  assert (Hsel : run succeeds w false
                   {| backend := backend w; calls := S (calls w);
                      requests := requests w ++ [(calls w, SelectRetailer)];
                      ui := ui w |}).
  { apply (run_one w _ SelectRetailer false [] [] []); run_one_step I. }
  assert (Hins : forall w1 o w',
            run succeeds w false w1 ->
            (let (o0, w'0) := insert_retailer succeeds (retailer_name x) w1 in
             match o0 with
             | Done a =>
                 match a with
                 | Some rid => fun w0 : World => (Done (Some rid), w0)
                 | None => fun w0 : World => (Thrown, w0)
                 end w'0
             | Thrown => (Thrown, w'0)
             end) = (o, w') ->
            run succeeds w (thrown o) w').
  { intros w1 o0 w0' H1.
    destruct (insert_retailer succeeds (retailer_name x) w1) as [o1 w2] eqn:E.
    apply insert_retailer_run in E. destruct o1 as [[rid|]|]; intros [= <- <-];
      (eapply run_trans; [exact H1|exact E]). }
  destruct (remote_cases SelectRetailer
              (fun (_ : nat) (b : Backend) =>
                 (map rt_id (firstn 1 (List.filter
                                         (fun r => String.eqb (rt_name r) (retailer_name x))
                                         (retailers b))), b)) w) as [[Hs ->]|[Hs ->]];
    cbn -[insert_retailer].
  - destruct (firstn 1 _) as [|r l]; cbn -[insert_retailer].
    + apply Hins. exact Hsel.
    + intros [= <- <-]. exact Hsel.
  - apply Hins. exact Hsel.
Qed.

Lemma submit_expense_run e tid x w o w' :
  submit_expense e tid x w = (o, w') -> run succeeds w (thrown o) w'.
Proof.
  unfold EntryForm.submit_expense, bind at 1.
  destruct (receipt_urls _ _ _ _ _ _ e x w) as [o1 w1] eqn:E1.
  apply receipt_urls_run in E1 as [T1 R1]. destruct o1 as [urls|]; [|discriminate].
  unfold bind at 1.
  destruct (retailer_for succeeds x w1) as [o2 w2] eqn:E2.
  apply retailer_for_run in E2. destruct o2 as [rid|].
  - unfold bind, insert_expense, ret, throw. remote_step; intros [= <- <-];
      (eapply run_trans; [exact R1|]); (eapply run_trans; [exact E2|]).
    + eapply (run_one w2 _ InsertExpense false [] [_] []); run_one_step Hs.
    + apply (run_one w2 _ InsertExpense true [] [] []); run_one_step Hs.
  - intros [= <- <-]. eapply run_trans; [exact R1|exact E2].
Qed.

Lemma submit_expenses_run e tid xs : forall w o w',
  submit_expenses e tid xs w = (o, w') -> run succeeds w (thrown o) w'.
Proof.
  induction xs as [|x xs IH]; intros w o w'; cbn [EntryForm.submit_expenses].
  - intros [= <- <-]. apply run_refl.
  - unfold bind at 1. destruct (submit_expense e tid x w) as [o1 w1] eqn:E1.
    apply submit_expense_run in E1. destruct o1 as [[]|].
    + intros E2. apply IH in E2. eapply run_trans; eassumption.
    + intros [= <- <-]. exact E1.
Qed.

Lemma submit_entry_run e w o w' :
  submit_entry e w = (o, w') -> run succeeds w (thrown o) w'.
Proof.
  unfold EntryForm.submit_entry, bind at 1, insert_time_entry.
  remote_step.
  - intros E. apply submit_expenses_run in E. eapply run_trans; [|exact E].
    eapply (run_one w _ InsertTimeEntry false [_] [] []); run_one_step Hs.
  - intros [= <- <-].
    apply (run_one w _ InsertTimeEntry true [] [] []); run_one_step Hs.
Qed.

Lemma submit_entries_run entries : forall w o w',
  submit_entries entries w = (o, w') -> run succeeds w (thrown o) w'.
Proof.
  induction entries as [|e entries IH]; intros w o w'; cbn [EntryForm.submit_entries].
  - intros [= <- <-]. apply run_refl.
  - unfold bind at 1. destruct (submit_entry e w) as [o1 w1] eqn:E1.
    apply submit_entry_run in E1. destruct o1 as [[]|].
    + intros E2. apply IH in E2. eapply run_trans; eassumption.
    + intros [= <- <-]. exact E1.
Qed.

Lemma sent_app w w' new :
  requests w' = requests w ++ new -> sent w w' = new.
Proof. intros H. unfold sent. rewrite H, drop_app_length. reflexivity. Qed.

Lemma failed_insert_last l r after l0 r0 :
  l ++ r :: after = l0 ++ [r0] ->
  clean succeeds l0 -> failed_insert succeeds r = true -> after = [].
Proof.
  intros Heq Hc Hf. destruct after as [|a after _] using rev_ind; [reflexivity|].
  exfalso. change (l ++ r :: after ++ [a]) with (l ++ (r :: after) ++ [a]) in Heq.
  rewrite app_assoc in Heq. apply app_inj_tail in Heq as [<- _].
  unfold clean in Hc. rewrite Forall_forall in Hc.
  rewrite Hc in Hf; [discriminate|]. apply elem_of_app. right. left.
Qed.

(** What a submission that is not declined leaves: the world of the loop
    with the events of its end. *)
Lemma handleSubmit_run answer entries w :
  (asked entries = true -> answer = true) ->
  exists o w1,
    submit_entries entries
      (emit (SetIsSubmitting true)
         (if asked entries then emit (Confirm (entryList isAdmin entries)) w else w))
      = (o, w1) /\
    backend (handleSubmit answer entries w) = backend w1 /\
    requests (handleSubmit answer entries w) = requests w1 /\
    calls (handleSubmit answer entries w) = calls w1 /\
    shown w (handleSubmit answer entries w) =
      (if asked entries then [Confirm (entryList isAdmin entries)] else []) ++
      SetIsSubmitting true ::
      (if thrown o then [Alert failure_message]
       else [ResetForm; Alert success_message]) ++ [SetIsSubmitting false].
Proof.
  intros Hans.
  assert (Hgo : asked entries && negb answer = false).
  { destruct (asked entries); [rewrite Hans by reflexivity|]; reflexivity. }
  rewrite handleSubmit_shown, Hgo.
  unfold EntryForm.handleSubmit. fold (asked entries). rewrite Hgo.
  destruct (submit_entries entries _) as [o w1] eqn:E.
  exists o, w1. split; [reflexivity|].
  destruct o as [[]|]; cbn; repeat split.
Qed.

(** C9 (as amended).  In a submission that is not declined no request is
    sent after an insert (of a time entry, of a retailer or of an expense)
    that failed, and the one generic failure message is then shown; when no
    insert fails, whatever lookups of retailers and uploads of receipts
    did, the whole batch is written and success is shown.  Nothing is
    deleted: each table has grown by exactly one row for every insert into
    it that succeeded, the rows of time entries being the stored forms of
    the first entries of the batch, in order, and every expense row being
    bound to the row of its own entry. *)
Theorem failed_insert_stops_submission answer entries w :
  (asked entries = true -> answer = true) ->
  (forall before r after,
     sent w (handleSubmit answer entries w) = before ++ r :: after ->
     failed_insert succeeds r = true -> after = []) /\
  ((exists r, r ∈ sent w (handleSubmit answer entries w) /\
              failed_insert succeeds r = true) ->
   shown w (handleSubmit answer entries w) =
     (if asked entries then [Confirm (entryList isAdmin entries)] else []) ++
     [SetIsSubmitting true; Alert failure_message; SetIsSubmitting false]) /\
  ((forall r, r ∈ sent w (handleSubmit answer entries w) ->
              failed_insert succeeds r = false) ->
   shown w (handleSubmit answer entries w) =
     (if asked entries then [Confirm (entryList isAdmin entries)] else []) ++
     [SetIsSubmitting true; ResetForm; Alert success_message; SetIsSubmitting false]) /\
  exists done trows xrows rrows,
    time_entries (backend (handleSubmit answer entries w)) =
      time_entries (backend w) ++ trows /\
    length trows =
      succeeded succeeds InsertTimeEntry (sent w (handleSubmit answer entries w)) /\
    expense_rows (backend (handleSubmit answer entries w)) =
      expense_rows (backend w) ++ xrows /\
    length xrows =
      succeeded succeeds InsertExpense (sent w (handleSubmit answer entries w)) /\
    retailers (backend (handleSubmit answer entries w)) =
      retailers (backend w) ++ rrows /\
    length rrows =
      succeeded succeeds InsertRetailer (sent w (handleSubmit answer entries w)) /\
    done `prefix_of` entries /\
    Forall2 stored done trows /\
    Forall (fun x => exists i e row,
                       done !! i = Some e /\ trows !! i = Some row /\
                       expense_for e row x) xrows /\
    ((forall r, r ∈ sent w (handleSubmit answer entries w) ->
                failed_insert succeeds r = false) ->
     done = entries /\ length xrows = expense_count entries).
Proof.
  intros Hans.
  destruct (handleSubmit_run answer entries w Hans) as (o & w1 & E & Hb & Hr & _ & Hs).
  set (wp := emit (SetIsSubmitting true)
               (if asked entries then emit (Confirm (entryList isAdmin entries)) w else w)) in *.
  assert (Hbp : backend wp = backend w) by (unfold wp; destruct (asked entries); reflexivity).
  assert (Hrp : requests wp = requests w) by (unfold wp; destruct (asked entries); reflexivity).
  pose proof (submit_entries_run entries wp o w1 E)
    as (_ & new & trows & xrows & rrows & R & C & T & LT & X & LX & Q & LQ).
  rewrite Hbp in T, X, Q. rewrite Hrp in R.
  assert (Hsent : sent w (handleSubmit answer entries w) = new).
  { apply sent_app. rewrite Hr. exact R. }
  rewrite Hsent, Hs, Hb.
  assert (Hfail : thrown o = true <-> exists r, r ∈ new /\ failed_insert succeeds r = true).
  { destruct o as [[]|]; cbn in C |- *.
    - split; [discriminate|]. intros (r & Hin & Hf).
      unfold clean in C. rewrite Forall_forall in C. rewrite (C r Hin) in Hf. discriminate.
    - split; [|reflexivity]. intros _. destruct C as (l & r & -> & _ & Hf).
      exists r. split; [apply elem_of_app; right; left|exact Hf]. }
  assert (Hclean : (forall r, r ∈ new -> failed_insert succeeds r = false) -> thrown o = false).
  { intros Hall. destruct (thrown o) eqn:Et; [|reflexivity].
    destruct (proj1 Hfail eq_refl) as (r & Hin & Hf). rewrite (Hall r Hin) in Hf. discriminate. }
  split; [|split; [|split]].
  - intros before r after Heq Hf. destruct o as [[]|]; cbn in C.
    + unfold clean in C. rewrite Forall_forall in C.
      rewrite C in Hf; [discriminate|]. rewrite Heq. apply elem_of_app. right. left.
    + destruct C as (l0 & r0 & Hn & Hc & _). rewrite Hn in Heq.
      exact (failed_insert_last _ _ _ _ _ (eq_sym Heq) Hc Hf).
  - intros Hex. apply Hfail in Hex. rewrite Hex. reflexivity.
  - intros Hall. rewrite (Hclean Hall). reflexivity.
  - pose proof (submit_entries_rows entries wp o w1 E)
      as (done & trows' & xrows' & P & Hd & T' & X' & S & A).
    rewrite Hbp in T', X'.
    assert (trows' = trows) by (rewrite T in T'; apply app_inv_head in T'; congruence).
    assert (xrows' = xrows) by (rewrite X in X'; apply app_inv_head in X'; congruence).
    subst trows' xrows'.
    exists done, trows, xrows, rrows. repeat split; try assumption.
    + apply Hd. apply Hclean in H. destruct o as [[]|]; [reflexivity|discriminate].
    + apply Hd. apply Hclean in H. destruct o as [[]|]; [reflexivity|discriminate].
Qed.

End SubmitFacts.

Lemma overage_confirmation_witness :
  (forall ev, ev ∈ Submission.shown Sample.world0 (Sample.submit Sample.always false [Sample.form_0900_1730]) ->
              Submission.is_confirm ev = false) /\
  Submission.shown Sample.world0 (Sample.submit Sample.always false [Sample.form_0800_1700]) =
    [EntryForm.Confirm [("this employee", 19723, 9%float)]].
Proof.
  assert (Hwf : forall l, Forall EntryForm.wf_entry l -> forall e, e ∈ l -> EntryForm.wf_entry e)
    by (intros l Hl e He; rewrite Forall_forall in Hl; apply Hl; exact He).
  assert (H8 : Forall EntryForm.wf_entry [Sample.form_0900_1730]).
  { repeat constructor; unfold Clock.wf_time, Clock.wf_lunch; simpl; lia. }
  assert (H9 : Forall EntryForm.wf_entry [Sample.form_0800_1700]).
  { repeat constructor; unfold Clock.wf_time; simpl; lia. }
  unfold Sample.submit. split.
  - refine (proj1 (proj1 (proj2 (overage_confirmation _ _ _ _ _ _ _
              false [Sample.form_0900_1730] Sample.world0 (Hwf _ H8))) _)).
    intros e He. apply list_elem_of_singleton in He as ->. vm_compute. reflexivity.
  - refine (proj2 (proj2 (proj2 (proj2 (overage_confirmation _ _ _ _ _ _ _
              false [Sample.form_0800_1700] Sample.world0 (Hwf _ H9))) _ eq_refl))).
    exists Sample.form_0800_1700. split; [apply list_elem_of_singleton; reflexivity|].
    vm_compute. reflexivity.
Defined.

Lemma failed_insert_stops_submission_witness :
  Submission.sent Sample.world0
    (Sample.submit Sample.only_first false
       [Sample.form_with_expense; Sample.form_0900_1730]) =
    [(0%nat, EntryForm.InsertTimeEntry); (1%nat, EntryForm.SelectRetailer);
     (2%nat, EntryForm.InsertRetailer)] /\
  Submission.shown Sample.world0
    (Sample.submit Sample.only_first false
       [Sample.form_with_expense; Sample.form_0900_1730]) =
    [EntryForm.SetIsSubmitting true; EntryForm.Alert Submission.failure_message;
     EntryForm.SetIsSubmitting false] /\
  length (EntryForm.time_entries (EntryForm.backend
            (Sample.submit Sample.only_first false
               [Sample.form_with_expense; Sample.form_0900_1730]))) = 1%nat.
Proof.
  unfold Sample.submit.
  assert (Hask : Submission.asked [Sample.form_with_expense; Sample.form_0900_1730] = false)
    by (vm_compute; reflexivity).
  destruct (failed_insert_stops_submission Sample.only_first false "u1" (Some "Ann")
              (fun n => JS.digits (Z.of_nat n)) (fun _ => "png") (fun path => path)
              false [Sample.form_with_expense; Sample.form_0900_1730] Sample.world0)
    as (_ & Hfail & _ & done & trows & xrows & rrows & Ht & Hlt & _).
  { rewrite Hask. discriminate. }
  assert (Hsent : Submission.sent Sample.world0
                    (EntryForm.handleSubmit Sample.only_first false "u1" (Some "Ann")
                       (fun n => JS.digits (Z.of_nat n)) (fun _ => "png") (fun path => path)
                       false [Sample.form_with_expense; Sample.form_0900_1730] Sample.world0) =
                  [(0%nat, EntryForm.InsertTimeEntry); (1%nat, EntryForm.SelectRetailer);
                   (2%nat, EntryForm.InsertRetailer)])
    by (vm_compute; reflexivity).
  split; [exact Hsent|]. split.
  - rewrite Hfail, Hask; [reflexivity|].
    exists (2%nat, EntryForm.InsertRetailer). rewrite Hsent.
    split; [right; right; left|reflexivity].
  - rewrite Ht, length_app, Hlt, Hsent. reflexivity.
Defined.

(** C9 (counterexample to the claim as stated).  A submission of one entry
    with one expense in which the second remote call, the lookup of the
    retailer by name, fails: two further calls are issued after the failed
    one, the entry and the expense are written, and the user is shown the
    success message. *)
Lemma failed_lookup_does_not_stop :
  let w' := Sample.submit Sample.all_but_second false [Sample.form_with_expense] in
  (exists n, (n < EntryForm.calls w')%nat /\ Sample.all_but_second n = false) /\
  EntryForm.calls w' = 4%nat /\
  length (EntryForm.time_entries (EntryForm.backend w')) = 1%nat /\
  length (EntryForm.expense_rows (EntryForm.backend w')) = 1%nat /\
  Submission.shown Sample.world0 w' =
    [EntryForm.SetIsSubmitting true; EntryForm.ResetForm;
     EntryForm.Alert Submission.success_message; EntryForm.SetIsSubmitting false].
Proof.
  split; [exists 1%nat; split; [vm_compute; lia|reflexivity]|].
  vm_compute. repeat split.
Qed.

(** *** Estimate worksheet *)

Lemma foldl_sum_from {A} (f : A -> float) (l : list A) : forall acc,
  foldl (fun sum x => (sum + f x)%float) acc l = Sum.starting acc (map f l).
Proof. induction l as [|x l IH]; intros acc; cbn; [reflexivity|apply IH]. Qed.

Lemma sum_from_app xs ys : forall acc,
  Sum.starting acc (xs ++ ys) = Sum.starting (Sum.starting acc xs) ys.
Proof. induction xs as [|x xs IH]; intros acc; cbn; [reflexivity|apply IH]. Qed.

Lemma subtotal_sum rows :
  Worksheet.subtotal rows = Sum.all (map Worksheet.cost rows).
Proof. apply foldl_sum_from. Qed.

Lemma hundredths_exact s e :
  0 <= e + 2 -> Worksheet.hundredths s e = s * 10 ^ (e + 2).
Proof.
  intros H. unfold Worksheet.hundredths.
  destruct (0 <=? e + 2) eqn:E; [reflexivity|]. apply Z.leb_gt in E. lia.
Qed.

(** Where digits are cut off, the hundredths are the nearest ones, the
    half going up. *)
Lemma hundredths_nearest s e :
  e + 2 < 0 ->
  2 * Worksheet.hundredths s e * 10 ^ (- (e + 2)) - 10 ^ (- (e + 2)) <= 2 * s
    < 2 * Worksheet.hundredths s e * 10 ^ (- (e + 2)) + 10 ^ (- (e + 2)).
Proof.
  intros H. unfold Worksheet.hundredths.
  destruct (0 <=? e + 2) eqn:E; [apply Z.leb_le in E; lia|].
  assert (Hq : 0 < 10 ^ (- (e + 2))) by (apply Z.pow_pos_nonneg; lia).
  set (q := 10 ^ (- (e + 2))) in *.
  pose proof (Z.div_mod (2 * s + q) (2 * q) ltac:(lia)) as Hd.
  pose proof (Z.mod_pos_bound (2 * s + q) (2 * q) ltac:(lia)) as Hm.
  nia.
Qed.

(** C4 (as amended).  The subtotal is the binary64 sum of the costs taken
    in row order from zero, the overhead amount the subtotal times the
    percentage over one hundred and the total their sum, and the payload of
    a save carries these numbers as they were computed.  Two decimals are
    made of a number where it is displayed and where the database keeps it
    in a [decimal(12,2)] column: both take the hundredths nearest to the
    number's shortest decimal, the half going up, so what the column keeps
    is what the page displays.  Rows 10.00 and 20.50 with 15 percent give
    30.5, 4.575 and 35.075, displayed as $30.50, $4.58 and $35.08 and kept
    as 30.50, 4.58 and 35.08. *)
Theorem worksheet_totals_and_rounding user_id jobName rows row pct x s e :
  Worksheet.subtotal [] = 0%float /\
  Worksheet.subtotal (rows ++ [row]) =
    (Worksheet.subtotal rows + Worksheet.cost row)%float /\
  Worksheet.subtotal rows = Sum.all (map Worksheet.cost rows) /\
  Worksheet.overheadAmount rows pct = (Worksheet.subtotal rows * pct / 100)%float /\
  Worksheet.total rows pct =
    (Worksheet.subtotal rows + Worksheet.subtotal rows * pct / 100)%float /\
  Worksheet.ed_subtotal (Worksheet.estimateData user_id jobName rows pct) =
    Worksheet.subtotal rows /\
  Worksheet.ed_overhead_amount (Worksheet.estimateData user_id jobName rows pct) =
    Worksheet.overheadAmount rows pct /\
  Worksheet.ed_total (Worksheet.estimateData user_id jobName rows pct) =
    Worksheet.total rows pct /\
  (0 <= e + 2 -> Worksheet.hundredths s e = s * 10 ^ (e + 2)) /\
  (e + 2 < 0 ->
   2 * Worksheet.hundredths s e * 10 ^ (- (e + 2)) - 10 ^ (- (e + 2)) <= 2 * s
     < 2 * Worksheet.hundredths s e * 10 ^ (- (e + 2)) + 10 ^ (- (e + 2))) /\
  match JS.shortest_decimal x with
  | Some (sgn, s, e) =>
      Worksheet.formatCurrency x =
        (if sgn then "-$" else "$") +:+
        Worksheet.group3 (JS.digits (Worksheet.hundredths s e / 100)) +:+ "." +:+
        Worksheet.two_digits (Worksheet.hundredths s e mod 100) /\
      Worksheet.decimal_12_2 x =
        if Worksheet.hundredths s e <? 10 ^ 12
        then Some (if sgn then - Worksheet.hundredths s e else Worksheet.hundredths s e)
        else None
  | None => Worksheet.decimal_12_2 x = None
  end /\
  Worksheet.subtotal Sample.worksheet_rows = JS.Number "30.50" /\
  Worksheet.overheadAmount Sample.worksheet_rows 15 = JS.Number "4.575" /\
  Worksheet.total Sample.worksheet_rows 15 = JS.Number "35.075" /\
  map Worksheet.formatCurrency
      [Worksheet.subtotal Sample.worksheet_rows;
       Worksheet.overheadAmount Sample.worksheet_rows 15;
       Worksheet.total Sample.worksheet_rows 15] = ["$30.50"; "$4.58"; "$35.08"] /\
  Worksheet.saved_totals
    (Worksheet.estimateData user_id jobName Sample.worksheet_rows 15) =
    Some (3050, 458, 3508).
Proof.
  split; [reflexivity|]. split.
  { rewrite !subtotal_sum. unfold Sum.all. rewrite map_app, sum_from_app. reflexivity. }
  split; [apply subtotal_sum|]. do 5 (split; [reflexivity|]).
  split; [apply hundredths_exact|]. split; [apply hundredths_nearest|]. split.
  { unfold Worksheet.formatCurrency, Worksheet.decimal_12_2.
    destruct (JS.shortest_decimal x) as [[[sgn s0] e0]|]; [split|]; reflexivity. }
  repeat split; vm_compute; reflexivity.
Qed.

(** C4 (counterexample to the claim as stated).  The subtotal of rows
    costing 0.1 and 0.2 is not 0.3: it prints as 0.30000000000000004; and of
    the overhead amount 4.575 of the rows 10.00 and 20.50 at 15 percent the
    database keeps 4.58. *)
Lemma worksheet_sum_inexact_and_stored_rounded :
  map JS.Number_toString (map Worksheet.cost Sample.worksheet_tenths) = ["0.1"; "0.2"] /\
  PrimFloat.eqb (Worksheet.subtotal Sample.worksheet_tenths) (JS.Number "0.3") = false /\
  JS.Number_toString (Worksheet.subtotal Sample.worksheet_tenths) = "0.30000000000000004" /\
  JS.Number_toString
    (Worksheet.ed_overhead_amount
       (Worksheet.estimateData "u1" "Shed" Sample.worksheet_rows 15)) = "4.575" /\
  Worksheet.decimal_12_2
    (Worksheet.ed_overhead_amount
       (Worksheet.estimateData "u1" "Shed" Sample.worksheet_rows 15)) = Some 458.
Proof. vm_compute. repeat split. Qed.

(** *** CSV serialization *)

Section CsvFacts.

Import Csv.

Lemma str_app_cons x (a b : string) : String x a +:+ b = String x (a +:+ b).
Proof. reflexivity. Qed.

Lemma str_app_nil_l (b : string) : EmptyString +:+ b = b.
Proof. reflexivity. Qed.

Lemma str_app_assoc (a b c : string) : (a +:+ b) +:+ c = a +:+ (b +:+ c).
Proof.
  induction a as [|x a IH]; [reflexivity|].
  rewrite !str_app_cons. f_equal. exact IH.
Qed.

Lemma str_app_nil_r (a : string) : a +:+ EmptyString = a.
Proof.
  induction a as [|x a IH]; [reflexivity|].
  rewrite str_app_cons. f_equal. exact IH.
Qed.

(** **** The text of a number holds no quote, comma or line feed *)

Lemma plain_app a b : plain (a +:+ b) = plain a && plain b.
Proof.
  induction a as [|x a IH]; [reflexivity|].
  rewrite str_app_cons. cbn [plain]. rewrite IH, andb_assoc. reflexivity.
Qed.

Lemma plain_uint u : plain (NilEmpty.string_of_uint u) = true.
Proof. induction u; cbn; try exact IHu; reflexivity. Qed.

Lemma plain_digits n : plain (JS.digits n) = true.
Proof.
  unfold JS.digits, NilZero.string_of_uint.
  destruct (N.to_uint (Z.to_N n)); try reflexivity; apply plain_uint.
Qed.

Lemma digits_nonempty n : JS.digits n <> EmptyString.
Proof.
  unfold JS.digits, NilZero.string_of_uint.
  destruct (N.to_uint (Z.to_N n)); discriminate.
Qed.

Lemma plain_zeros k : plain (JS.zeros k) = true.
Proof. induction k as [|k IH]; [reflexivity|exact IH]. Qed.

Lemma plain_take k : forall s, plain s = true -> plain (JS.take k s) = true.
Proof.
  induction k as [|k IH]; intros [|c s] H; try reflexivity.
  cbn in *. apply andb_true_iff in H as [Hc Hs]. rewrite Hc. apply IH. exact Hs.
Qed.

Lemma plain_drop k : forall s, plain s = true -> plain (JS.drop k s) = true.
Proof.
  induction k as [|k IH]; intros [|c s] H; try reflexivity; try exact H.
  cbn in *. apply andb_true_iff in H as [_ Hs]. apply IH. exact Hs.
Qed.

Lemma app_nonempty_l (a b : string) : a <> EmptyString -> a +:+ b <> EmptyString.
Proof. destruct a; [congruence|discriminate]. Qed.

Lemma app_nonempty_r (a b : string) : b <> EmptyString -> a +:+ b <> EmptyString.
Proof. destruct a; [intros H; exact H|discriminate]. Qed.

Lemma layout_plain s k n :
  plain (JS.layout s k n) = true /\ JS.layout s k n <> EmptyString.
Proof.
  unfold JS.layout, JS.exponent_part.
  pose proof (plain_digits s) as Hd. pose proof (digits_nonempty s) as Hn.
  repeat match goal with |- context [if ?b then _ else _] => destruct b end;
    rewrite ?plain_app, ?plain_zeros, ?plain_digits, ?plain_take, ?plain_drop
      by assumption;
    (split; [reflexivity|]);
    first [ apply app_nonempty_l; exact Hn
          | apply app_nonempty_r; discriminate
          | apply app_nonempty_r, app_nonempty_r; discriminate
          | apply app_nonempty_r, app_nonempty_l; discriminate
          | discriminate ].
Qed.

Lemma Number_toString_plain x :
  plain (JS.Number_toString x) = true /\ JS.Number_toString x <> EmptyString.
Proof.
  unfold JS.Number_toString.
  destruct (Prim2SF x) as [| [|] | |sgn m e]; try (split; [reflexivity|discriminate]).
  destruct (JS.shortest _ _ _ _ _ _) as [[s k] n].
  destruct (layout_plain s k n) as [Hp Hn].
  destruct sgn; [|split; assumption].
  split; [rewrite plain_app, Hp; reflexivity|discriminate].
Qed.

Lemma push_app f c s : push f c +:+ s = f +:+ String c s.
Proof. unfold push. rewrite str_app_assoc. reflexivity. Qed.

Lemma run_app a : forall r b,
  run r (a +:+ b) = match run r a with Some r' => run r' b | None => None end.
Proof.
  induction a as [|x a IH]; intros r b; [reflexivity|].
  rewrite str_app_cons. cbn [run].
  destruct (step r x); [apply IH|reflexivity].
Qed.

Lemma concat_cons sep x xs :
  String.concat sep (x :: xs) = x +:+ flat (map (String.append sep) xs).
Proof.
  revert x. induction xs as [|y xs IH]; intros x.
  - cbn. rewrite str_app_nil_r. reflexivity.
  - change (String.concat sep (x :: y :: xs))
      with (x +:+ sep +:+ String.concat sep (y :: xs)).
    rewrite (IH y). unfold flat. cbn [map foldr].
    rewrite str_app_assoc. reflexivity.
Qed.

(** The escaped text of a cell is read back as the cell. *)
Lemma run_escape s : forall r,
  state r = Quoted ->
  run r (escape s) =
  Some {| state := Quoted; field := field r +:+ s;
          fields := fields r; records := records r |}.
Proof.
  induction s as [|c s IH]; intros r Hr.
  - cbn. rewrite str_app_nil_r. destruct r; cbn in *; subst; reflexivity.
  - cbn [escape]. destruct (Ascii.eqb c dquote) eqn:E.
    + apply Ascii.eqb_eq in E. subst c.
      cbn [run]. unfold step at 1. rewrite Hr. cbn [enter state].
      rewrite Ascii.eqb_refl. unfold step at 1. cbn [state enter].
      rewrite Ascii.eqb_refl.
      rewrite IH by reflexivity. cbn [keep field fields records].
      rewrite push_app. reflexivity.
    + cbn [run]. unfold step at 1. rewrite Hr, E.
      rewrite IH by reflexivity. cbn [keep field fields records].
      rewrite push_app. reflexivity.
Qed.

Lemma run_quote s r :
  state r = FieldStart ->
  run r (quote s) =
  Some {| state := QuoteSeen; field := field r +:+ s;
          fields := fields r; records := records r |}.
Proof.
  intros Hr. unfold quote. cbn [run]. unfold step at 1. rewrite Hr.
  rewrite Ascii.eqb_refl.
  rewrite run_app, run_escape by reflexivity.
  cbn [run enter field fields records]. unfold step. cbn [state].
  rewrite Ascii.eqb_refl. reflexivity.
Qed.

(** A text without quote, comma or line feed is read as it stands. *)
Lemma run_plain s : forall r,
  plain s = true -> s <> EmptyString ->
  state r = FieldStart \/ state r = Unquoted ->
  run r s =
  Some {| state := Unquoted; field := field r +:+ s;
          fields := fields r; records := records r |}.
Proof.
  induction s as [|c s IH]; intros r Hp Hne Hr; [congruence|].
  cbn [plain] in Hp. apply andb_true_iff in Hp as [Hc Hp].
  apply negb_true_iff, orb_false_iff in Hc as [Hc Hnl].
  apply orb_false_iff in Hc as [Hq Hcm].
  assert (Hstep : step r c = Some (keep Unquoted c r)).
  { unfold step. destruct Hr as [-> | ->]; rewrite Hq, Hcm, Hnl; reflexivity. }
  cbn [run]. rewrite Hstep. destruct s as [|c' s'].
  - cbn. reflexivity.
  - rewrite IH; [|exact Hp|discriminate|right; reflexivity].
    cbn [keep field fields records]. rewrite push_app. reflexivity.
Qed.

(** A serialized cell is read back as its text. *)
Lemma run_cell c r :
  state r = FieldStart ->
  exists r', run r (serialize c) = Some r' /\
             complete r' /\ field r' = field r +:+ text c /\
             fields r' = fields r /\ records r' = records r.
Proof.
  intros Hr. destruct c as [s|x]; cbn [serialize text].
  - rewrite run_quote by exact Hr. eexists. split; [reflexivity|].
    repeat split. left. reflexivity.
  - destruct (Number_toString_plain x) as [Hp Hn].
    rewrite run_plain; [|exact Hp|exact Hn|left; exact Hr].
    eexists. split; [reflexivity|]. repeat split. right. reflexivity.
Qed.

Lemma step_comma r : complete r -> step r comma = Some (end_field r).
Proof. intros [H|H]; unfold step; rewrite H; reflexivity. Qed.

Lemma step_newline r : complete r -> step r newline = Some (end_record r).
Proof. intros [H|H]; unfold step; rewrite H; reflexivity. Qed.

(** The cells after the first one of a line. *)
Lemma run_more_cells cs : forall r,
  complete r ->
  exists r', run r (flat (map (String.append ",") (map serialize cs))) = Some r' /\
             complete r' /\
             record_of r' = record_of r ++ map text cs /\
             records r' = records r.
Proof.
  induction cs as [|c cs IH]; intros r Hr.
  - exists r. cbn. rewrite app_nil_r. repeat split. exact Hr.
  - change (flat (map (String.append ",") (map serialize (c :: cs))))
      with (String comma (serialize c) +:+
            flat (map (String.append ",") (map serialize cs))).
    rewrite run_app. cbn [run]. rewrite (step_comma r Hr).
    destruct (run_cell c (end_field r) eq_refl) as (r1 & Hrun1 & Hc1 & Hf1 & Hfs1 & Hrs1).
    rewrite Hrun1.
    destruct (IH r1 Hc1) as (r' & Hrun & Hs & Hrec & Hrs).
    exists r'. split; [exact Hrun|]. split; [exact Hs|]. split; [|rewrite Hrs, Hrs1; reflexivity].
    rewrite Hrec. unfold record_of. rewrite Hf1, Hfs1. cbn [end_field field fields].
    rewrite str_app_nil_l, <- app_assoc. reflexivity.
Qed.

(** A line of cells, read from the start of a record. *)
Lemma run_line c cs r :
  state r = FieldStart -> field r = EmptyString -> fields r = [] ->
  exists r', run r (line (c :: cs)) = Some r' /\
             complete r' /\
             record_of r' = map text (c :: cs) /\
             records r' = records r.
Proof.
  intros Hs Hf Hfs. unfold line, join. cbn [map]. rewrite concat_cons, run_app.
  destruct (run_cell c r Hs) as (r1 & Hrun1 & Hc1 & Hf1 & Hfs1 & Hrs1).
  rewrite Hrun1.
  destruct (run_more_cells cs r1 Hc1) as (r' & Hrun & Hs' & Hrec & Hrs).
  exists r'. split; [exact Hrun|]. split; [exact Hs'|]. split; [|rewrite Hrs, Hrs1; reflexivity].
  rewrite Hrec. unfold record_of. rewrite Hf1, Hfs1, Hf, Hfs. reflexivity.
Qed.

Lemma run_lines rows : forall r,
  Forall (fun row => row <> []) rows ->
  complete r ->
  exists r', run r (flat (map (String.append (String newline EmptyString))
                              (map line rows))) = Some r' /\
             complete r' /\
             records r' ++ [record_of r'] =
               records r ++ record_of r :: map (map text) rows.
Proof.
  induction rows as [|row rows IH]; intros r Hne Hc.
  - exists r. repeat split. exact Hc.
  - inversion Hne as [|? ? Hrow Hrows]; subst.
    destruct row as [|c cs]; [congruence|].
    change (flat (map (String.append (String newline EmptyString))
                      (map line ((c :: cs) :: rows))))
      with (String newline (line (c :: cs) +:+
              flat (map (String.append (String newline EmptyString))
                        (map line rows)))).
    cbn [run]. rewrite (step_newline r Hc). rewrite run_app.
    destruct (run_line c cs (end_record r) eq_refl eq_refl eq_refl)
      as (r1 & Hrun & Hs1 & Hrec1 & Hrs1).
    rewrite Hrun.
    destruct (IH r1 Hrows Hs1) as (r' & Hrun' & Hc' & Hall).
    exists r'. split; [exact Hrun'|]. split; [exact Hc'|].
    rewrite Hall, Hrec1, Hrs1. cbn [end_record records map]. unfold record_of.
    rewrite <- app_assoc. reflexivity.
Qed.

Lemma read_complete s r :
  run start s = Some r -> complete r ->
  read s = Some (records r ++ [record_of r]).
Proof.
  intros Hrun Hc. unfold read. rewrite Hrun.
  destruct Hc as [-> | ->]; reflexivity.
Qed.

(** The shape of a document: the header line as it stands, then every
    row on a line of its own. *)
Lemma document_lines headers rows :
  document headers rows =
  String.concat "," headers +:+
  flat (map (String.append (String newline EmptyString)) (map line rows)).
Proof. unfold document, join at 1. rewrite concat_cons. reflexivity. Qed.

(** A document whose header line is read as the record [headers] is read
    back as the header followed by the texts of the rows. *)
Lemma read_document headers rows rh :
  run start (join "," headers) = Some rh -> complete rh ->
  records rh = [] -> record_of rh = headers ->
  Forall (fun row => row <> []) rows ->
  read (document headers rows) = Some (headers :: map (map text) rows).
Proof.
  intros Hh Hc Hrs Hrec Hne. rewrite document_lines.
  destruct (run_lines rows rh Hne Hc) as (r' & Hrun & Hc' & Hall).
  rewrite (read_complete _ r').
  - rewrite Hall, Hrs, Hrec. reflexivity.
  - rewrite run_app. unfold join in Hh. rewrite Hh. exact Hrun.
  - exact Hc'.
Qed.

Lemma text_strings (rows : list (list string)) :
  map (map text) (map (map Str) rows) = rows.
Proof.
  induction rows as [|row rows IH]; [reflexivity|]. cbn [map]. rewrite IH. f_equal.
  induction row as [|c row IHr]; [reflexivity|]. cbn. rewrite IHr. reflexivity.
Qed.

Lemma strings_nonempty (rows : list (list string)) :
  Forall (fun row => row <> []) rows ->
  Forall (fun row : list Cell => row <> []) (map (map Str) rows).
Proof.
  intros H. apply Forall_map. eapply Forall_impl; [exact H|].
  intros [|c row] Hr; [congruence|discriminate].
Qed.

Lemma read_document_rows rows :
  rows <> [] -> Forall (fun row => row <> []) rows ->
  read (document_rows (map (map Str) rows)) = Some rows.
Proof.
  intros Hrows Hne. destruct rows as [|row rows]; [congruence|].
  inversion Hne as [|? ? Hrow Hrest]; subst.
  destruct row as [|c cs]; [congruence|].
  unfold document_rows, join. cbn [map]. rewrite concat_cons.
  destruct (run_line (Str c) (map Str cs) start eq_refl eq_refl eq_refl)
    as (r1 & Hrun & Hs1 & Hrec1 & Hrs1).
  destruct (run_lines (map (map Str) rows) r1 (strings_nonempty _ Hrest) Hs1)
    as (r' & Hrun' & Hc' & Hall).
  rewrite (read_complete _ r').
  - rewrite Hall, Hrec1, Hrs1, text_strings. cbn [map text records start app]. f_equal. f_equal.
    f_equal. clear. induction cs as [|x cs IH]; [reflexivity|]. cbn. rewrite IH. reflexivity.
  - rewrite run_app. rewrite Hrun. exact Hrun'.
  - exact Hc'.
Qed.

Lemma read_quote s : read (quote s) = Some [[s]].
Proof.
  apply (read_complete _ {| state := QuoteSeen; field := s; fields := []; records := [] |}).
  - rewrite run_quote by reflexivity. reflexivity.
  - left. reflexivity.
Qed.

Lemma activity_rows_nonempty entries :
  Forall (fun row => row <> []) (Activity.export_rows entries).
Proof.
  unfold Activity.export_rows. apply Forall_concat, Forall_map, Forall_forall.
  intros e _. unfold Activity.entry_rows.
  destruct (Row.expenses e); [repeat constructor; discriminate|].
  apply Forall_map, Forall_forall. intros x _. discriminate.
Qed.

Lemma invoice_rows_nonempty loc sd ed summary rows :
  Invoice.rows loc sd ed summary = Some rows ->
  rows <> [] /\ Forall (fun row => row <> []) rows.
Proof.
  unfold Invoice.rows.
  destruct (Invoice.breakdown_rows summary) as [breakdown|] eqn:Eb; [|discriminate].
  destruct (mapM (Invoice.detail_rows summary) (Invoice.entries summary))
    as [details|] eqn:Ed; [|discriminate].
  intros [= <-]. split; [discriminate|].
  unfold Invoice.breakdown_rows in Eb. apply mapM_Some in Eb. apply mapM_Some in Ed.
  repeat (constructor; [discriminate|]).
  apply Forall_app. split.
  { clear -Eb. induction Eb as [|kv row l k Hkv _ IH]; constructor; [|exact IH].
    cbn beta in Hkv. destruct (Invoice.toFixed2 (snd kv)); [|discriminate].
    injection Hkv as <-. discriminate. }
  repeat (constructor; [discriminate|]).
  apply Forall_app. split.
  - apply Forall_concat. clear -Ed.
    induction Ed as [|e rs l k He _ IH]; constructor; [|exact IH].
    unfold Invoice.detail_rows in He.
    destruct (Invoice.baseRow summary e) as [base|]; [|discriminate].
    injection He as <-.
    assert (Hne : forall tail : list string, tail <> [] -> base ++ tail <> []).
    { intros tail Ht H. apply app_eq_nil in H as [_ H]. contradiction. }
    destruct (Row.expenses e); [constructor; [apply Hne; discriminate|constructor]|].
    apply List.Forall_forall. intros row Hin.
    destruct Hin as [<-|Hin]; [apply Hne; discriminate|].
    apply in_map_iff in Hin as (x & <- & _). apply Hne. discriminate.
  - unfold Invoice.standalone_rows.
    destruct (Invoice.standaloneExpenses summary); [constructor|].
    apply Forall_app. split; [repeat constructor; discriminate|].
    apply Forall_map, Forall_forall. intros x _. discriminate.
Qed.

Lemma admin_rows_nonempty entries :
  Forall (fun row : list Cell => row <> []) (map Admin.export_row entries).
Proof. apply Forall_map, Forall_forall. intros e _. discriminate. Qed.

(** C7 (as amended).  A string cell is written between double quotes with
    each embedded double quote doubled, and a reader of RFC 4180 text
    recovers the cell from it.  The activity and the admin export begin
    with their column names as they stand, joined by commas, without
    quotes; every cell of their rows is a string cell written in this way
    but the Hours cell of the admin export, a number written as it prints;
    every cell of the invoice export, the header cells too, is a string
    cell written in this way.  The reader recovers from each of the three
    exports its rows, whatever commas, quotes and line breaks the cells
    hold. *)
Theorem csv_cells_quoted_and_read_back s entries timeEntries entry
    loc sd ed invoiceEntries standalone csv :
  serialize (Str s) = String dquote (escape s +:+ String dquote EmptyString) /\
  read (serialize (Str s)) = Some [[s]] /\
  Activity.exportToCSV entries =
    Sample.activity_header_line +:+
    flat (map (String.append (String newline EmptyString))
              (map line (map (map Str) (Activity.export_rows entries)))) /\
  read (Activity.exportToCSV entries) =
    Some (Activity.headers :: Activity.export_rows entries) /\
  Admin.exportToCSV timeEntries =
    Sample.admin_header_line +:+
    flat (map (String.append (String newline EmptyString))
              (map line (map Admin.export_row timeEntries))) /\
  (exists date name location startTime endTime lunch fullDay notes userId entryId,
     map serialize (Admin.export_row entry) =
     [quote date; quote name; quote location; quote startTime; quote endTime;
      quote lunch; JS.Number_toString (Admin.calculateTotalHours entry);
      quote fullDay; quote notes; quote userId; quote entryId]) /\
  read (Admin.exportToCSV timeEntries) =
    Some (Admin.headers :: map (map text) (map Admin.export_row timeEntries)) /\
  (Invoice.generateExcel loc sd ed invoiceEntries standalone = Some csv ->
   exists rows,
     Invoice.rows loc sd ed (Invoice.locationSummary invoiceEntries standalone) = Some rows /\
     csv = String.concat (String newline EmptyString)
             (map (fun row => String.concat "," (map quote row)) rows) /\
     read csv = Some rows) /\
  serialize (Str Sample.paint) = Sample.paint_serialized.
Proof.
  split; [reflexivity|]. split; [apply read_quote|].
  split; [unfold Activity.exportToCSV; rewrite document_lines; reflexivity|].
  split.
  { unfold Activity.exportToCSV.
    rewrite (read_document _ _
               {| state := Unquoted; field := "Receipt URL";
                  fields := removelast Activity.headers; records := [] |}).
    - rewrite text_strings. reflexivity.
    - vm_compute. reflexivity.
    - right. reflexivity.
    - reflexivity.
    - reflexivity.
    - apply strings_nonempty, activity_rows_nonempty. }
  split; [unfold Admin.exportToCSV; rewrite document_lines; reflexivity|].
  split; [repeat eexists|].
  split.
  { unfold Admin.exportToCSV.
    apply (read_document _ _
             {| state := Unquoted; field := "Entry ID";
                fields := removelast Admin.headers; records := [] |}).
    - vm_compute. reflexivity.
    - right. reflexivity.
    - reflexivity.
    - reflexivity.
    - apply admin_rows_nonempty. }
  split; [|vm_compute; reflexivity].
  unfold Invoice.generateExcel.
  destruct (Invoice.rows loc sd ed (Invoice.locationSummary invoiceEntries standalone))
    as [rows|] eqn:Er; [|discriminate].
  intros [= <-]. exists rows. split; [reflexivity|].
  destruct (invoice_rows_nonempty _ _ _ _ _ Er) as [Hne Hall].
  split; [|apply read_document_rows; assumption].
  unfold document_rows, join, line. rewrite map_map. f_equal.
  apply map_ext. intros row. rewrite map_map. reflexivity.
Qed.

(** C7 (counterexample to the claim as stated).  The string cells of the
    header line of the activity export are written without quotes. *)
Lemma activity_header_not_quoted :
  String.prefix (Sample.activity_header_line +:+ String newline EmptyString)
                (Activity.exportToCSV [Sample.row_0900_1730]) = true /\
  String.prefix (quote "Date") (Activity.exportToCSV [Sample.row_0900_1730]) = false.
Proof. vm_compute. split; reflexivity. Qed.

End CsvFacts.

(** *** Activity dashboard: the daily chart *)

Lemma insert_sorted_perm {A} (before : A -> A -> bool) x l :
  JS.insert_sorted before x l ≡ₚ x :: l.
Proof.
  induction l as [|y l IH]; cbn; [reflexivity|].
  destruct (before x y); [reflexivity|].
  rewrite IH. apply Permutation_swap.
Qed.

Lemma sort_perm {A} (before : A -> A -> bool) l : JS.sort before l ≡ₚ l.
Proof.
  induction l as [|x l IH]; cbn; [reflexivity|].
  unfold JS.sort in *. cbn. rewrite insert_sorted_perm, IH. reflexivity.
Qed.

Section ChartFacts.

Import Activity Report.

Lemma includes_elem_of x l : JS.includes x l = true <-> x ∈ l.
Proof.
  unfold JS.includes. rewrite existsb_exists. split.
  - intros (y & Hin & Heq). apply String.eqb_eq in Heq. subst y.
    apply list_elem_of_In. exact Hin.
  - intros Hin. exists x. split; [apply list_elem_of_In; exact Hin|apply String.eqb_refl].
Qed.

Lemma includes_not_elem_of x l : JS.includes x l = false <-> x ∉ l.
Proof.
  rewrite <- includes_elem_of. destruct (JS.includes x l); split; congruence.
Qed.

Lemma uniq_from_spec l : forall seen,
  NoDup (JS.uniq_from seen l) /\
  forall x, x ∈ JS.uniq_from seen l <-> x ∈ l /\ x ∉ seen.
Proof.
  induction l as [|y l IH]; intros seen; cbn.
  - split; [constructor|]. intros x. split; [intros H; inversion H|intros [H _]; inversion H].
  - destruct (JS.includes y seen) eqn:E.
    + apply includes_elem_of in E. destruct (IH seen) as [Hnd Hin]. split; [exact Hnd|].
      intros x. rewrite Hin, elem_of_cons. split; [tauto|].
      intros [[->|H] Hn]; [contradiction|tauto].
    + apply includes_not_elem_of in E. destruct (IH (y :: seen)) as [Hnd Hin]. split.
      * constructor; [|exact Hnd]. rewrite Hin. intros [_ Hn]. apply Hn. left.
      * intros x. rewrite !elem_of_cons, Hin, not_elem_of_cons.
        destruct (decide (x = y)) as [->|Hne]; tauto.
Qed.

(** The series of the chart: one per employee name that has an entry. *)
Lemma uniqueUsers_spec entries :
  NoDup (uniqueUsers entries) /\
  forall name, name ∈ uniqueUsers entries <-> exists e, e ∈ entries /\ Row.full_name e = name.
Proof.
  unfold uniqueUsers, JS.sort_strings, JS.uniq.
  destruct (uniq_from_spec (map Row.full_name entries) []) as [Hnd Hin].
  split; [rewrite sort_perm; exact Hnd|].
  intros name. rewrite sort_perm, Hin, list_elem_of_fmap. split.
  - intros [(e & -> & He) _]. exists e. split; [exact He|reflexivity].
  - intros (e & He & <-). split; [exists e; split; [reflexivity|exact He]|].
    intros H; inversion H.
Qed.

Lemma or_else_zero : JS.or_else 0 0 = 0%float.
Proof. reflexivity. Qed.

Lemma or_else_numerically_equal x :
  PrimFloat.is_nan x = false -> PrimFloat.eqb x (JS.or_else x 0) = true.
Proof.
  intros Hn. unfold JS.or_else, JS.truthy. rewrite Hn, orb_false_r.
  destruct (PrimFloat.eqb x 0) eqn:E; cbn.
  - exact E.
  - unfold PrimFloat.is_nan in Hn. apply negb_false_iff in Hn. exact Hn.
Qed.

(** A name that [Object.prototype] does not hold gets a cell, and the cell
    the hours and the location of the entry. *)
Lemma cell_add_entry data e d u :
  Obj.inherited u = false ->
  cell (add_entry data e) d u =
  if (Row.date e =? d) && String.eqb (Row.full_name e) u
  then Some {| hours := (match cell data d u with
                         | Some c => hours c
                         | None => 0%float
                         end + entry_hours e)%float;
               locations :=
                 let old := match cell data d u with
                            | Some c => locations c
                            | None => []
                            end in
                 if JS.includes (Row.location e) old then old
                 else old ++ [Row.location e] |}
  else cell data d u.
Proof.
  intros Hu. unfold cell, add_entry.
  destruct (Z.eqb_spec (Row.date e) d) as [->|Hd]; cbn [andb].
  - destruct (String.eqb_spec (Row.full_name e) u) as [->|Hne].
    + rewrite Hu.
      destruct (data !! d) as [day|]; [destruct (day !! u) as [c|] eqn:Ec|];
        rewrite ?lookup_empty; rewrite !lookup_insert_eq; reflexivity.
    + destruct (data !! d) as [day|];
        [destruct (day !! Row.full_name e)|rewrite lookup_empty];
        try destruct (Obj.inherited (Row.full_name e));
        rewrite lookup_insert_eq, ?lookup_insert_ne by exact Hne; reflexivity.
  - destruct (match data !! Row.date e with Some day => day | None => ∅ end
              !! Row.full_name e);
      try destruct (Obj.inherited (Row.full_name e));
      rewrite lookup_insert_ne by exact Hd; reflexivity.
Qed.

(** A name that [Object.prototype] holds never gets a cell. *)
Lemma cell_add_entry_inherited data e d u :
  Obj.inherited u = true -> cell data d u = None ->
  cell (add_entry data e) d u = None.
Proof.
  intros Hu Hc. unfold cell, add_entry in *.
  destruct (Z.eqb_spec (Row.date e) d) as [->|Hd].
  - destruct (String.eqb_spec (Row.full_name e) u) as [->|Hne].
    + rewrite Hu.
      destruct (data !! d) as [day|]; [rewrite Hc|rewrite lookup_empty];
        rewrite lookup_insert_eq; [exact Hc|apply lookup_empty].
    + destruct (data !! d) as [day|];
        [destruct (day !! Row.full_name e)|rewrite lookup_empty];
        try destruct (Obj.inherited (Row.full_name e));
        rewrite lookup_insert_eq, ?lookup_insert_ne by exact Hne;
        try exact Hc; apply lookup_empty.
  - destruct (match data !! Row.date e with Some day => day | None => ∅ end
              !! Row.full_name e);
      try destruct (Obj.inherited (Row.full_name e));
      rewrite lookup_insert_ne by exact Hd; exact Hc.
Qed.

Lemma cell_hours_foldl entries d u : forall data,
  Obj.inherited u = false ->
  hours <$> cell (foldl add_entry data entries) d u =
  match matching u d entries with
  | [] => hours <$> cell data d u
  | ms => Some (Sum.starting (default 0%float (hours <$> cell data d u))
                             (map entry_hours ms))
  end.
Proof.
  induction entries as [|e entries IH]; intros data Hu; [reflexivity|].
  cbn [foldl]. rewrite IH by exact Hu. rewrite cell_add_entry by exact Hu.
  unfold matching. cbn [List.filter].
  fold (matching u d entries).
  destruct ((Row.date e =? d) && String.eqb (Row.full_name e) u).
  - cbn [fmap option_fmap option_map default map Sum.starting].
    destruct (cell data d u) as [c|]; cbn;
      destruct (matching u d entries); reflexivity.
  - reflexivity.
Qed.

Lemma cell_foldl_inherited entries d u : forall data,
  Obj.inherited u = true -> cell data d u = None ->
  cell (foldl add_entry data entries) d u = None.
Proof.
  induction entries as [|e entries IH]; intros data Hu Hc; [exact Hc|].
  cbn [foldl]. apply IH; [exact Hu|]. apply cell_add_entry_inherited; assumption.
Qed.

Lemma empty_days_lookup (range : list Z) (d : Z) :
  forall data : gmap Z (gmap string UserDay),
  foldl (fun data date => <[date := ∅]> data) data range !! d =
  if decide (d ∈ range) then Some ∅ else data !! d.
Proof.
  induction range as [|x range IH]; intros data; cbn [foldl].
  - destruct (decide (d ∈ [])) as [H|_]; [inversion H|reflexivity].
  - rewrite IH. destruct (decide (d ∈ range)) as [Hin|Hnin].
    + rewrite decide_True by (right; exact Hin). reflexivity.
    + destruct (decide (d = x)) as [->|Hne].
      * rewrite lookup_insert_eq, decide_True by (left). reflexivity.
      * rewrite lookup_insert_ne by congruence.
        rewrite decide_False; [reflexivity|].
        intros H. apply elem_of_cons in H as [?|?]; contradiction.
Qed.

Lemma cell_empty_days range d u : cell (empty_days range) d u = None.
Proof.
  unfold cell, empty_days. rewrite empty_days_lookup.
  destruct (decide (d ∈ range)); [apply lookup_empty|rewrite lookup_empty; reflexivity].
Qed.

(** The value of a bucket: the sum of the hours of its entries, read
    through [|| 0], but [0] for a name that [Object.prototype] holds. *)
Lemma hours_at_day_table entries range u d :
  hours_at (day_table entries range) u d =
  if Obj.inherited u then 0%float else JS.or_else (day_user_hours entries u d) 0.
Proof.
  destruct (Obj.inherited u) eqn:Hu.
  - pose proof (cell_foldl_inherited entries d u (empty_days range) Hu
                  (cell_empty_days range d u)) as H.
    fold (day_table entries range) in H. unfold cell in H. unfold hours_at.
    destruct (day_table entries range !! d) as [day|]; [|reflexivity].
    rewrite H, Hu. reflexivity.
  - pose proof (cell_hours_foldl entries d u (empty_days range) Hu) as H.
    rewrite cell_empty_days in H. cbn in H.
    unfold hours_at, day_user_hours, Sum.all. fold (day_table entries range) in H.
    unfold cell in H. rewrite Hu.
    destruct (matching u d entries) as [|m ms].
    + destruct (day_table entries range !! d) as [day|]; [|reflexivity].
      destruct (day !! u); [discriminate|reflexivity].
    + destruct (day_table entries range !! d) as [day|]; [|discriminate].
      destruct (day !! u) as [c|]; [|discriminate].
      cbn in H. injection H as ->. reflexivity.
Qed.

Lemma is_Some_add_entry data e d :
  is_Some (add_entry data e !! d) <-> d = Row.date e \/ is_Some (data !! d).
Proof.
  unfold add_entry.
  destruct (match data !! Row.date e with Some day => day | None => ∅ end
            !! Row.full_name e);
    try destruct (Obj.inherited (Row.full_name e));
    (destruct (decide (d = Row.date e)) as [->|Hne];
     [rewrite lookup_insert_eq; split; [left; reflexivity|eauto]
     |rewrite lookup_insert_ne by congruence; split; [right; assumption|];
      intros [?|?]; [contradiction|assumption]]).
Qed.

Lemma is_Some_foldl_add_entry entries d : forall data,
  is_Some (foldl add_entry data entries !! d) <->
  is_Some (data !! d) \/ exists en, en ∈ entries /\ Row.date en = d.
Proof.
  induction entries as [|e entries IH]; intros data; cbn [foldl].
  - split; [left; assumption|]. intros [H|(en & Hin & _)]; [exact H|inversion Hin].
  - rewrite IH, is_Some_add_entry. split.
    + intros [[->|H]|(en & Hin & Hd)].
      * right. exists e. split; [left|reflexivity].
      * left. exact H.
      * right. exists en. split; [right; exact Hin|exact Hd].
    + intros [H|(en & Hin & Hd)].
      * left. right. exact H.
      * apply elem_of_cons in Hin as [->|Hin].
        -- left. left. symmetry. exact Hd.
        -- right. exists en. split; assumption.
Qed.

Lemma is_Some_empty_days (range : list Z) (d : Z) :
  is_Some (empty_days range !! d) <-> d ∈ range.
Proof.
  unfold empty_days. rewrite empty_days_lookup.
  destruct (decide (d ∈ range)) as [H|H].
  - split; [intros _; exact H|eauto].
  - rewrite lookup_empty. split; [intros [? ?]; discriminate|contradiction].
Qed.

Lemma sorted_keys_perm (data : gmap Z (gmap string UserDay)) :
  sorted_keys data ≡ₚ (map_to_list data).*1.
Proof. unfold sorted_keys. apply merge_sort_Permutation. Qed.

Lemma elem_of_sorted_keys (data : gmap Z (gmap string UserDay)) d :
  d ∈ sorted_keys data <-> is_Some (data !! d).
Proof.
  rewrite sorted_keys_perm, list_elem_of_fmap. split.
  - intros ([k v] & -> & Hin). apply elem_of_map_to_list in Hin. eauto.
  - intros [v Hv]. exists (d, v). split; [reflexivity|].
    apply elem_of_map_to_list. exact Hv.
Qed.

Lemma NoDup_sorted_keys (data : gmap Z (gmap string UserDay)) :
  NoDup (sorted_keys data).
Proof. rewrite sorted_keys_perm. apply NoDup_fst_map_to_list. Qed.

Lemma StronglySorted_sorted_keys (data : gmap Z (gmap string UserDay)) :
  StronglySorted Z.le (sorted_keys data).
Proof. unfold sorted_keys. apply StronglySorted_merge_sort; apply _. Qed.

Lemma StronglySorted_seqZ k : forall m, StronglySorted Z.le (seqZ m (Z.of_nat k)).
Proof.
  induction k as [|k IH]; intros m.
  - rewrite seqZ_nil by lia. constructor.
  - rewrite seqZ_cons by lia. constructor.
    + replace (Z.pred (Z.of_nat (S k))) with (Z.of_nat k) by lia. apply IH.
    + apply Forall_seqZ. intros. lia.
Qed.

(** The labels are the days of the range when every entry lies in it. *)
Lemma sorted_keys_range entries s e :
  s <= e ->
  (forall en, en ∈ entries -> s <= Row.date en <= e) ->
  sorted_keys (day_table entries (Calendar.eachDayOfInterval s e)) = seqZ s (e - s + 1).
Proof.
  intros Hse Hin.
  apply (StronglySorted_unique Z.le).
  - apply StronglySorted_sorted_keys.
  - replace (e - s + 1) with (Z.of_nat (Z.to_nat (e - s + 1))) by lia.
    apply StronglySorted_seqZ.
  - apply NoDup_Permutation; [apply NoDup_sorted_keys|apply NoDup_seqZ|].
    intros d. rewrite elem_of_sorted_keys. unfold day_table.
    rewrite is_Some_foldl_add_entry, is_Some_empty_days.
    unfold Calendar.eachDayOfInterval. rewrite elem_of_seqZ. split.
    + intros [H|(en & He & <-)]; [lia|]. specialize (Hin en He). lia.
    + intros H. left. lia.
Qed.

(** C5.  For a non-empty entry set and a range with [startDate <= endDate]
    the chart exists; its labels are distinct, ascending, and hold every
    day of the range (and nothing but the days of the range and of the
    entries: exactly the days of the range when the entries lie in it);
    there is one series for every employee name that has an entry, and no
    other.  For a name that [Object.prototype] does not hold, the value of
    the series at a label is the sum of the hours of the entries of that
    day and name, read through [|| 0]: zero when there is no such entry,
    and numerically the sum whenever the sum is a number.  For a name that
    [Object.prototype] holds the value is zero at every label, whatever
    entries there are: two entries of four and three hours under the name
    constructor give a series of zeros. *)
Theorem chart_days_zero_filled entries s e :
  entries <> [] -> s <= e ->
  (exists cd,
    chartData entries (Some s) (Some e) = Some cd /\
    NoDup (labels cd) /\ StronglySorted Z.le (labels cd) /\
    (forall d, s <= d <= e -> d ∈ labels cd) /\
    (forall d, d ∈ labels cd ->
               s <= d <= e \/ exists en, en ∈ entries /\ Row.date en = d) /\
    ((forall en, en ∈ entries -> s <= Row.date en <= e) ->
     labels cd = seqZ s (e - s + 1)) /\
    map label (datasets cd) = uniqueUsers entries /\
    NoDup (map label (datasets cd)) /\
    (forall name, name ∈ map label (datasets cd) <->
                  exists en, en ∈ entries /\ Row.full_name en = name) /\
    (forall ds, ds ∈ datasets cd ->
       data ds = map (fun d => if Obj.inherited (label ds) then 0%float
                               else JS.or_else (day_user_hours entries (label ds) d) 0)
                     (labels cd)) /\
    (forall u d, matching u d entries = [] ->
       JS.or_else (day_user_hours entries u d) 0 = 0%float) /\
    (forall u d, PrimFloat.is_nan (day_user_hours entries u d) = false ->
       PrimFloat.eqb (day_user_hours entries u d)
                     (JS.or_else (day_user_hours entries u d) 0) = true)) /\
  map entry_hours Sample.two_constructors = [4%float; 3%float] /\
  option_map (fun cd => (labels cd, map (fun ds => (label ds, data ds)) (datasets cd)))
             (chartData Sample.two_constructors (Some 19723) (Some 19724)) =
    Some ([19723; 19724], [("constructor", [0%float; 0%float])]).
Proof.
  intros Hne Hse. split; [|split; vm_compute; reflexivity].
  set (table := day_table entries (Calendar.eachDayOfInterval s e)).
  assert (Hcd : exists cd,
            chartData entries (Some s) (Some e) = Some cd /\
            labels cd = sorted_keys table /\
            map label (datasets cd) = uniqueUsers entries /\
            forall ds, ds ∈ datasets cd ->
                       data ds = map (hours_at table (label ds)) (sorted_keys table)).
  { unfold chartData. destruct entries as [|en entries']; [congruence|].
    assert (Hlt : (e <? s) = false) by (apply Z.ltb_ge; lia).
    rewrite Hlt. fold table.
    destruct (Calendar.eachDayOfInterval s e) as [|d0 range'] eqn:Er.
    { unfold Calendar.eachDayOfInterval in Er. rewrite seqZ_cons in Er by lia.
      discriminate. }
    eexists. split; [reflexivity|]. cbn [labels datasets].
    split; [reflexivity|]. split.
    - rewrite map_map. cbn. apply map_id.
    - intros ds Hds. apply list_elem_of_In, in_map_iff in Hds as (u & <- & _).
      reflexivity. }
  destruct Hcd as (cd & Hcd & Hl & Hu & Hd). exists cd.
  split; [exact Hcd|]. rewrite Hl.
  split; [apply NoDup_sorted_keys|].
  split; [apply StronglySorted_sorted_keys|].
  split.
  { intros d Hin. apply elem_of_sorted_keys. unfold table, day_table.
    apply is_Some_foldl_add_entry. left. apply is_Some_empty_days.
    unfold Calendar.eachDayOfInterval. apply elem_of_seqZ. lia. }
  split.
  { intros d Hin. apply elem_of_sorted_keys in Hin. unfold table, day_table in Hin.
    apply is_Some_foldl_add_entry in Hin as [Hin|Hin]; [left|right; exact Hin].
    apply is_Some_empty_days in Hin. unfold Calendar.eachDayOfInterval in Hin.
    apply elem_of_seqZ in Hin. lia. }
  split; [apply sorted_keys_range; exact Hse|].
  split; [exact Hu|]. rewrite Hu.
  destruct (uniqueUsers_spec entries) as [Hnd Hnames].
  split; [exact Hnd|]. split; [exact Hnames|].
  split.
  { intros ds Hds. rewrite (Hd ds Hds). apply map_ext. intros d.
    apply hours_at_day_table. }
  split.
  { intros u d Hm. unfold day_user_hours. rewrite Hm. reflexivity. }
  intros u d. apply or_else_numerically_equal.
Qed.

End ChartFacts.

Lemma chart_days_zero_filled_witness :
  exists cd,
    Activity.chartData Sample.day1_day3 (Some 19723) (Some 19725) = Some cd /\
    Activity.labels cd = [19723; 19724; 19725] /\
    map Activity.label (Activity.datasets cd) = ["Ann"; "Bob"] /\
    forall ds, ds ∈ Activity.datasets cd -> Activity.data ds !! 1%nat = Some 0%float.
Proof.
  assert (Hne : Sample.day1_day3 <> []) by discriminate.
  assert (Hse : 19723 <= 19725) by lia.
  destruct (chart_days_zero_filled Sample.day1_day3 19723 19725 Hne Hse)
    as ((cd & Hcd & _ & _ & _ & _ & Hlabels & Hnames & _ & _ & Hdata & Hzero & _) & _).
  exists cd. split; [exact Hcd|].
  assert (Hl : Activity.labels cd = [19723; 19724; 19725]).
  { rewrite Hlabels; [reflexivity|].
    intros en Hin. unfold Sample.day1_day3 in Hin.
    repeat (apply elem_of_cons in Hin as [->|Hin]; [cbn; lia|]). inversion Hin. }
  split; [exact Hl|]. split; [rewrite Hnames; vm_compute; reflexivity|].
  intros ds Hds. rewrite (Hdata ds Hds), Hl. cbn [map lookup list_lookup].
  assert (Hin : Activity.label ds ∈ ["Ann"; "Bob"]).
  { assert (Hn : map Activity.label (Activity.datasets cd) = ["Ann"; "Bob"])
      by (rewrite Hnames; vm_compute; reflexivity).
    rewrite <- Hn. apply list_elem_of_fmap. exists ds. split; [reflexivity|exact Hds]. }
  repeat (apply elem_of_cons in Hin as [->|Hin];
          [change (Obj.inherited _) with false; cbv iota; rewrite Hzero; reflexivity|]).
  inversion Hin.
Defined.

(** *** Insertion-ordered dictionaries *)

Section DictFacts.
Context {V : Type}.
Implicit Types (d : list (string * V)) (k : string) (v : V).

Lemma dict_get_set_eq k v d : Dict.get k (Dict.set k v d) = Some v.
Proof.
  induction d as [|[k' v'] d IH]; cbn.
  - rewrite String.eqb_refl. reflexivity.
  - destruct (String.eqb k k') eqn:E; cbn.
    + rewrite String.eqb_refl. reflexivity.
    + rewrite E. exact IH.
Qed.

Lemma dict_get_set_ne k k' v d :
  k <> k' -> Dict.get k' (Dict.set k v d) = Dict.get k' d.
Proof.
  intros Hne. induction d as [|[k0 v0] d IH]; cbn.
  - destruct (String.eqb_spec k' k); [congruence|reflexivity].
  - destruct (String.eqb_spec k k0) as [->|Hk]; cbn.
    + destruct (String.eqb_spec k' k0); [congruence|reflexivity].
    + destruct (String.eqb k' k0); [reflexivity|exact IH].
Qed.

Lemma dict_get_Some_keys k d : is_Some (Dict.get k d) <-> k ∈ Dict.keys d.
Proof.
  induction d as [|[k' v'] d IH]; cbn.
  - split; [intros [? ?]; discriminate|intros H; inversion H].
  - destruct (String.eqb_spec k k') as [->|Hne].
    + split; [intros _; left|eauto].
    + rewrite IH. split; [intros H; right; exact H|].
      intros H. apply elem_of_cons in H as [?|?]; [contradiction|assumption].
Qed.

Lemma dict_keys_set k v d :
  Dict.keys (Dict.set k v d) =
  if Dict.has k d then Dict.keys d else Dict.keys d ++ [k].
Proof.
  unfold Dict.has, Dict.keys. induction d as [|[k' v'] d IH]; cbn; [reflexivity|].
  destruct (String.eqb_spec k k') as [->|Hne]; cbn; [reflexivity|].
  rewrite IH. destruct (Dict.get k d); reflexivity.
Qed.

Lemma dict_NoDup_set k v d : NoDup (Dict.keys d) -> NoDup (Dict.keys (Dict.set k v d)).
Proof.
  intros Hd. rewrite dict_keys_set. unfold Dict.has.
  destruct (Dict.get k d) eqn:E; [exact Hd|].
  apply NoDup_app. split; [exact Hd|]. split; [|apply NoDup_singleton].
  intros x Hx Hx'. apply list_elem_of_singleton in Hx'. subst x.
  apply dict_get_Some_keys in Hx. rewrite E in Hx. destruct Hx; discriminate.
Qed.

Lemma dict_elem_get k v d :
  NoDup (Dict.keys d) -> (k, v) ∈ d -> Dict.get k d = Some v.
Proof.
  induction d as [|[k' v'] d IH]; intros Hd Hin; [inversion Hin|].
  cbn in Hd. apply NoDup_cons in Hd as [Hk Hd]. cbn.
  apply elem_of_cons in Hin as [Heq|Hin].
  - injection Heq as -> ->. rewrite String.eqb_refl. reflexivity.
  - destruct (String.eqb_spec k k') as [->|Hne]; [|apply IH; assumption].
    exfalso. apply Hk. apply list_elem_of_fmap. exists (k', v). split; [reflexivity|exact Hin].
Qed.

End DictFacts.

(** *** Grouping by employee name *)

Section GroupFacts.

Import Report.

Lemma of_name_cons name e entries :
  of_name name (e :: entries) =
  if String.eqb (Row.full_name e) name then e :: of_name name entries
  else of_name name entries.
Proof. reflexivity. Qed.

Lemma group_hours_add groups e name :
  Activity.pg_totalHours <$> Dict.get name (Activity.add_to_groups groups e) =
  if String.eqb (Row.full_name e) name
  then Some (default 0%float (Activity.pg_totalHours <$> Dict.get name groups)
             + Activity.entry_hours e)%float
  else Activity.pg_totalHours <$> Dict.get name groups.
Proof.
  unfold Activity.add_to_groups.
  destruct (String.eqb_spec (Row.full_name e) name) as [->|Hne].
  - rewrite dict_get_set_eq. cbn.
    destruct (Dict.get name groups); reflexivity.
  - rewrite dict_get_set_ne by exact Hne. reflexivity.
Qed.

Lemma group_hours_foldl entries name : forall groups,
  Activity.pg_totalHours <$> Dict.get name (foldl Activity.add_to_groups groups entries) =
  match of_name name entries with
  | [] => Activity.pg_totalHours <$> Dict.get name groups
  | ms => Some (Sum.starting
                  (default 0%float (Activity.pg_totalHours <$> Dict.get name groups))
                  (map Activity.entry_hours ms))
  end.
Proof.
  induction entries as [|e entries IH]; intros groups; [reflexivity|].
  cbn [foldl]. rewrite IH, group_hours_add, of_name_cons.
  destruct (String.eqb (Row.full_name e) name).
  - cbn [default map Sum.starting]. destruct (of_name name entries); reflexivity.
  - reflexivity.
Qed.

Lemma group_keys_add groups e :
  NoDup (Dict.keys groups) ->
  NoDup (Dict.keys (Activity.add_to_groups groups e)) /\
  forall name, name ∈ Dict.keys (Activity.add_to_groups groups e) <->
               name = Row.full_name e \/ name ∈ Dict.keys groups.
Proof.
  intros Hd. unfold Activity.add_to_groups. split; [apply dict_NoDup_set; exact Hd|].
  intros name. rewrite dict_keys_set. unfold Dict.has.
  destruct (Dict.get (Row.full_name e) groups) eqn:E.
  - split; [intros H; right; exact H|]. intros [->|H]; [|exact H].
    apply dict_get_Some_keys. rewrite E. eauto.
  - rewrite elem_of_app, list_elem_of_singleton. tauto.
Qed.

Lemma group_keys_foldl entries : forall groups,
  NoDup (Dict.keys groups) ->
  NoDup (Dict.keys (foldl Activity.add_to_groups groups entries)) /\
  forall name, name ∈ Dict.keys (foldl Activity.add_to_groups groups entries) <->
               name ∈ Dict.keys groups \/ exists e, e ∈ entries /\ Row.full_name e = name.
Proof.
  induction entries as [|e entries IH]; intros groups Hd; cbn [foldl].
  - split; [exact Hd|]. intros name. split; [left; assumption|].
    intros [H|(e & Hin & _)]; [exact H|inversion Hin].
  - destruct (group_keys_add groups e Hd) as [Hd' Hk].
    destruct (IH _ Hd') as [Hd'' Hk'']. split; [exact Hd''|].
    intros name. rewrite Hk'', Hk. split.
    + intros [[->|H]|(e' & Hin & He)].
      * right. exists e. split; [left|reflexivity].
      * left. exact H.
      * right. exists e'. split; [right; exact Hin|exact He].
    + intros [H|(e' & Hin & He)].
      * left. right. exact H.
      * apply elem_of_cons in Hin as [->|Hin].
        -- left. left. symmetry. exact He.
        -- right. exists e'. split; assumption.
Qed.

Section Grouped.

Variable localeCompare : string -> string -> Z.

(** The person groups: one per employee name, holding the sum of the hours
    of all entries of that name. *)
Lemma groupedEntries_by_name entries :
  NoDup (map fst (Activity.groupedEntries localeCompare entries)) /\
  (forall name, name ∈ map fst (Activity.groupedEntries localeCompare entries) <->
                exists e, e ∈ entries /\ Row.full_name e = name) /\
  (forall name g, (name, g) ∈ Activity.groupedEntries localeCompare entries ->
     Activity.pg_totalHours g =
     Sum.all (map Activity.entry_hours (of_name name entries))).
Proof.
  unfold Activity.groupedEntries.
  set (groups := foldl Activity.add_to_groups [] entries).
  destruct (group_keys_foldl entries [] (NoDup_nil_2)) as [Hd Hk]. fold groups in Hd, Hk.
  set (finished := map (fun kv : string * Activity.PersonGroup =>
                          (fst kv, Activity.finish_person (snd kv))) groups).
  assert (Hkeys : map fst finished = Dict.keys groups).
  { unfold finished, Dict.keys. rewrite map_map. reflexivity. }
  assert (Hperm : map fst (JS.sort (Activity.by_name localeCompare) finished)
                  ≡ₚ Dict.keys groups).
  { rewrite <- Hkeys. apply Permutation_map, sort_perm. }
  split; [rewrite Hperm; exact Hd|]. split.
  - intros name. rewrite Hperm, Hk. split.
    + intros [H|H]; [inversion H|exact H].
    + intros H. right. exact H.
  - intros name g Hin. rewrite sort_perm in Hin.
    apply list_elem_of_In, in_map_iff in Hin as ([name' g0] & Heq & Hin0).
    cbn in Heq. injection Heq as -> <-. cbn.
    apply list_elem_of_In in Hin0.
    pose proof (dict_elem_get _ _ _ Hd Hin0) as Hget.
    pose proof (group_hours_foldl entries name []) as Hh. fold groups in Hh.
    rewrite Hget in Hh. cbn in Hh.
    destruct (of_name name entries); [discriminate|].
    injection Hh as ->. reflexivity.
Qed.

End Grouped.

(** The invoice summary keeps one property per employee name. *)
Lemma employeeHours_foldl entries : forall acc,
  Invoice.employeeHours (foldl Invoice.add_entry acc entries) =
  foldl (fun eh e => Invoice.add_employee_hours eh (Row.full_name e) (Invoice.entry_hours e))
        (Invoice.employeeHours acc) entries.
Proof. induction entries as [|e entries IH]; intros acc; cbn; [reflexivity|apply IH]. Qed.

Lemma entries_foldl entries : forall acc,
  Invoice.entries (foldl Invoice.add_entry acc entries) = Invoice.entries acc ++ entries.
Proof.
  induction entries as [|e entries IH]; intros acc; cbn [foldl].
  - symmetry. apply app_nil_r.
  - rewrite IH. cbn [Invoice.add_entry Invoice.entries]. rewrite <- app_assoc. reflexivity.
Qed.

Lemma locationSummary_entries timeEntries standalone :
  Invoice.entries (Invoice.locationSummary timeEntries standalone) = timeEntries.
Proof. unfold Invoice.locationSummary. cbn [Invoice.entries]. apply entries_foldl. Qed.

Lemma proto_inherited k : String.eqb k "__proto__" = true -> Obj.inherited k = true.
Proof. intros H. apply String.eqb_eq in H. subst k. reflexivity. Qed.

Lemma obj_set_own {V} k (v : V) o : Obj.inherited k = false -> Obj.set k v o = Dict.set k v o.
Proof.
  intros Hk. unfold Obj.set. destruct (String.eqb k "__proto__") eqn:E; [|reflexivity].
  apply proto_inherited in E. congruence.
Qed.

Lemma obj_get_set_ne {V} k k' (v : V) o :
  k <> k' -> Dict.get k' (Obj.set k v o) = Dict.get k' o.
Proof.
  intros Hne. unfold Obj.set. destruct (String.eqb k "__proto__"); [reflexivity|].
  apply dict_get_set_ne. exact Hne.
Qed.

Lemma obj_NoDup_set {V} k (v : V) o :
  NoDup (Dict.keys o) -> NoDup (Dict.keys (Obj.set k v o)).
Proof.
  intros Hd. unfold Obj.set. destruct (String.eqb k "__proto__"); [exact Hd|].
  apply dict_NoDup_set. exact Hd.
Qed.

Lemma inherited_text_nonempty k : Obj.inherited_text k <> EmptyString.
Proof.
  unfold Obj.inherited_text. destruct (String.eqb k "__proto__"); [discriminate|].
  apply app_nonempty_l. discriminate.
Qed.

Lemma text_truthy s : s <> EmptyString -> Invoice.truthy (Invoice.Text s) = true.
Proof. destruct s; [congruence|reflexivity]. Qed.

(** One step of the rollup leaves the other names alone. *)
Lemma add_hours_other eh k h name :
  k <> name -> Dict.get name (Invoice.add_employee_hours eh k h) = Dict.get name eh.
Proof.
  intros Hne. unfold Invoice.add_employee_hours.
  rewrite obj_get_set_ne by exact Hne.
  destruct (Obj.get k eh) as [v| |]; [destruct (Invoice.truthy v)| |];
    try reflexivity; apply obj_get_set_ne; exact Hne.
Qed.

Lemma add_hours_NoDup eh k h :
  NoDup (Dict.keys eh) -> NoDup (Dict.keys (Invoice.add_employee_hours eh k h)).
Proof.
  intros Hd. unfold Invoice.add_employee_hours. apply obj_NoDup_set.
  destruct (Obj.get k eh) as [v| |]; [destruct (Invoice.truthy v)| |];
    try exact Hd; apply obj_NoDup_set; exact Hd.
Qed.

(** Under a name that [Object.prototype] does not hold the step adds the
    hours to the number kept so far. *)
Lemma add_hours_number eh k h :
  Obj.inherited k = false ->
  (forall s, Dict.get k eh <> Some (Invoice.Text s)) ->
  Dict.get k (Invoice.add_employee_hours eh k h) =
  Some (Invoice.Num
          (JS.or_else match Dict.get k eh with
                      | Some (Invoice.Num x) => x
                      | _ => 0%float
                      end 0 + h)%float).
Proof.
  intros Hk Htext. unfold Invoice.add_employee_hours, Obj.get.
  rewrite !(obj_set_own k) by exact Hk.
  destruct (Dict.get k eh) as [[x|s]|] eqn:E.
  - cbn [Invoice.truthy]. unfold JS.or_else. destruct (JS.truthy x).
    + rewrite E, dict_get_set_eq. reflexivity.
    + rewrite !dict_get_set_eq. reflexivity.
  - exfalso. exact (Htext s eq_refl).
  - rewrite Hk, !dict_get_set_eq. reflexivity.
Qed.

(** Under a name of [Object.prototype] other than [__proto__] the step
    appends the text of the hours to the text kept so far, which starts
    as the text of the inherited property. *)
Lemma add_hours_text eh k h :
  Obj.inherited k = true -> k <> "__proto__" ->
  (forall x, Dict.get k eh <> Some (Invoice.Num x)) ->
  Dict.get k eh <> Some (Invoice.Text EmptyString) ->
  Dict.get k (Invoice.add_employee_hours eh k h) =
  Some (Invoice.Text
          (match Dict.get k eh with
           | Some (Invoice.Text s) => s
           | _ => Obj.inherited_text k
           end +:+ JS.Number_toString h)).
Proof.
  intros Hk Hp Hnum Hempty. unfold Invoice.add_employee_hours, Obj.get.
  assert (Hset : forall (v : Invoice.Value) o, Obj.set k v o = Dict.set k v o).
  { intros v o. unfold Obj.set. destruct (String.eqb_spec k "__proto__"); [contradiction|reflexivity]. }
  rewrite !Hset.
  destruct (Dict.get k eh) as [[x|s]|] eqn:E.
  - exfalso. exact (Hnum x eq_refl).
  - rewrite text_truthy by congruence. rewrite E, dict_get_set_eq. reflexivity.
  - rewrite Hk, E, dict_get_set_eq. reflexivity.
Qed.

(** [__proto__] never becomes a property of the rollup. *)
Lemma add_hours_proto eh h :
  Dict.get "__proto__" eh = None ->
  Invoice.add_employee_hours eh "__proto__" h = eh.
Proof.
  intros E. unfold Invoice.add_employee_hours, Obj.get. rewrite E. reflexivity.
Qed.

Local Abbreviation rollup :=
  (foldl (fun eh e => Invoice.add_employee_hours eh (Row.full_name e) (Invoice.entry_hours e))).

Lemma employee_hours_foldl entries name :
  Obj.inherited name = false ->
  forall eh,
  (forall s, Dict.get name eh <> Some (Invoice.Text s)) ->
  Dict.get name (rollup eh entries) =
  match of_name name entries with
  | [] => Dict.get name eh
  | ms => Some (Invoice.Num
                  (Sum.restarting match Dict.get name eh with
                                  | Some (Invoice.Num x) => x
                                  | _ => 0%float
                                  end (map Invoice.entry_hours ms)))
  end.
Proof.
  intros Hname. induction entries as [|e entries IH]; intros eh Htext; [reflexivity|].
  cbn [foldl]. rewrite of_name_cons.
  destruct (String.eqb_spec (Row.full_name e) name) as [He|He].
  - pose proof (add_hours_number eh name (Invoice.entry_hours e) Hname Htext) as Hget.
    rewrite He. rewrite IH by (rewrite Hget; discriminate).
    rewrite Hget. cbn [map Sum.restarting].
    destruct (of_name name entries); reflexivity.
  - pose proof (add_hours_other eh _ (Invoice.entry_hours e) name He) as Hget.
    rewrite IH by (rewrite Hget; exact Htext). rewrite Hget. reflexivity.
Qed.

Lemma employee_text_foldl entries name :
  Obj.inherited name = true -> name <> "__proto__" ->
  forall eh,
  (forall x, Dict.get name eh <> Some (Invoice.Num x)) ->
  Dict.get name eh <> Some (Invoice.Text EmptyString) ->
  Dict.get name (rollup eh entries) =
  match of_name name entries with
  | [] => Dict.get name eh
  | ms => Some (Invoice.Text
                  (foldl (fun s e => s +:+ JS.Number_toString (Invoice.entry_hours e))
                         match Dict.get name eh with
                         | Some (Invoice.Text s) => s
                         | _ => Obj.inherited_text name
                         end ms))
  end.
Proof.
  intros Hname Hp. induction entries as [|e entries IH]; intros eh Hnum Hempty; [reflexivity|].
  cbn [foldl]. rewrite of_name_cons.
  destruct (String.eqb_spec (Row.full_name e) name) as [He|He].
  - pose proof (add_hours_text eh name (Invoice.entry_hours e) Hname Hp Hnum Hempty) as Hget.
    rewrite He.
    assert (Hne : match Dict.get name eh with
                  | Some (Invoice.Text s) => s
                  | _ => Obj.inherited_text name
                  end <> EmptyString).
    { destruct (Dict.get name eh) as [[x|s]|]; try apply inherited_text_nonempty.
      intros ->. apply Hempty. reflexivity. }
    rewrite IH.
    + rewrite Hget. cbn [foldl]. destruct (of_name name entries); reflexivity.
    + rewrite Hget. discriminate.
    + rewrite Hget. intros H. injection H as H. revert H. apply app_nonempty_l. exact Hne.
  - pose proof (add_hours_other eh _ (Invoice.entry_hours e) name He) as Hget.
    rewrite IH by (rewrite Hget; assumption). rewrite Hget. reflexivity.
Qed.

Lemma employee_proto_foldl entries : forall eh,
  Dict.get "__proto__" eh = None -> Dict.get "__proto__" (rollup eh entries) = None.
Proof.
  induction entries as [|e entries IH]; intros eh E; [exact E|].
  cbn [foldl]. apply IH.
  destruct (String.eqb_spec (Row.full_name e) "__proto__") as [->|He].
  - rewrite add_hours_proto by exact E. exact E.
  - rewrite add_hours_other by exact He. exact E.
Qed.

Lemma employee_NoDup_foldl entries : forall eh,
  NoDup (Dict.keys eh) -> NoDup (Dict.keys (rollup eh entries)).
Proof.
  induction entries as [|e entries IH]; intros eh Hd; [exact Hd|].
  cbn [foldl]. apply IH, add_hours_NoDup, Hd.
Qed.

Lemma of_name_elem name entries :
  of_name name entries <> [] <-> exists e, e ∈ entries /\ Row.full_name e = name.
Proof.
  unfold of_name. split.
  - intros Hne. destruct (List.filter _ entries) as [|e l] eqn:E; [congruence|].
    assert (Hin : In e (List.filter (fun e => String.eqb (Row.full_name e) name) entries))
      by (rewrite E; left; reflexivity).
    apply filter_In in Hin as [Hin He]. exists e.
    split; [apply list_elem_of_In; exact Hin|apply String.eqb_eq; exact He].
  - intros (e & Hin & He) Hnil.
    assert (H : In e (List.filter (fun e => String.eqb (Row.full_name e) name) entries)).
    { apply filter_In. split; [apply list_elem_of_In; exact Hin|apply String.eqb_eq; exact He]. }
    rewrite Hnil in H. destruct H.
Qed.

(** The rollup of the invoice, name by name: a number under a name that
    [Object.prototype] does not hold, a text under one it holds, and no
    property at all under [__proto__]. *)
Lemma locationSummary_by_name entries standalone :
  NoDup (Dict.keys (Invoice.employeeHours (Invoice.locationSummary entries standalone))) /\
  (forall name,
     name ∈ Dict.keys (Invoice.employeeHours (Invoice.locationSummary entries standalone)) <->
     name <> "__proto__" /\ exists e, e ∈ entries /\ Row.full_name e = name) /\
  (forall name,
     Dict.get name (Invoice.employeeHours (Invoice.locationSummary entries standalone)) =
     match of_name name entries with
     | [] => None
     | ms =>
         if String.eqb name "__proto__" then None
         else if Obj.inherited name
         then Some (Invoice.Text
                      (foldl (fun s e => s +:+ JS.Number_toString (Invoice.entry_hours e))
                             (Obj.inherited_text name) ms))
         else Some (Invoice.Num (Sum.restarting 0 (map Invoice.entry_hours ms)))
     end).
Proof.
  unfold Invoice.locationSummary. cbn [Invoice.employeeHours].
  rewrite employeeHours_foldl. cbn [Invoice.employeeHours].
  assert (Hget : forall name,
     Dict.get name (rollup [] entries) =
     match of_name name entries with
     | [] => None
     | ms =>
         if String.eqb name "__proto__" then None
         else if Obj.inherited name
         then Some (Invoice.Text
                      (foldl (fun s e => s +:+ JS.Number_toString (Invoice.entry_hours e))
                             (Obj.inherited_text name) ms))
         else Some (Invoice.Num (Sum.restarting 0 (map Invoice.entry_hours ms)))
     end).
  { intros name. destruct (String.eqb_spec name "__proto__") as [->|Hp].
    - rewrite employee_proto_foldl by reflexivity.
      destruct (of_name "__proto__" entries); reflexivity.
    - destruct (Obj.inherited name) eqn:Hi.
      + rewrite (employee_text_foldl entries name Hi Hp []) by (cbn; congruence).
        reflexivity.
      + rewrite (employee_hours_foldl entries name Hi []) by (cbn; congruence).
        reflexivity. }
  split; [apply employee_NoDup_foldl, NoDup_nil_2|]. split; [|exact Hget].
  intros name. rewrite <- dict_get_Some_keys, Hget, <- of_name_elem.
  destruct (of_name name entries) as [|m ms].
  - split; [intros [? ?]; discriminate|intros [_ H]; congruence].
  - destruct (String.eqb_spec name "__proto__") as [->|Hp].
    + split; [intros [? ?]; discriminate|intros [H _]; congruence].
    + split; [intros _; split; [exact Hp|discriminate]|intros _].
      destruct (Obj.inherited name); eauto.
Qed.

End GroupFacts.

Lemma restart_table :
  agree_block (fun m => JS.or_else (0 + JS.of_Z m / 60) 0)
              (fun m => (0 + JS.of_Z m / 60)%float) 13 (-4096).
Proof. vm_compute. repeat split. Qed.

Lemma invoice_entry_hours_minutes e :
  Row.wf_entry e ->
  exists m, -4096 <= m < 4096 /\ Invoice.entry_hours e = (JS.of_Z m / 60)%float.
Proof.
  intros (Hs & He & Hl). unfold Invoice.entry_hours.
  apply minutes_of_range in Hs, He.
  eexists. split; [|reflexivity].
  unfold Clock.differenceInMinutes.
  destruct (Row.is_full_day e); destruct (Row.lunch_break e) as [l|];
    try apply lunch_minutes_range in Hl;
    change (Clock.minutes_of Clock.t1700) with 1020;
    change (Clock.minutes_of Clock.t0900) with 540; lia.
Qed.

Lemma restarting_pair e1 e2 :
  Row.wf_entry e1 ->
  Sum.restarting 0 [Invoice.entry_hours e1; Invoice.entry_hours e2] =
  Sum.all [Invoice.entry_hours e1; Invoice.entry_hours e2].
Proof.
  intros H1. destruct (invoice_entry_hours_minutes e1 H1) as (m & Hm & ->).
  cbn [Sum.restarting Sum.all Sum.starting]. rewrite or_else_zero.
  rewrite (agree_block_elim _ _ 13 (-4096) m restart_table); [reflexivity|].
  change (2 ^ Z.of_nat 13) with 8192. lia.
Qed.

Lemma single_key (x : string) l : NoDup l -> (forall k, k ∈ l <-> k = x) -> l = [x].
Proof.
  intros Hd Hk. destruct l as [|a [|b l]].
  - exfalso. assert (H : x ∈ []) by (apply Hk; reflexivity). inversion H.
  - f_equal. apply Hk. left.
  - exfalso. assert (Ha : a = x) by (apply Hk; left).
    assert (Hb : b = x) by (apply Hk; right; left).
    apply NoDup_cons in Hd as [Hd _]. apply Hd. subst. left.
Qed.

(** C6.  The dashboard groups are keyed by the employee name alone: there
    is one group per name occurring in the entries, and its hours are the
    sum of the hours of all entries of that name, whatever their user ids.
    The invoice rollup has one property per name other than [__proto__]:
    under a name that [Object.prototype] does not hold it is the number
    summing the hours of all entries of that name (the running total is
    the one of the code, which counts a falsy total as zero); under a name
    that [Object.prototype] holds it is a text, the text of the inherited
    property followed by the texts of the hours, and no sum at all.  Two
    entries with one name are placed in a single dashboard group holding
    the sum of both entries' hours, and in a single invoice property
    holding that sum when [Object.prototype] does not hold the name; two
    entries named constructor, of four and of three hours, make a
    dashboard group of seven hours and an invoice property that is a text
    ending in 43. *)
Theorem same_name_entries_share_a_group localeCompare entries standalone e1 e2 :
  Row.wf_entry e1 -> Row.wf_entry e2 -> Row.full_name e1 = Row.full_name e2 ->
  (NoDup (map fst (Activity.groupedEntries localeCompare entries)) /\
   (forall name, name ∈ map fst (Activity.groupedEntries localeCompare entries) <->
                 exists e, e ∈ entries /\ Row.full_name e = name) /\
   (forall name g, (name, g) ∈ Activity.groupedEntries localeCompare entries ->
      Activity.pg_totalHours g =
      Sum.all (map Activity.entry_hours (Report.of_name name entries)))) /\
  (NoDup (Dict.keys (Invoice.employeeHours (Invoice.locationSummary entries standalone))) /\
   (forall name,
      name ∈ Dict.keys (Invoice.employeeHours (Invoice.locationSummary entries standalone)) <->
      name <> "__proto__" /\ exists e, e ∈ entries /\ Row.full_name e = name) /\
   (forall name,
      Obj.inherited name = false ->
      Dict.get name (Invoice.employeeHours (Invoice.locationSummary entries standalone)) =
      match Report.of_name name entries with
      | [] => None
      | ms => Some (Invoice.Num (Sum.restarting 0 (map Invoice.entry_hours ms)))
      end) /\
   (forall name,
      Obj.inherited name = true ->
      Dict.get name (Invoice.employeeHours (Invoice.locationSummary entries standalone)) =
      match Report.of_name name entries with
      | [] => None
      | ms =>
          if String.eqb name "__proto__" then None
          else Some (Invoice.Text
                       (foldl (fun s e => s +:+ JS.Number_toString (Invoice.entry_hours e))
                              (Obj.inherited_text name) ms))
      end)) /\
  map (fun kv : string * Activity.PersonGroup => (fst kv, Activity.pg_totalHours (snd kv)))
      (Activity.groupedEntries localeCompare [e1; e2]) =
    [(Row.full_name e1, Sum.all [Activity.entry_hours e1; Activity.entry_hours e2])] /\
  (Obj.inherited (Row.full_name e1) = false ->
   Invoice.employeeHours (Invoice.locationSummary [e1; e2] standalone) =
     [(Row.full_name e1,
       Invoice.Num (Sum.all [Invoice.entry_hours e1; Invoice.entry_hours e2]))]) /\
  map (fun kv : string * Activity.PersonGroup => (fst kv, Activity.pg_totalHours (snd kv)))
      (Activity.groupedEntries localeCompare Sample.two_constructors) =
    [("constructor", 7%float)] /\
  map Invoice.entry_hours Sample.two_constructors = [4%float; 3%float] /\
  Invoice.employeeHours (Invoice.locationSummary Sample.two_constructors []) =
    [("constructor", Invoice.Text "function Object() { [native code] }43")].
Proof.
  intros H1 H2 Hname.
  split; [apply groupedEntries_by_name|].
  destruct (locationSummary_by_name entries standalone) as (Hd & Hk & Hget).
  split; [split; [exact Hd|split; [exact Hk|split]]|].
  - intros name Hi. rewrite Hget, Hi.
    destruct (Report.of_name name entries); [reflexivity|].
    destruct (String.eqb name "__proto__") eqn:E; [|reflexivity].
    apply proto_inherited in E. congruence.
  - intros name Hi. rewrite Hget, Hi. reflexivity.
  - split; [|split; [|split; [|split]]].
    + unfold Activity.groupedEntries. cbn [foldl].
      unfold Activity.add_to_groups at 2. cbn [Dict.get Dict.set].
      unfold Activity.add_to_groups. cbn [Dict.get Dict.set].
      rewrite <- Hname, String.eqb_refl. cbn. reflexivity.
    + intros Hi.
      destruct (locationSummary_by_name [e1; e2] standalone) as (Hd2 & Hk2 & Hget2).
      specialize (Hget2 (Row.full_name e1)). rewrite Hi in Hget2.
      unfold Report.of_name in Hget2. cbn [List.filter] in Hget2.
      rewrite <- Hname, String.eqb_refl in Hget2.
      destruct (String.eqb (Row.full_name e1) "__proto__") eqn:E;
        [apply proto_inherited in E; congruence|].
      cbn [map] in Hget2. rewrite (restarting_pair e1 e2 H1) in Hget2.
      assert (Hkeys : Dict.keys (Invoice.employeeHours
                                   (Invoice.locationSummary [e1; e2] standalone)) =
                      [Row.full_name e1]).
      { apply single_key; [exact Hd2|]. intros k. rewrite Hk2. split.
        - intros (_ & e & Hin & <-).
          apply elem_of_cons in Hin as [->|Hin]; [reflexivity|].
          apply list_elem_of_singleton in Hin. subst e. symmetry. exact Hname.
        - intros ->. split; [intros Hp; rewrite Hp in Hi; discriminate|].
          exists e1. split; [left|reflexivity]. }
      destruct (Invoice.employeeHours (Invoice.locationSummary [e1; e2] standalone))
        as [|[k v] [|kv l]]; try discriminate.
      cbn in Hkeys. injection Hkeys as ->. cbn [Dict.get] in Hget2.
      rewrite String.eqb_refl in Hget2. injection Hget2 as ->. reflexivity.
    + vm_compute. reflexivity.
    + vm_compute. reflexivity.
    + vm_compute. reflexivity.
Qed.

Lemma same_name_entries_share_a_group_witness :
  map (fun kv : string * Activity.PersonGroup => (fst kv, Activity.pg_totalHours (snd kv)))
      (Activity.groupedEntries (fun _ _ => 0) Sample.two_anns) = [("Ann", 7%float)] /\
  Invoice.employeeHours (Invoice.locationSummary Sample.two_anns []) =
    [("Ann", Invoice.Num 7)].
Proof.
  assert (Hw : forall e, e ∈ Sample.two_anns -> Row.wf_entry e).
  { intros e He. unfold Sample.two_anns in He.
    repeat (apply elem_of_cons in He as [->|He];
            [unfold Row.wf_entry, Clock.wf_time; simpl; lia|]).
    inversion He. }
  destruct (same_name_entries_share_a_group (fun _ _ => 0) [] []
           (Sample.row "Ann" "u1" 19723 false (Sample.time 8 0) (Sample.time 12 0) None)
           (Sample.row "Ann" "u7" 19724 false (Sample.time 13 0) (Sample.time 16 0) None)
           (Hw _ (list_elem_of_here _ _))
           (Hw _ (list_elem_of_further _ _ _ (list_elem_of_here _ _)))
           eq_refl) as (_ & _ & Hg & Hi & _).
  split; [exact Hg|exact (Hi eq_refl)].
Defined.

(** *** Invoice export *)

Lemma of_name_nonempty entry entries :
  entry ∈ entries -> Report.of_name (Row.full_name entry) entries <> [].
Proof. intros Hin. apply of_name_elem. exists entry. split; [exact Hin|reflexivity]. Qed.

Lemma obj_entries_elem {V} (kv : string * V) o : kv ∈ Obj.entries o -> kv ∈ o.
Proof.
  unfold Obj.entries. rewrite elem_of_app, sort_perm.
  intros [H|H]; apply list_elem_of_In, filter_In in H as [H _];
    apply list_elem_of_In; exact H.
Qed.

(** The Hours cell exists exactly for the names that [Object.prototype]
    does not hold, and is then the text of the rollup. *)
Lemma hours_cell_rollup timeEntries standalone entry :
  entry ∈ timeEntries ->
  Invoice.hours_cell (Invoice.locationSummary timeEntries standalone) entry =
  if Obj.inherited (Row.full_name entry) then None
  else Some (JS.toFixed 2 (Sum.restarting 0
                             (map Invoice.entry_hours
                                  (Report.of_name (Row.full_name entry) timeEntries)))).
Proof.
  intros Hin. unfold Invoice.hours_cell, Obj.get.
  destruct (locationSummary_by_name timeEntries standalone) as (_ & _ & Hget).
  rewrite Hget. pose proof (of_name_nonempty entry timeEntries Hin) as Hne.
  destruct (Report.of_name (Row.full_name entry) timeEntries) as [|m ms]; [congruence|].
  destruct (String.eqb (Row.full_name entry) "__proto__") eqn:E.
  - rewrite (proto_inherited _ E). reflexivity.
  - destruct (Obj.inherited (Row.full_name entry)); reflexivity.
Qed.

Lemma detail_row_hours summary entry drows :
  Invoice.detail_rows summary entry = Some drows ->
  exists hours,
    Invoice.hours_cell summary entry = Some hours /\
    drows <> [] /\
    length drows = Nat.max 1 (length (Row.expenses entry)) /\
    forall row, row ∈ drows -> row !! 5%nat = Some hours.
Proof.
  unfold Invoice.detail_rows, Invoice.baseRow.
  destruct (Invoice.hours_cell summary entry) as [hours|]; [|discriminate].
  intros H. injection H as <-. exists hours. split; [reflexivity|].
  destruct (Row.expenses entry) as [|x xs].
  - split; [discriminate|]. split; [reflexivity|].
    intros row H. apply list_elem_of_singleton in H. subst row. reflexivity.
  - split; [discriminate|]. split; [cbn [length map]; rewrite length_map; reflexivity|].
    intros row H. apply list_elem_of_In in H. cbn [map] in H.
    destruct H as [<-|H]; [reflexivity|].
    apply in_map_iff in H as (x' & <- & _). reflexivity.
Qed.

Lemma breakdown_rows_written timeEntries standalone :
  (forall e, e ∈ timeEntries -> Obj.inherited (Row.full_name e) = false) ->
  is_Some (Invoice.breakdown_rows (Invoice.locationSummary timeEntries standalone)).
Proof.
  intros Hnames. unfold Invoice.breakdown_rows. apply mapM_is_Some, Forall_forall.
  intros [k v] Hin. unfold compose. apply obj_entries_elem in Hin.
  destruct (locationSummary_by_name timeEntries standalone) as (Hd & Hk & Hget).
  pose proof (dict_elem_get _ _ _ Hd Hin) as Hv.
  assert (Hkey : k ∈ Dict.keys (Invoice.employeeHours
                                  (Invoice.locationSummary timeEntries standalone)))
    by (apply dict_get_Some_keys; rewrite Hv; eauto).
  apply Hk in Hkey as (Hp & e & He & <-).
  rewrite Hget, (Hnames e He) in Hv.
  destruct (Report.of_name (Row.full_name e) timeEntries); [discriminate|].
  destruct (String.eqb (Row.full_name e) "__proto__"); [discriminate|].
  injection Hv as <-. cbn. eauto.
Qed.

(** The export is written exactly when no entry carries a name of
    [Object.prototype]. *)
Lemma rows_written loc sd ed timeEntries standalone :
  is_Some (Invoice.rows loc sd ed (Invoice.locationSummary timeEntries standalone)) <->
  forall e, e ∈ timeEntries -> Obj.inherited (Row.full_name e) = false.
Proof.
  split.
  - intros [rows Hrows] e He. unfold Invoice.rows in Hrows.
    destruct (Invoice.breakdown_rows _); [|discriminate].
    destruct (mapM _ _) as [details|] eqn:Hm; [|discriminate].
    rewrite locationSummary_entries in Hm. apply mapM_Some in Hm.
    apply list_elem_of_lookup in He as [i Hi].
    destruct (Forall2_lookup_l _ _ _ _ _ Hm Hi) as (drows & _ & Hdr).
    apply detail_row_hours in Hdr as (hours & Hcell & _).
    rewrite hours_cell_rollup in Hcell by (eapply list_elem_of_lookup_2; exact Hi).
    destruct (Obj.inherited (Row.full_name e)); [discriminate|reflexivity].
  - intros Hnames. unfold Invoice.rows.
    destruct (breakdown_rows_written timeEntries standalone Hnames) as [b ->].
    assert (Hd : is_Some (mapM (Invoice.detail_rows
                                  (Invoice.locationSummary timeEntries standalone))
                               (Invoice.entries
                                  (Invoice.locationSummary timeEntries standalone)))).
    { rewrite locationSummary_entries. apply mapM_is_Some, Forall_forall.
      intros e He. unfold compose, Invoice.detail_rows, Invoice.baseRow.
      rewrite hours_cell_rollup by exact He. rewrite (Hnames e He). cbn. eauto. }
    destruct Hd as [d ->]. eauto.
Qed.

(** C10.  In every invoice export that is written, the Hours cell (the
    sixth cell, under the header [Hours]) of every detail row is the
    two-decimal text of the employee's rolled-up hours over all selected
    entries of that name, so the detail rows of one employee name all
    carry the same Hours cell, whatever the duration of the single entry.
    Each selected entry has its detail rows in the export, one per expense
    and one when it has none.  The export is written exactly when no
    selected entry carries a name that [Object.prototype] holds; for two
    entries named constructor nothing is written. *)
Theorem invoice_hours_cell_is_rollup loc sd ed timeEntries standalone rows entry :
  Invoice.rows loc sd ed (Invoice.locationSummary timeEntries standalone) = Some rows ->
  entry ∈ timeEntries ->
  Invoice.headers !! 5%nat = Some "Hours" /\
  Invoice.generateExcel loc sd ed timeEntries standalone =
    Some (Csv.document_rows (map (map Csv.Str) rows)) /\
  (exists drows,
     Invoice.detail_rows (Invoice.locationSummary timeEntries standalone) entry
       = Some drows /\
     length drows = Nat.max 1 (length (Row.expenses entry)) /\
     forall row, row ∈ drows ->
       row ∈ rows /\
       row !! 5%nat =
         Some (JS.toFixed 2
                 (Sum.restarting 0
                    (map Invoice.entry_hours
                         (Report.of_name (Row.full_name entry) timeEntries)))) /\
       forall entry' drows' row',
         entry' ∈ timeEntries ->
         Invoice.detail_rows (Invoice.locationSummary timeEntries standalone) entry'
           = Some drows' ->
         row' ∈ drows' ->
         Row.full_name entry' = Row.full_name entry ->
         row' !! 5%nat = row !! 5%nat) /\
  ((exists written,
      Invoice.rows loc sd ed (Invoice.locationSummary timeEntries standalone)
        = Some written) <->
   forall e, e ∈ timeEntries -> Obj.inherited (Row.full_name e) = false) /\
  Invoice.generateExcel loc sd ed Sample.two_constructors [] = None.
Proof.
  intros Hrows Hin. split; [reflexivity|].
  split; [unfold Invoice.generateExcel; rewrite Hrows; reflexivity|].
  split; [|split; [apply rows_written|]].
  - assert (Hnames : forall e, e ∈ timeEntries -> Obj.inherited (Row.full_name e) = false)
      by (apply (rows_written loc sd ed timeEntries standalone); eauto).
    unfold Invoice.rows in Hrows.
    destruct (Invoice.breakdown_rows _) as [breakdown|]; [|discriminate].
    destruct (mapM _ _) as [details|] eqn:Hm; [|discriminate].
    injection Hrows as <-.
    rewrite locationSummary_entries in Hm. apply mapM_Some in Hm.
    pose proof Hin as Hin0.
    apply list_elem_of_lookup in Hin as [i Hi].
    destruct (Forall2_lookup_l _ _ _ _ _ Hm Hi) as (drows & Hdi & Hdr).
    exists drows. split; [exact Hdr|].
    destruct (detail_row_hours _ _ _ Hdr) as (hours & Hcell & _ & Hlen & Hrow).
    split; [exact Hlen|].
    rewrite hours_cell_rollup, (Hnames entry Hin0) in Hcell by exact Hin0.
    injection Hcell as <-.
    intros row Hr. split; [|split].
    + repeat (apply elem_of_cons; right). apply elem_of_app; right.
      repeat (apply elem_of_cons; right). apply elem_of_app; left.
      apply list_elem_of_In, in_concat. exists drows.
      split; apply list_elem_of_In; [eapply list_elem_of_lookup_2; exact Hdi|exact Hr].
    + apply Hrow. exact Hr.
    + intros entry' drows' row' Hin' Hdr' Hr' Hname.
      destruct (detail_row_hours _ _ _ Hdr') as (hours' & Hcell' & _ & _ & Hrow').
      rewrite hours_cell_rollup, (Hnames entry' Hin'), Hname in Hcell' by exact Hin'.
      injection Hcell' as <-.
      rewrite (Hrow' _ Hr'), (Hrow _ Hr). reflexivity.
  - vm_compute. reflexivity.
Qed.

Lemma invoice_hours_cell_is_rollup_witness :
  exists rows,
    Invoice.rows "Barn" 19723 19724 (Invoice.locationSummary Sample.two_anns []) = Some rows /\
    Invoice.detail_rows (Invoice.locationSummary Sample.two_anns [])
      (Sample.row "Ann" "u1" 19723 false (Sample.time 8 0) (Sample.time 12 0) None) =
      Some [["01/01/2024"; "Ann"; "08:00:00"; "12:00:00"; ""; "7.00"; ""; ""; ""; ""; ""]] /\
    ["01/01/2024"; "Ann"; "08:00:00"; "12:00:00"; ""; "7.00"; ""; ""; ""; ""; ""] ∈ rows /\
    JS.toFixed 2 (Invoice.entry_hours
                    (Sample.row "Ann" "u1" 19723 false (Sample.time 8 0) (Sample.time 12 0)
                                None)) = "4.00".
Proof.
  destruct (Invoice.rows "Barn" 19723 19724 (Invoice.locationSummary Sample.two_anns []))
    as [rows|] eqn:Hrows; [|vm_compute in Hrows; discriminate].
  exists rows. split; [reflexivity|].
  destruct (invoice_hours_cell_is_rollup "Barn" 19723 19724 Sample.two_anns [] rows
              (Sample.row "Ann" "u1" 19723 false (Sample.time 8 0) (Sample.time 12 0) None)
              Hrows (list_elem_of_here _ _)) as (_ & _ & (drows & Hdr & _ & Hall) & _).
  assert (Hd : Invoice.detail_rows (Invoice.locationSummary Sample.two_anns [])
      (Sample.row "Ann" "u1" 19723 false (Sample.time 8 0) (Sample.time 12 0) None) =
      Some [["01/01/2024"; "Ann"; "08:00:00"; "12:00:00"; ""; "7.00"; ""; ""; ""; ""; ""]])
    by (vm_compute; reflexivity).
  split; [exact Hd|]. split; [|vm_compute; reflexivity].
  rewrite Hd in Hdr. injection Hdr as <-.
  apply (Hall _ (list_elem_of_here _ _)).
Defined.
